(** * Verification of the frame streaming server (PythonStreamServer)

    A shallow embedding of [src/src/PythonStreamServer.cpp] and
    [src/include/PythonStreamServer.h]: the bounded frame queue, the
    conversion of a driver frame into a [StreamFrame], the wire format
    written by [sendFrameToClient], the per-connection handler and the
    start/stop lifecycle.

    Conventions of the embedding.
    - [uint32_t] and [uint64_t] values are integers of [Z]; every
      conversion to such a type is written [wrap32] or [wrap64].
    - A byte buffer reached through a pointer is a [list byte]; a pointer
      is an [option]: [None] is the null pointer, [Some buf] points at
      the readable bytes [buf].  Where it matters which array a pointer
      points at (the ownership of the buffers of a frame), the code is
      read on a memory with addresses, in the module [Mem].
    - What the environment decides (the clock, whether [new] succeeds,
      how many bytes the kernel takes in a [send], what the socket calls
      of [start] return, where the accept thread is when [stop] joins
      it, what the other threads do while a handler runs) is an explicit
      argument or a script stored in the socket, so every function below
      computes.
    - Reading past the end of a buffer or through a null pointer is
      undefined behaviour; it is a result of its own ([Undefined]), never
      silently given a meaning. *)

From Stdlib Require Import ZArith List Bool Lia Sorted Permutation.
From coqutil Require Import Byte Word.LittleEndianList.
Import ListNotations.
Local Open Scope Z_scope.

(* ===================================================================== *)
(** ** Machine integers and object representations *)
(* ===================================================================== *)

Definition wrap32 (z : Z) : Z := z mod 2 ^ 32.
Definition wrap64 (z : Z) : Z := z mod 2 ^ 64.

(** [int] of the platform (32 bits, two's complement); the atomic client
    counter is one. *)
Definition wrap_int (z : Z) : Z := (z + 2 ^ 31) mod 2 ^ 32 - 2 ^ 31.

Definition is_u32 (z : Z) : Prop := 0 <= z < 2 ^ 32.
Definition is_u64 (z : Z) : Prop := 0 <= z < 2 ^ 64.

(** The header is sent as the bytes of the struct in memory, so the byte
    order is the platform's. *)
Inductive byte_order : Type := LittleEndian | BigEndian.

(** The [n] bytes an unsigned integer occupies in memory. *)
Definition store_uint (bo : byte_order) (n : nat) (v : Z) : list byte :=
  match bo with
  | LittleEndian => le_split n v
  | BigEndian => rev (le_split n v)
  end.

(** The unsigned integer some bytes of memory hold. *)
Definition load_uint (bo : byte_order) (bs : list byte) : Z :=
  match bo with
  | LittleEndian => le_combine bs
  | BigEndian => le_combine (rev bs)
  end.

(** A pointer to bytes. *)
Definition pointer : Type := option (list byte).

Definition is_null {A : Type} (p : option A) : bool :=
  match p with None => true | Some _ => false end.

(** Reading [n] bytes through [p]: what [memcpy] reads from its source
    and what [send] reads from its buffer.  [None] is undefined
    behaviour. *)
Definition read_bytes (p : pointer) (n : Z) : option (list byte) :=
  match p with
  | None => None
  | Some buf =>
      if Z.of_nat (length buf) <? n then None
      else Some (firstn (Z.to_nat n) buf)
  end.

(* ===================================================================== *)
(** ** Results of calls *)
(* ===================================================================== *)

Inductive exception : Type := bad_alloc.

(** A call returns, throws, or has undefined behaviour. *)
Inductive outcome (A : Type) : Type :=
| Returns (a : A)
| Throws (e : exception)
| Undefined.
Arguments Returns {A} a.
Arguments Throws {A} e.
Arguments Undefined {A}.

Definition bind {A B : Type} (m : outcome A) (k : A -> outcome B) : outcome B :=
  match m with
  | Returns a => k a
  | Throws e => Throws e
  | Undefined => Undefined
  end.

Notation "x <- m ;; k" := (bind m (fun x => k))
  (at level 61, m at next level, right associativity).
Notation "' pat <- m ;; k" := (bind m (fun x => match x with pat => k end))
  (at level 61, pat pattern, m at next level, right associativity).

(* ===================================================================== *)
(** ** Frames *)
(* ===================================================================== *)

(** [struct StreamFrame] of PythonStreamServer.h.  A [shared_ptr<uint8_t>]
    is a [pointer] to the array it owns. *)
Record StreamFrame : Type := mkStreamFrame {
  timestamp : Z;
  frame_id : Z;
  depth_width : Z;
  depth_height : Z;
  depth_size : Z;
  depth_data : pointer;
  rgb_width : Z;
  rgb_height : Z;
  rgb_size : Z;
  rgb_data : pointer;
  ir_width : Z;
  ir_height : Z;
  ir_size : Z;
  ir_data : pointer
}.

(** Modelled from the spec: the driver's frame record [AS_SDK_Data_s] of
    as_camera_sdk_def.h, which is not among the sources.  Per modality
    the spec gives (width, height, size, dataPointer); the fields are
    kept as integers so that the conversions of [convertToStreamFrame]
    to [uint32_t] stay visible. *)
Record AS_Frame_s : Type := mkFrame {
  width : Z;
  height : Z;
  size : Z;
  data : pointer
}.

Record AS_SDK_Data_s : Type := mkData {
  depthImg : AS_Frame_s;
  rgbImg : AS_Frame_s;
  irImg : AS_Frame_s
}.

(** One plane of a [StreamFrame]: width, height, size, data. *)
Record Plane : Type := mkPlane {
  p_width : Z;
  p_height : Z;
  p_size : Z;
  p_data : pointer
}.

Definition depth_plane (f : StreamFrame) : Plane :=
  mkPlane (depth_width f) (depth_height f) (depth_size f) (depth_data f).
Definition rgb_plane (f : StreamFrame) : Plane :=
  mkPlane (rgb_width f) (rgb_height f) (rgb_size f) (rgb_data f).
Definition ir_plane (f : StreamFrame) : Plane :=
  mkPlane (ir_width f) (ir_height f) (ir_size f) (ir_data f).

(* ===================================================================== *)
(** ** convertToStreamFrame *)
(* ===================================================================== *)

(** [new uint8_t[n]]: the next entry of the script [allocs] says whether
    the allocation succeeds (an empty script: it does).  The fresh array
    has [n] bytes; their initial value is never read. *)
Definition operator_new (allocs : list bool) (n : Z)
  : outcome (list byte * list bool) :=
  match allocs with
  | false :: _ => Throws bad_alloc
  | true :: rest => Returns (repeat Byte.x00 (Z.to_nat n), rest)
  | [] => Returns (repeat Byte.x00 (Z.to_nat n), [])
  end.

(** [memcpy(dst, src, n)]: the first [n] bytes of [dst] become the first
    [n] bytes read through [src]. *)
Definition memcpy (dst : list byte) (src : pointer) (n : Z)
  : outcome (list byte) :=
  if Z.of_nat (length dst) <? n then Undefined
  else match read_bytes src n with
       | None => Undefined
       | Some bs => Returns (bs ++ skipn (Z.to_nat n) dst)
       end.

(** The block repeated for depth, RGB and IR in [convertToStreamFrame]:
<<
    if (img.size > 0) {
        frame.w = img.width; frame.h = img.height; frame.size = img.size;
        frame.data = shared_ptr<uint8_t>(new uint8_t[frame.size], ...);
        memcpy(frame.data.get(), img.data, frame.size);
    } else {
        frame.w = frame.h = frame.size = 0;
    }
>>
    In the [else] branch the pointer keeps the null value the default
    constructor of [shared_ptr] gave it. *)
Definition copy_plane (img : AS_Frame_s) (allocs : list bool)
  : outcome (Plane * list bool) :=
  if size img >? 0 then
    let w := wrap32 (width img) in
    let h := wrap32 (height img) in
    let sz := wrap32 (size img) in
    '(buf, allocs') <- operator_new allocs sz ;;
    buf' <- memcpy buf (data img) sz ;;
    Returns (mkPlane w h sz (Some buf'), allocs')
  else
    Returns (mkPlane 0 0 0 None, allocs).

(* ===================================================================== *)
(** ** The server object *)
(* ===================================================================== *)

(** The data members of [class PythonStreamServer].  [m_server_thread]
    is [true] when the thread object is joinable (the accept loop was
    started and not joined); [m_frame_mutex] has no state of its own in
    a sequential reading. *)
Record PythonStreamServer : Type := mkServer {
  m_port : Z;
  m_server_socket : Z;
  m_running : bool;
  m_connected_clients : Z;
  m_server_thread : bool;
  m_frame_queue : list StreamFrame;
  m_frame_counter : Z
}.

Definition MAX_QUEUE_SIZE : nat := 10.

(** The constructor [PythonStreamServer(int port)]. *)
Definition new_server (port : Z) : PythonStreamServer :=
  mkServer port (-1) false 0 false [] 0.

Definition set_server_socket (s : PythonStreamServer) (fd : Z) : PythonStreamServer :=
  mkServer (m_port s) fd (m_running s) (m_connected_clients s)
           (m_server_thread s) (m_frame_queue s) (m_frame_counter s).
Definition set_running (s : PythonStreamServer) (b : bool) : PythonStreamServer :=
  mkServer (m_port s) (m_server_socket s) b (m_connected_clients s)
           (m_server_thread s) (m_frame_queue s) (m_frame_counter s).
Definition set_connected_clients (s : PythonStreamServer) (n : Z) : PythonStreamServer :=
  mkServer (m_port s) (m_server_socket s) (m_running s) n
           (m_server_thread s) (m_frame_queue s) (m_frame_counter s).
Definition set_server_thread (s : PythonStreamServer) (b : bool) : PythonStreamServer :=
  mkServer (m_port s) (m_server_socket s) (m_running s) (m_connected_clients s)
           b (m_frame_queue s) (m_frame_counter s).
Definition set_frame_queue (s : PythonStreamServer) (q : list StreamFrame) : PythonStreamServer :=
  mkServer (m_port s) (m_server_socket s) (m_running s) (m_connected_clients s)
           (m_server_thread s) q (m_frame_counter s).
Definition set_frame_counter (s : PythonStreamServer) (c : Z) : PythonStreamServer :=
  mkServer (m_port s) (m_server_socket s) (m_running s) (m_connected_clients s)
           (m_server_thread s) (m_frame_queue s) c.

(** [convertToStreamFrame]: [now] is the clock reading in microseconds
    (a signed 64-bit count stored into the [uint64_t] field), [allocs]
    the script of the allocator.  The counter is incremented before any
    allocation, so the new server state does not depend on the outcome. *)
Definition convertToStreamFrame (now : Z) (allocs : list bool)
    (pstData : AS_SDK_Data_s) (s : PythonStreamServer)
  : PythonStreamServer * outcome StreamFrame :=
  let ts := wrap64 now in
  let s1 := set_frame_counter s (wrap32 (m_frame_counter s + 1)) in
  let id := m_frame_counter s1 in
  (s1,
   '(d, a1) <- copy_plane (depthImg pstData) allocs ;;
   '(r, a2) <- copy_plane (rgbImg pstData) a1 ;;
   '(i, _) <- copy_plane (irImg pstData) a2 ;;
   Returns (mkStreamFrame ts id
              (p_width d) (p_height d) (p_size d) (p_data d)
              (p_width r) (p_height r) (p_size r) (p_data r)
              (p_width i) (p_height i) (p_size i) (p_data i))).

(** The loop [while (m_frame_queue.size() >= MAX_QUEUE_SIZE) m_frame_queue.pop();]
    of [pushFrame]: [pop] removes the front element. *)
Fixpoint evict (q : list StreamFrame) : list StreamFrame :=
  if (MAX_QUEUE_SIZE <=? length q)%nat then
    match q with
    | [] => []
    | _ :: q' => evict q'
    end
  else q.

(** [pushFrame].  An exception of [convertToStreamFrame] is not caught
    here: it leaves [pushFrame] before the queue is touched. *)
Definition pushFrame (now : Z) (allocs : list bool)
    (pstData : option AS_SDK_Data_s) (s : PythonStreamServer)
  : PythonStreamServer * outcome unit :=
  if negb (m_running s) || is_null pstData then (s, Returns tt)
  else
    match pstData with
    | None => (s, Returns tt)
    | Some d =>
        let (s1, r) := convertToStreamFrame now allocs d s in
        match r with
        | Returns frame =>
            (set_frame_queue s1 (evict (m_frame_queue s1) ++ [frame]), Returns tt)
        | Throws e => (s1, Throws e)
        | Undefined => (s1, Undefined)
        end
    end.

(** The locked block of [clientHandler] that takes the front frame:
    "empty" is [None]. *)
Definition tryPop (s : PythonStreamServer) : option StreamFrame * PythonStreamServer :=
  match m_frame_queue s with
  | [] => (None, s)
  | frame :: rest => (Some frame, set_frame_queue s rest)
  end.

(* ===================================================================== *)
(** ** Sockets *)
(* ===================================================================== *)

(** What the program can observe of a socket, and what it wrote to it.
    [sk_script] decides the next calls of [send]: [None] makes the call
    fail, [Some c] makes the kernel take at most [c] bytes; when the
    script is used up every call takes all the bytes. *)
Record Socket : Type := mkSocket {
  sk_open : bool;
  sk_listening : bool;
  sk_shut : bool;
  sk_wire : list byte;
  sk_script : list (option nat)
}.

Definition fresh_socket : Socket := mkSocket true false false [] [].

Definition close_socket (sk : Socket) : Socket :=
  mkSocket false (sk_listening sk) (sk_shut sk) (sk_wire sk) (sk_script sk).
Definition shutdown_socket (sk : Socket) : Socket :=
  mkSocket (sk_open sk) (sk_listening sk) true (sk_wire sk) (sk_script sk).
Definition listen_socket (sk : Socket) : Socket :=
  mkSocket (sk_open sk) true (sk_shut sk) (sk_wire sk) (sk_script sk).

(** [send(fd, buf, len, MSG_NOSIGNAL)]: the bytes are read through [buf];
    the result is the number of bytes taken, or -1. *)
Definition send (sk : Socket) (buf : pointer) (len : Z) : outcome (Z * Socket) :=
  match read_bytes buf len with
  | None => Undefined
  | Some bs =>
      if negb (sk_open sk) || sk_shut sk then Returns (-1, sk)
      else
        match sk_script sk with
        | [] =>
            Returns (Z.of_nat (length bs),
                     mkSocket (sk_open sk) (sk_listening sk) (sk_shut sk)
                              (sk_wire sk ++ bs) [])
        | None :: rest =>
            Returns (-1,
                     mkSocket (sk_open sk) (sk_listening sk) (sk_shut sk)
                              (sk_wire sk) rest)
        | Some c :: rest =>
            let n := Nat.min c (length bs) in
            Returns (Z.of_nat n,
                     mkSocket (sk_open sk) (sk_listening sk) (sk_shut sk)
                              (sk_wire sk ++ firstn n bs) rest)
        end
  end.

(** The file descriptor table. *)
Definition OS : Type := Z -> Socket.

Definition os_set (o : OS) (fd : Z) (sk : Socket) : OS :=
  fun fd' => if fd' =? fd then sk else o fd'.

Record World : Type := mkWorld {
  srv : PythonStreamServer;
  os : OS
}.

(* ===================================================================== *)
(** ** sendFrameToClient and the connection handler *)
(* ===================================================================== *)

(** The local [struct FrameHeader] of [sendFrameToClient]. *)
Record FrameHeader : Type := mkHeader {
  h_timestamp : Z;
  h_frame_id : Z;
  h_depth_width : Z;
  h_depth_height : Z;
  h_depth_size : Z;
  h_rgb_width : Z;
  h_rgb_height : Z;
  h_rgb_size : Z;
  h_ir_width : Z;
  h_ir_height : Z;
  h_ir_size : Z
}.

(** [sizeof(header)]: one 8-byte member at offset 0 and ten 4-byte
    members at offsets 8, 12, ..., 44; the struct is 8-aligned and 48 is a
    multiple of 8, so there is no padding. *)
Definition sizeof_header : Z := 48.

Section Platform.

(** The byte order of the machine the server runs on. *)
Variable native : byte_order.

(** The bytes of a [FrameHeader] object in memory, members in
    declaration order. *)
Definition header_bytes (h : FrameHeader) : list byte :=
  store_uint native 8 (h_timestamp h) ++
  store_uint native 4 (h_frame_id h) ++
  store_uint native 4 (h_depth_width h) ++
  store_uint native 4 (h_depth_height h) ++
  store_uint native 4 (h_depth_size h) ++
  store_uint native 4 (h_rgb_width h) ++
  store_uint native 4 (h_rgb_height h) ++
  store_uint native 4 (h_rgb_size h) ++
  store_uint native 4 (h_ir_width h) ++
  store_uint native 4 (h_ir_height h) ++
  store_uint native 4 (h_ir_size h).

(** The block repeated for depth, RGB and IR in [sendFrameToClient]:
<<
  if (size > 0 && data) {
      sent = send(client_socket, data.get(), size, MSG_NOSIGNAL);
      if (sent != (ssize_t)size) return false;
  }
>>
    The result is [false] when the function returns [false] here, and
    [true] when control goes on to the next statement.  [ssize_t] has
    64 bits, so the cast keeps the value of the 32-bit size. *)
Definition send_plane (sk : Socket) (sz : Z) (dat : pointer)
  : outcome (bool * Socket) :=
  if (sz >? 0) && negb (is_null dat) then
    '(sent, sk') <- send sk dat sz ;;
    if negb (sent =? sz) then Returns (false, sk')
    else Returns (true, sk')
  else Returns (true, sk).

(** [sendFrameToClient].  Nothing in the [try] block throws, so the two
    [catch] clauses are never entered.  In [sent != sizeof(header)] the
    signed [sent] is converted to the unsigned 64-bit [size_t]. *)
Definition sendFrameToClient (sk : Socket) (frame : StreamFrame)
  : outcome (bool * Socket) :=
  let header :=
    mkHeader (timestamp frame) (frame_id frame)
             (depth_width frame) (depth_height frame) (depth_size frame)
             (rgb_width frame) (rgb_height frame) (rgb_size frame)
             (ir_width frame) (ir_height frame) (ir_size frame) in
  '(sent, sk1) <- send sk (Some (header_bytes header)) sizeof_header ;;
  if negb (wrap64 sent =? sizeof_header) then Returns (false, sk1)
  else
    '(ok, sk2) <- send_plane sk1 (depth_size frame) (depth_data frame) ;;
    if negb ok then Returns (false, sk2)
    else
      '(ok, sk3) <- send_plane sk2 (rgb_size frame) (rgb_data frame) ;;
      if negb ok then Returns (false, sk3)
      else
        '(ok, sk4) <- send_plane sk3 (ir_size frame) (ir_data frame) ;;
        if negb ok then Returns (false, sk4)
        else Returns (true, sk4).

(** One turn of the loop of [clientHandler] on the socket
    [client_socket].  The boolean is [false] when the turn ends in
    [break]. *)
Definition handler_turn (client_socket : Z) (w : World) : outcome (bool * World) :=
  let (got, s1) := tryPop (srv w) in
  match got with
  | Some frame =>
      '(ok, sk') <- sendFrameToClient (os w client_socket) frame ;;
      let w1 := mkWorld s1 (os_set (os w) client_socket sk') in
      if negb ok then Returns (false, w1)
      else Returns (true, w1)
  | None =>
      (* sleep_for(10 ms) *)
      Returns (true, mkWorld s1 (os w))
  end.

(** [while (m_running) { ... }]: [None] when the loop is still running
    after [fuel] turns. *)
Fixpoint handler_loop (fuel : nat) (client_socket : Z) (w : World)
  : outcome (option World) :=
  match fuel with
  | O => Returns None
  | S fuel' =>
      if m_running (srv w) then
        '(go, w1) <- handler_turn client_socket w ;;
        if go then handler_loop fuel' client_socket w1
        else Returns (Some w1)
      else Returns (Some w)
  end.

(** [clientHandler]: count the client, run the loop, then shut the
    socket down in both directions, close it and uncount the client. *)
Definition clientHandler (fuel : nat) (client_socket : Z) (w : World)
  : outcome (option World) :=
  let w0 :=
    mkWorld (set_connected_clients (srv w)
               (wrap_int (m_connected_clients (srv w) + 1)))
            (os w) in
  r <- handler_loop fuel client_socket w0 ;;
  match r with
  | None => Returns None
  | Some w1 =>
      let sk := close_socket (shutdown_socket (os w1 client_socket)) in
      Returns (Some
        (mkWorld (set_connected_clients (srv w1)
                    (wrap_int (m_connected_clients (srv w1) - 1)))
                 (os_set (os w1) client_socket sk)))
  end.

End Platform.

(* ===================================================================== *)
(** ** start and stop *)
(* ===================================================================== *)

(** What the four socket calls of [start] return. *)
Record socket_calls : Type := mkCalls {
  socket_ret : Z;
  setsockopt_ret : Z;
  bind_ret : Z;
  listen_ret : Z
}.

(** [start]. *)
Definition start (env : socket_calls) (w : World) : bool * World :=
  if m_running (srv w) then (true, w)
  else
    let fd := socket_ret env in
    let s1 := set_server_socket (srv w) fd in
    if fd <? 0 then (false, mkWorld s1 (os w))
    else
      let os1 := os_set (os w) fd fresh_socket in
      let closed := os_set os1 fd (close_socket (os1 fd)) in
      if setsockopt_ret env <? 0 then (false, mkWorld s1 closed)
      else if bind_ret env <? 0 then (false, mkWorld s1 closed)
      else if listen_ret env <? 0 then (false, mkWorld s1 closed)
      else
        (true,
         mkWorld (set_server_thread (set_running s1 true) true)
                 (os_set os1 fd (listen_socket (os1 fd)))).

(** The accept thread.  [stop] waits for it in [join], so what [stop]
    does depends on where the thread is when [m_running] is cleared and
    on what the operating system then does: this is the environment of
    [stop].  The thread is either about to test [m_running], or inside
    [accept]; in the second case [accept] returns a value (negative for a
    failure, such as the one a call on the closed descriptor gets), or,
    no client connecting, it does not return: closing the descriptor from
    another thread does not wake it. *)
Inductive accept_thread : Type :=
| at_loop_test
| in_accept (ret : option Z).

(** The socket of a connection [accept] has just returned: open, with
    nothing written yet.  What its [send]s will take is the environment's
    to say, as for every socket: the script is the one the descriptor
    table holds for that descriptor. *)
Definition accepted (sk : Socket) : Socket :=
  mkSocket true false false [] (sk_script sk).

(** The turn of the loop of [serverThread] from the return of [accept]
    with the value [client_socket]: in
<<
    if (client_socket < 0) { if (m_running) log; continue; }
    std::thread client_thread(&clientHandler, this, client_socket);
    client_thread.detach();
>>
    a failure is only logged; a connection has got the descriptor
    [client_socket] from the operating system, and a detached thread is
    started that will run [clientHandler] on it.  The second component is
    the descriptor handed to that thread, if one was started. *)
Definition accept_turn (client_socket : Z) (w : World) : World * option Z :=
  if client_socket <? 0 then (w, None)
  else (mkWorld (srv w)
                (os_set (os w) client_socket (accepted (os w client_socket))),
        Some client_socket).

(** The rest of the run of [serverThread], whose loop is
    [while (m_running) { client_socket = accept(...); ... }], from the
    position [t], no other thread acting meanwhile: [None] when the
    thread does not end (it is in an [accept] that does not return, or
    it finds [m_running] set and goes on accepting). *)
Definition serverThread (t : accept_thread) (w : World) : option (World * option Z) :=
  match t with
  | at_loop_test => if m_running (srv w) then None else Some (w, None)
  | in_accept None => None
  | in_accept (Some client_socket) =>
      let (w1, started) := accept_turn client_socket w in
      if m_running (srv w1) then None else Some (w1, started)
  end.

(** The statements of [stop] between its test of [m_running] and the
    [join]:
<<
    m_running = false;
    if (m_server_socket >= 0) { close(m_server_socket); m_server_socket = -1; }
>> *)
Definition stop_until_join (w : World) : World :=
  let s1 := set_running (srv w) false in
  if m_server_socket s1 >=? 0 then
    mkWorld (set_server_socket s1 (-1))
            (os_set (os w) (m_server_socket s1)
                    (close_socket (os w (m_server_socket s1))))
  else mkWorld s1 (os w).

(** [stop], the accept thread being at [t]: [None] when the call does
    not return, because [join] waits for a thread that does not end.
    With the world reached comes the descriptor of the connection the
    accept thread handed to a new handler thread while [stop] waited, if
    there was one. *)
Definition stop (t : accept_thread) (w : World) : option (World * option Z) :=
  if negb (m_running (srv w)) then Some (w, None)
  else
    let w2 := stop_until_join w in
    if m_server_thread (srv w2) then
      match serverThread t w2 with
      | None => None
      | Some (w3, started) =>
          Some (mkWorld (set_server_thread (srv w3) false) (os w3), started)
      end
    else Some (w2, None).

(* ===================================================================== *)
(** ** The reader of the wire protocol *)
(* ===================================================================== *)

(** This part is not code of the server: it is the receiving side as the
    protocol description words it (a 48-byte header in native byte
    order with the eleven fields in order, then [depth_size] bytes, then
    [rgb_size] bytes, then [ir_size] bytes).  It is what the bytes
    written by [sendFrameToClient] are compared with. *)

Record Message : Type := mkMessage {
  msg_header : FrameHeader;
  msg_depth : list byte;
  msg_rgb : list byte;
  msg_ir : list byte
}.

Definition obind {A B : Type} (m : option A) (k : A -> option B) : option B :=
  match m with
  | Some a => k a
  | None => None
  end.

Notation "' pat <-? m ;; k" := (obind m (fun x => match x with pat => k end))
  (at level 61, pat pattern, m at next level, right associativity).

(** Read exactly [n] bytes. *)
Definition take_bytes (n : nat) (bs : list byte) : option (list byte * list byte) :=
  if (length bs <? n)%nat then None
  else Some (firstn n bs, skipn n bs).

Definition read_uint (bo : byte_order) (n : nat) (bs : list byte) : option (Z * list byte) :=
  '(field, rest) <-? take_bytes n bs ;;
  Some (load_uint bo field, rest).

Definition parse_header (bo : byte_order) (bs : list byte)
  : option (FrameHeader * list byte) :=
  '(ts, bs) <-? read_uint bo 8 bs ;;
  '(id, bs) <-? read_uint bo 4 bs ;;
  '(dw, bs) <-? read_uint bo 4 bs ;;
  '(dh, bs) <-? read_uint bo 4 bs ;;
  '(ds, bs) <-? read_uint bo 4 bs ;;
  '(rw, bs) <-? read_uint bo 4 bs ;;
  '(rh, bs) <-? read_uint bo 4 bs ;;
  '(rs, bs) <-? read_uint bo 4 bs ;;
  '(iw, bs) <-? read_uint bo 4 bs ;;
  '(ih, bs) <-? read_uint bo 4 bs ;;
  '(isz, bs) <-? read_uint bo 4 bs ;;
  Some (mkHeader ts id dw dh ds rw rh rs iw ih isz, bs).

(** One message: the header, then the three planes with the sizes the
    header declares.  The second component is what follows the message. *)
Definition parse_message (bo : byte_order) (bs : list byte)
  : option (Message * list byte) :=
  '(h, bs) <-? parse_header bo bs ;;
  '(d, bs) <-? take_bytes (Z.to_nat (h_depth_size h)) bs ;;
  '(r, bs) <-? take_bytes (Z.to_nat (h_rgb_size h)) bs ;;
  '(i, bs) <-? take_bytes (Z.to_nat (h_ir_size h)) bs ;;
  Some (mkMessage h d r i, bs).

(** The field of [n] bytes at offset [off] of a message. *)
Definition field_at (bo : byte_order) (off n : nat) (bs : list byte) : Z :=
  load_uint bo (firstn n (skipn off bs)).

(* ===================================================================== *)
(** ** Well-formed frames *)
(* ===================================================================== *)

(** The bytes of a plane: the [size] bytes behind its pointer. *)
Definition plane_bytes (p : Plane) : list byte :=
  match p_data p with
  | Some buf => firstn (Z.to_nat (p_size p)) buf
  | None => []
  end.

(** A plane is either absent ([size = 0]) or present (a buffer of at
    least [size] bytes is attached); its three numbers are [uint32_t]. *)
Definition plane_wf (p : Plane) : Prop :=
  is_u32 (p_width p) /\ is_u32 (p_height p) /\ is_u32 (p_size p) /\
  (p_size p > 0 ->
   exists buf, p_data p = Some buf /\ p_size p <= Z.of_nat (length buf)).

Definition frame_wf (f : StreamFrame) : Prop :=
  is_u64 (timestamp f) /\ is_u32 (frame_id f) /\
  plane_wf (depth_plane f) /\ plane_wf (rgb_plane f) /\ plane_wf (ir_plane f).

(** What the reader must reconstruct from a frame. *)
Definition message_of (f : StreamFrame) : Message :=
  mkMessage
    (mkHeader (timestamp f) (frame_id f)
              (depth_width f) (depth_height f) (depth_size f)
              (rgb_width f) (rgb_height f) (rgb_size f)
              (ir_width f) (ir_height f) (ir_size f))
    (plane_bytes (depth_plane f))
    (plane_bytes (rgb_plane f))
    (plane_bytes (ir_plane f)).

(** A socket on which every [send] takes all the bytes. *)
Definition accepting (sk : Socket) : Prop :=
  sk_open sk = true /\ sk_shut sk = false /\ sk_script sk = [].

(* ===================================================================== *)
(** ** Sequences of queue operations *)
(* ===================================================================== *)

(** The calls a capture thread and a handler make on the queue. *)
Inductive queue_op : Type :=
| OpPush (now : Z) (allocs : list bool) (pstData : option AS_SDK_Data_s)
| OpPop.

(** The frame a call of [pushFrame] appends to the queue, if it appends
    one: the value [convertToStreamFrame] returned. *)
Definition pushed_by (now : Z) (allocs : list bool)
    (pstData : option AS_SDK_Data_s) (s : PythonStreamServer) : list StreamFrame :=
  if negb (m_running s) || is_null pstData then []
  else
    match pstData with
    | None => []
    | Some d =>
        match snd (convertToStreamFrame now allocs d s) with
        | Returns frame => [frame]
        | _ => []
        end
    end.

(** Run the operations in order.  The result is the server afterwards and
    the frames that were appended to the queue, oldest first.  A call that
    throws leaves the server as the exception left it and the run goes
    on (the caller may catch the exception); it appends no frame. *)
Fixpoint run_ops (ops : list queue_op) (s : PythonStreamServer)
  : PythonStreamServer * list StreamFrame :=
  match ops with
  | [] => (s, [])
  | OpPush now allocs p :: ops' =>
      let s1 := fst (pushFrame now allocs p s) in
      let (s2, pushed) := run_ops ops' s1 in
      (s2, pushed_by now allocs p s ++ pushed)
  | OpPop :: ops' =>
      run_ops ops' (snd (tryPop s))
  end.

Definition is_push (o : queue_op) : bool :=
  match o with OpPush _ _ _ => true | OpPop => false end.

(** [n] successive calls of [tryPop]: what each returned, and the server
    afterwards. *)
Fixpoint tryPops (n : nat) (s : PythonStreamServer)
  : list (option StreamFrame) * PythonStreamServer :=
  match n with
  | O => ([], s)
  | S n' =>
      let (r, s1) := tryPop s in
      let (rs, s2) := tryPops n' s1 in
      (r :: rs, s2)
  end.

(** A driver frame whose planes can be copied: each plane with a
    positive size has a pointer to at least that many bytes, and its
    numbers are those of [unsigned int] fields. *)
Definition raw_plane_ok (img : AS_Frame_s) : Prop :=
  is_u32 (width img) /\ is_u32 (height img) /\ is_u32 (size img) /\
  (size img > 0 ->
   exists buf, data img = Some buf /\ size img <= Z.of_nat (length buf)).

Definition raw_ok (d : AS_SDK_Data_s) : Prop :=
  raw_plane_ok (depthImg d) /\ raw_plane_ok (rgbImg d) /\ raw_plane_ok (irImg d).

(** Push the driver frames [ds] one after the other, every allocation
    succeeding; each frame comes with the clock reading of its call. *)
Fixpoint push_all (ds : list (Z * AS_SDK_Data_s)) (s : PythonStreamServer)
  : PythonStreamServer :=
  match ds with
  | [] => s
  | (now, d) :: ds' => push_all ds' (fst (pushFrame now [] (Some d) s))
  end.

(* ===================================================================== *)
(** ** Auxiliary notions used in the statements *)
(* ===================================================================== *)

(** Every field of a header has the value of its C type. *)
Definition header_wf (h : FrameHeader) : Prop :=
  is_u64 (h_timestamp h) /\ is_u32 (h_frame_id h) /\
  is_u32 (h_depth_width h) /\ is_u32 (h_depth_height h) /\ is_u32 (h_depth_size h) /\
  is_u32 (h_rgb_width h) /\ is_u32 (h_rgb_height h) /\ is_u32 (h_rgb_size h) /\
  is_u32 (h_ir_width h) /\ is_u32 (h_ir_height h) /\ is_u32 (h_ir_size h).

Definition header_of (f : StreamFrame) : FrameHeader :=
  mkHeader (timestamp f) (frame_id f)
           (depth_width f) (depth_height f) (depth_size f)
           (rgb_width f) (rgb_height f) (rgb_size f)
           (ir_width f) (ir_height f) (ir_size f).

(** The bytes a successful plane block of [sendFrameToClient] puts on
    the wire: the plane's bytes when the size is positive and the
    pointer is not null, nothing otherwise. *)
Definition payload (sz : Z) (dat : pointer) : list byte :=
  if (sz >? 0) && negb (is_null dat) then
    match dat with
    | Some buf => firstn (Z.to_nat sz) buf
    | None => []
    end
  else [].

(** The pointer of a plane, when it is not null, reaches at least [sz]
    bytes. *)
Definition readable (sz : Z) (dat : pointer) : Prop :=
  forall buf, dat = Some buf -> sz <= Z.of_nat (length buf).


(** A plane that declares bytes but has no buffer. *)
Definition omitted (sz : Z) (dat : pointer) : Prop := sz > 0 /\ dat = None.

(** Frames used to instantiate the statements.  [frame_depth_ir] has a
    depth and an IR plane and no RGB plane; [frame_scenario_A] has a depth
    plane of 100 bytes only; [frame_null_rgb] declares 3 RGB bytes without
    a buffer. *)
Definition frame_depth_ir : StreamFrame :=
  mkStreamFrame 1723190400000000 7
    2 1 4 (Some [Byte.x01; Byte.x02; Byte.x03; Byte.x04])
    0 0 0 None
    1 2 2 (Some [Byte.x0a; Byte.x0b]).

Definition frame_scenario_A : StreamFrame :=
  mkStreamFrame 1723190400000000 1
    10 5 100 (Some (repeat Byte.x2a 100))
    0 0 0 None
    0 0 0 None.

Definition frame_null_rgb : StreamFrame :=
  mkStreamFrame 1723190400000000 3
    1 1 2 (Some [Byte.x01; Byte.x02])
    1 1 3 None
    0 0 0 None.


(** Every allocation of the script succeeds. *)
Definition allocs_succeed (allocs : list bool) : Prop :=
  Forall (fun b => b = true) allocs.

(** What [convertToStreamFrame] is to make of one plane of the driver
    frame: a copy when the reported size is positive, an absent plane
    otherwise. *)
Definition plane_copied (img : AS_Frame_s) (p : Plane) : Prop :=
  (size img > 0 ->
   p_width p = width img /\ p_height p = height img /\ p_size p = size img /\
   exists buf raw,
     p_data p = Some buf /\ data img = Some raw /\
     Z.of_nat (length buf) = size img /\
     buf = firstn (Z.to_nat (size img)) raw) /\
  (~ size img > 0 ->
   p_width p = 0 /\ p_height p = 0 /\ p_size p = 0 /\ p_data p = None).

(** A driver frame used to instantiate the statements: a depth plane of
    4 bytes, no RGB plane, an IR plane of 2 bytes. *)
Definition raw_depth_ir : AS_SDK_Data_s :=
  mkData (mkFrame 2 1 4 (Some [Byte.x01; Byte.x02; Byte.x03; Byte.x04]))
         (mkFrame 0 0 0 None)
         (mkFrame 1 2 2 (Some [Byte.x0a; Byte.x0b])).


(** A server as [start] leaves it on success: the constructor, then
    [start] with socket calls that succeed ([socket] returns 3). *)
Definition boot : World :=
  snd (start (mkCalls 3 0 0 0)
             (mkWorld (new_server 8888) (fun _ => close_socket fresh_socket))).

Definition running_server : PythonStreamServer := srv boot.


(** The [n] consecutive identifiers [first], [first + 1], ... *)
Definition ids (first : Z) (n : nat) : list Z :=
  map (fun i => first + Z.of_nat i) (seq 0 n).

(** Operations used to instantiate the statements: three frames pushed,
    one popped, ten more pushed. *)
Definition ops_example : list queue_op :=
  repeat (OpPush 5 [] (Some raw_depth_ir)) 3 ++ [OpPop] ++
  repeat (OpPush 6 [] (Some raw_depth_ir)) 10.


(** The number of pushes among some operations. *)
Definition pushes (ops : list queue_op) : nat := length (filter is_push ops).

(** Three driver frames with their clock readings, and the server after
    ten pushes on a freshly started one. *)
Definition three_frames : list (Z * AS_SDK_Data_s) := repeat (5, raw_depth_ir) 3.

Definition server_ten : PythonStreamServer :=
  push_all (repeat (5, raw_depth_ir) 10) running_server.


(** A short write while a frame is sent on [sk]: the [send] of the
    header takes fewer than 48 bytes, or, the header and the planes
    before it having been sent in full, the [send] of a present plane
    takes fewer bytes than the plane's size.  The last argument is the
    socket after that [send]. *)
Inductive short_write (native : byte_order) (sk : Socket) (f : StreamFrame)
  : Socket -> Prop :=
| short_header (sent : Z) (sk1 : Socket) :
    send sk (Some (header_bytes native (header_of f))) sizeof_header
    = Returns (sent, sk1) ->
    sent < sizeof_header ->
    short_write native sk f sk1
| short_depth (sk1 sk2 : Socket) (buf : list byte) (sent : Z) :
    send sk (Some (header_bytes native (header_of f))) sizeof_header
    = Returns (sizeof_header, sk1) ->
    depth_size f > 0 -> depth_data f = Some buf ->
    send sk1 (Some buf) (depth_size f) = Returns (sent, sk2) ->
    sent < depth_size f ->
    short_write native sk f sk2
| short_rgb (sk1 sk2 sk3 : Socket) (buf : list byte) (sent : Z) :
    send sk (Some (header_bytes native (header_of f))) sizeof_header
    = Returns (sizeof_header, sk1) ->
    send_plane sk1 (depth_size f) (depth_data f) = Returns (true, sk2) ->
    rgb_size f > 0 -> rgb_data f = Some buf ->
    send sk2 (Some buf) (rgb_size f) = Returns (sent, sk3) ->
    sent < rgb_size f ->
    short_write native sk f sk3
| short_ir (sk1 sk2 sk3 sk4 : Socket) (buf : list byte) (sent : Z) :
    send sk (Some (header_bytes native (header_of f))) sizeof_header
    = Returns (sizeof_header, sk1) ->
    send_plane sk1 (depth_size f) (depth_data f) = Returns (true, sk2) ->
    send_plane sk2 (rgb_size f) (rgb_data f) = Returns (true, sk3) ->
    ir_size f > 0 -> ir_data f = Some buf ->
    send sk3 (Some buf) (ir_size f) = Returns (sent, sk4) ->
    sent < ir_size f ->
    short_write native sk f sk4.

(** A world with two connections: socket 7 will take the 48 bytes of a
    header and then only 2 bytes, socket 8 takes everything; two frames
    are queued. *)
Definition world_short : World :=
  mkWorld
    (set_frame_queue running_server [frame_depth_ir; frame_scenario_A])
    (os_set
       (os_set (os boot) 7
               (mkSocket true false false [] [Some 48%nat; Some 2%nat]))
       8 fresh_socket).


(* ===================================================================== *)
(** ** The rest of the server's interface, and notions for its properties *)
(* ===================================================================== *)

(** The destructor [~PythonStreamServer] calls [stop]. *)
Definition destroy_server (t : accept_thread) (w : World)
  : option (World * option Z) := stop t w.

(** All the bytes [sendFrameToClient] writes for a frame when no [send]
    is short: the header, then the planes that have a positive size and a
    buffer. *)
Definition frame_bytes (native : byte_order) (f : StreamFrame) : list byte :=
  header_bytes native (header_of f) ++
  payload (depth_size f) (depth_data f) ++
  payload (rgb_size f) (rgb_data f) ++
  payload (ir_size f) (ir_data f).

(** The first [n] turns of the loop of [clientHandler], the condition
    [m_running] being read before each turn as in [handler_loop].  The
    boolean is [true] when the loop is still going after these turns; the
    world is the one reached. *)
Fixpoint handler_turns (native : byte_order) (n : nat) (client_socket : Z) (w : World)
  : outcome (bool * World) :=
  match n with
  | O => Returns (true, w)
  | S n' =>
      if m_running (srv w) then
        '(go, w1) <- handler_turn native client_socket w ;;
        if go then handler_turns native n' client_socket w1
        else Returns (false, w1)
      else Returns (false, w)
  end.

(** The receiving side reading message after message until the bytes
    are used up (at most [fuel] messages). *)
Fixpoint parse_stream (fuel : nat) (bo : byte_order) (bs : list byte)
  : option (list Message) :=
  match bs with
  | [] => Some []
  | _ :: _ =>
      match fuel with
      | O => None
      | S fuel' =>
          '(m, rest) <-? parse_message bo bs ;;
          obind (parse_stream fuel' bo rest) (fun ms => Some (m :: ms))
      end
  end.


(** A world with a started server, a client on socket 7 that takes all
    bytes, and two well-formed frames queued. *)
Definition world_stream : World :=
  mkWorld
    (set_frame_queue running_server [frame_depth_ir; frame_scenario_A])
    (os_set (os boot) 7 fresh_socket).

(** A driver frame with no plane at all, its pointers null. *)
Definition raw_empty : AS_SDK_Data_s :=
  mkData (mkFrame 640 480 0 None) (mkFrame 0 0 0 None) (mkFrame 0 0 0 None).

(** The world before [start]: the constructed server and no open socket. *)
Definition world_new : World :=
  mkWorld (new_server 8888) (fun _ => close_socket fresh_socket).


(** The size of a plane is the length of the buffer it owns; a plane
    without a buffer has size 0. *)
Definition plane_exact (p : Plane) : Prop :=
  match p_data p with
  | Some buf => Z.of_nat (length buf) = p_size p
  | None => p_size p = 0
  end.




(** The bytes of a plane of the driver frame that count: the first
    [size] bytes behind its pointer when the size is positive, none
    otherwise. *)
Definition raw_bytes (img : AS_Frame_s) : list byte :=
  if size img >? 0 then
    match data img with
    | Some raw => firstn (Z.to_nat (size img)) raw
    | None => []
    end
  else [].

(** A message carries the clock reading and the planes of a driver
    frame. *)
Definition message_carries (nd : Z * AS_SDK_Data_s) (m : Message) : Prop :=
  h_timestamp (msg_header m) = wrap64 (fst nd) /\
  msg_depth m = raw_bytes (depthImg (snd nd)) /\
  msg_rgb m = raw_bytes (rgbImg (snd nd)) /\
  msg_ir m = raw_bytes (irImg (snd nd)) /\
  Z.of_nat (length (msg_depth m)) = h_depth_size (msg_header m) /\
  Z.of_nat (length (msg_rgb m)) = h_rgb_size (msg_header m) /\
  Z.of_nat (length (msg_ir m)) = h_ir_size (msg_header m).


(** Several handlers at once.  Each handler takes the front frame under
    the lock and sends it on its own socket, so what they do together is
    decided by the order in which they take their turns: [sched] lists
    the socket of the handler that takes each turn.  The run stops (with
    [false]) at the first turn that ends a handler, or when the server is
    not running. *)
Fixpoint handlers_turns (native : byte_order) (sched : list Z) (w : World)
  : outcome (bool * World) :=
  match sched with
  | [] => Returns (true, w)
  | client_socket :: sched' =>
      if m_running (srv w) then
        '(go, w1) <- handler_turn native client_socket w ;;
        if go then handlers_turns native sched' w1
        else Returns (false, w1)
      else Returns (false, w)
  end.

(** The frames of [q] that go to the handler on [client_socket] when the
    turns are taken in the order [sched]: the i-th frame goes to the
    handler of the i-th turn. *)
Definition frames_for (client_socket : Z) (sched : list Z) (q : list StreamFrame)
  : list StreamFrame :=
  map snd (filter (fun p => fst p =? client_socket) (combine sched q)).

(** A world with a started server, two clients on sockets 7 and 8 that
    take all bytes, and three well-formed frames queued. *)
Definition world_two_clients : World :=
  mkWorld
    (set_frame_queue running_server [frame_depth_ir; frame_scenario_A; frame_depth_ir])
    (os_set (os_set (os boot) 7 fresh_socket) 8 fresh_socket).



(** A stopped server that still holds the two frames of [world_stream],
    its client on socket 7 still connected. *)
Definition world_stopped : World :=
  mkWorld (set_server_thread
             (set_server_socket (set_running (srv world_stream) false) (-1)) false)
          (os_set (os world_stream) 3 (close_socket (os world_stream 3))).


(* ===================================================================== *)
(** ** Camera and Demo: the display switch *)
(* ===================================================================== *)

(** The members of [class Camera] that the display and save switches of
    Camera.cpp read and write.  The class declaration (Camera.h) is not
    among the sources; the types are those the uses in Camera.cpp show
    (flags compared with [true] and [false], the model compared with an
    enumerator). *)
Record Camera : Type := mkCamera {
  m_cam_type : Z;
  m_save_img : bool;
  m_save_merge_img : bool;
  m_display : bool;
  m_display_merge : bool
}.

Section Display.

(** The enumerator [AS_SDK_CAM_MODEL_KUNLUN_A] of as_camera_sdk_def.h,
    and the values the member initialisers of Camera.h give the four
    flags of a new camera; none of them is among the sources. *)
Variable AS_SDK_CAM_MODEL_KUNLUN_A : Z.
Variables init_save_img init_save_merge_img init_display init_display_merge : bool.

(** The constructor [Camera::Camera], as far as these members go. *)
Definition Camera_new (cam_type : Z) : Camera :=
  mkCamera cam_type init_save_img init_save_merge_img init_display init_display_merge.

(** [Camera::enableDisplay]. *)
Definition enableDisplay (c : Camera) (enable : bool) : Camera :=
  let c1 := mkCamera (m_cam_type c) (m_save_img c) (m_save_merge_img c)
                     enable (m_display_merge c) in
  if m_cam_type c1 =? AS_SDK_CAM_MODEL_KUNLUN_A then
    mkCamera (m_cam_type c1) (m_save_img c1) (m_save_merge_img c1) (m_display c1) enable
  else c1.

(** [Camera::getDisplayStatus]. *)
Definition getDisplayStatus (c : Camera) : bool :=
  if m_cam_type c =? AS_SDK_CAM_MODEL_KUNLUN_A then
    if Bool.eqb (m_display c) false && Bool.eqb (m_display_merge c) false then false
    else if Bool.eqb (m_display c) true && Bool.eqb (m_display_merge c) true then true
    else true
  else m_display c.

(** [m_camera_map] of [Demo]: the cameras by handle, in the order in
    which the map is iterated. *)
Definition camera_map : Type := list (Z * Camera).

(** [Demo::display]. *)
Definition Demo_display (cams : camera_map) (enable : bool) : camera_map :=
  map (fun kc => (fst kc, enableDisplay (snd kc) enable)) cams.

(** [Demo::getDisplayStatus]: the loop overwrites [status] at each camera. *)
Definition Demo_getDisplayStatus (cams : camera_map) : bool :=
  fold_left (fun (status : bool) kc => getDisplayStatus (snd kc)) cams false.

(** [unordered_map::insert]: nothing happens when the key is there. *)
Definition map_insert (cams : camera_map) (k : Z) (c : Camera) : camera_map :=
  if existsb (fun kc => fst kc =? k) cams then cams else (k, c) :: cams.

(** [Demo::onCameraAttached], as far as the map goes: the camera is
    inserted, and when some camera displays, display is enabled on all.
    (The call of [AS_Nuwa_SetUsbDevMatch] acts on the SDK only.)  The
    place the new entry takes in the iteration order is not specified by
    the container; the statements about this function do not depend on
    it. *)
Definition onCameraAttached (cams : camera_map) (pCamera cam_type : Z) : camera_map :=
  let cams1 := map_insert cams pCamera (Camera_new cam_type) in
  let is_displaying := existsb (fun kc => getDisplayStatus (snd kc)) cams1 in
  if is_displaying then
    map (fun kc => (fst kc, enableDisplay (snd kc) is_displaying)) cams1
  else cams1.

End Display.


(** Cameras used to instantiate the statements; the Kunlun A model is
    given the number 9 there. *)
Definition cams_example : camera_map :=
  [(100, mkCamera 9 false false false true); (200, mkCamera 2 false false false false)].

(* ===================================================================== *)
(** ** convertToStreamFrame on a memory with addresses *)
(* ===================================================================== *)

(** Above, a pointer stands for the bytes behind it, which is all that
    sending a frame needs.  Whether a frame has buffers of its own, or
    shares the driver's, can only be told on a memory in which arrays
    have addresses; [convertToStreamFrame] is read on such a memory
    here: line by line the same code, with [new] returning the address of
    a new array and [memcpy] writing into the array at an address. *)
Module Mem.

Definition address : Type := nat.

(** The arrays allocated so far; the address of an array is its place
    in this list, so a new array gets an address no array had before. *)
Definition memory : Type := list (list byte).

(** A pointer: null, or the address of an array. *)
Definition ptr : Type := option address.

(** What can be read behind a pointer: nothing behind a null pointer
    and behind an address at which there is no array. *)
Definition deref (m : memory) (p : ptr) : pointer :=
  match p with
  | None => None
  | Some a => nth_error m a
  end.

(** Writing the array at address [a]. *)
Fixpoint store (m : memory) (a : address) (buf : list byte) : memory :=
  match m, a with
  | [], _ => []
  | _ :: m', O => buf :: m'
  | b :: m', S a' => b :: store m' a' buf
  end.

(** [struct StreamFrame], the [shared_ptr<uint8_t>] members being
    pointers into the memory. *)
Record StreamFrame : Type := mkStreamFrame {
  timestamp : Z;
  frame_id : Z;
  depth_width : Z;
  depth_height : Z;
  depth_size : Z;
  depth_data : ptr;
  rgb_width : Z;
  rgb_height : Z;
  rgb_size : Z;
  rgb_data : ptr;
  ir_width : Z;
  ir_height : Z;
  ir_size : Z;
  ir_data : ptr
}.

(** Modelled from the spec: the driver's frame record [AS_SDK_Data_s] of
    as_camera_sdk_def.h, which is not among the sources; per modality
    (width, height, size, dataPointer), the pointer being one into the
    memory. *)
Record AS_Frame_s : Type := mkFrame {
  width : Z;
  height : Z;
  size : Z;
  data : ptr
}.

Record AS_SDK_Data_s : Type := mkData {
  depthImg : AS_Frame_s;
  rgbImg : AS_Frame_s;
  irImg : AS_Frame_s
}.

Record Plane : Type := mkPlane {
  p_width : Z;
  p_height : Z;
  p_size : Z;
  p_data : ptr
}.

Definition depth_plane (f : StreamFrame) : Plane :=
  mkPlane (depth_width f) (depth_height f) (depth_size f) (depth_data f).
Definition rgb_plane (f : StreamFrame) : Plane :=
  mkPlane (rgb_width f) (rgb_height f) (rgb_size f) (rgb_data f).
Definition ir_plane (f : StreamFrame) : Plane :=
  mkPlane (ir_width f) (ir_height f) (ir_size f) (ir_data f).

(** [new uint8_t[n]]: when the allocation succeeds a new array of [n]
    bytes is added to the memory and its address returned. *)
Definition operator_new (allocs : list bool) (m : memory) (n : Z)
  : outcome (address * memory * list bool) :=
  match allocs with
  | false :: _ => Throws bad_alloc
  | true :: rest =>
      Returns (length m, m ++ [repeat Byte.x00 (Z.to_nat n)], rest)
  | [] => Returns (length m, m ++ [repeat Byte.x00 (Z.to_nat n)], [])
  end.

(** [memcpy(dst, src, n)], [dst] being the address of an array: its
    first [n] bytes become the first [n] bytes read through [src]. *)
Definition memcpy (m : memory) (dst : address) (src : ptr) (n : Z)
  : outcome memory :=
  match nth_error m dst with
  | None => Undefined
  | Some buf =>
      if Z.of_nat (length buf) <? n then Undefined
      else match read_bytes (deref m src) n with
           | None => Undefined
           | Some bs => Returns (store m dst (bs ++ skipn (Z.to_nat n) buf))
           end
  end.

(** The block repeated for depth, RGB and IR. *)
Definition copy_plane (img : AS_Frame_s) (allocs : list bool) (m : memory)
  : outcome (Plane * list bool * memory) :=
  if size img >? 0 then
    let w := wrap32 (width img) in
    let h := wrap32 (height img) in
    let sz := wrap32 (size img) in
    '(a, m1, allocs') <- operator_new allocs m sz ;;
    m2 <- memcpy m1 a (data img) sz ;;
    Returns (mkPlane w h sz (Some a), allocs', m2)
  else
    Returns (mkPlane 0 0 0 None, allocs, m).

(** [convertToStreamFrame]. *)
Definition convertToStreamFrame (now : Z) (allocs : list bool)
    (pstData : AS_SDK_Data_s) (s : PythonStreamServer) (m : memory)
  : PythonStreamServer * outcome (StreamFrame * memory) :=
  let ts := wrap64 now in
  let s1 := set_frame_counter s (wrap32 (m_frame_counter s + 1)) in
  let id := m_frame_counter s1 in
  (s1,
   '(d, a1, m1) <- copy_plane (depthImg pstData) allocs m ;;
   '(r, a2, m2) <- copy_plane (rgbImg pstData) a1 m1 ;;
   '(i, _, m3) <- copy_plane (irImg pstData) a2 m2 ;;
   Returns (mkStreamFrame ts id
              (p_width d) (p_height d) (p_size d) (p_data d)
              (p_width r) (p_height r) (p_size r) (p_data r)
              (p_width i) (p_height i) (p_size i) (p_data i), m3)).

End Mem.

(** Reading the records of [Mem] through a memory gives the records
    used above. *)
Definition view_raw (m : Mem.memory) (img : Mem.AS_Frame_s) : AS_Frame_s :=
  mkFrame (Mem.width img) (Mem.height img) (Mem.size img)
          (Mem.deref m (Mem.data img)).

Definition view_data (m : Mem.memory) (d : Mem.AS_SDK_Data_s) : AS_SDK_Data_s :=
  mkData (view_raw m (Mem.depthImg d)) (view_raw m (Mem.rgbImg d))
         (view_raw m (Mem.irImg d)).

Definition view_plane (m : Mem.memory) (p : Mem.Plane) : Plane :=
  mkPlane (Mem.p_width p) (Mem.p_height p) (Mem.p_size p)
          (Mem.deref m (Mem.p_data p)).

Definition view_frame (m : Mem.memory) (f : Mem.StreamFrame) : StreamFrame :=
  mkStreamFrame (Mem.timestamp f) (Mem.frame_id f)
    (Mem.depth_width f) (Mem.depth_height f) (Mem.depth_size f)
    (Mem.deref m (Mem.depth_data f))
    (Mem.rgb_width f) (Mem.rgb_height f) (Mem.rgb_size f)
    (Mem.deref m (Mem.rgb_data f))
    (Mem.ir_width f) (Mem.ir_height f) (Mem.ir_size f)
    (Mem.deref m (Mem.ir_data f)).

Definition view_outcome (r : outcome (Mem.StreamFrame * Mem.memory))
  : outcome StreamFrame :=
  '(f, m) <- r ;; Returns (view_frame m f).

(** The buffers of a frame: the addresses its three pointers hold, in
    the order depth, RGB, IR. *)
Definition buffer_of (p : Mem.ptr) : list Mem.address :=
  match p with
  | Some a => [a]
  | None => []
  end.

Definition buffers (f : Mem.StreamFrame) : list Mem.address :=
  buffer_of (Mem.depth_data f) ++ buffer_of (Mem.rgb_data f) ++
  buffer_of (Mem.ir_data f).

(** A memory holding the two arrays of the driver frame [raw_depth_ir]
    and, before them, an array of an earlier allocation. *)
Definition mem_example : Mem.memory :=
  [[Byte.xff];
   [Byte.x01; Byte.x02; Byte.x03; Byte.x04];
   [Byte.x0a; Byte.x0b]].

Definition raw_example : Mem.AS_SDK_Data_s :=
  Mem.mkData (Mem.mkFrame 2 1 4 (Some 1%nat))
             (Mem.mkFrame 0 0 0 None)
             (Mem.mkFrame 1 2 2 (Some 2%nat)).

(* ===================================================================== *)
(** ** A handler among the other threads *)
(* ===================================================================== *)







(* ===================================================================== *)
(** * Properties *)
(* ===================================================================== *)

(** ** Integers in memory *)

Lemma length_store_uint (bo : byte_order) (n : nat) (v : Z) :
  length (store_uint bo n v) = n.
Proof.
  destruct bo; simpl.
  - apply length_le_split.
  - rewrite length_rev. apply length_le_split.
Qed.

Lemma load_store_uint (bo : byte_order) (n : nat) (v : Z) :
  load_uint bo (store_uint bo n v) = v mod 2 ^ (Z.of_nat n * 8).
Proof.
  destruct bo; simpl.
  - apply le_combine_split.
  - rewrite rev_involutive. apply le_combine_split.
Qed.

Lemma load_store_u32 (bo : byte_order) (v : Z) :
  is_u32 v -> load_uint bo (store_uint bo 4 v) = v.
Proof.
  intros Hv. rewrite load_store_uint. apply Z.mod_small. exact Hv.
Qed.

Lemma load_store_u64 (bo : byte_order) (v : Z) :
  is_u64 v -> load_uint bo (store_uint bo 8 v) = v.
Proof.
  intros Hv. rewrite load_store_uint. apply Z.mod_small. exact Hv.
Qed.

Lemma wrap32_is_u32 (z : Z) : is_u32 (wrap32 z).
Proof. unfold is_u32, wrap32. apply Z.mod_pos_bound. lia. Qed.

Lemma wrap64_is_u64 (z : Z) : is_u64 (wrap64 z).
Proof. unfold is_u64, wrap64. apply Z.mod_pos_bound. lia. Qed.

Lemma wrap32_small (z : Z) : is_u32 z -> wrap32 z = z.
Proof. intros H. apply Z.mod_small. exact H. Qed.

(** ** Reading the wire *)

Lemma take_bytes_app (n : nat) (a b : list byte) :
  length a = n -> take_bytes n (a ++ b) = Some (a, b).
Proof.
  intros <-. unfold take_bytes.
  rewrite length_app.
  destruct (Nat.ltb_spec (length a + length b) (length a)) as [H | _]; [lia |].
  rewrite firstn_app, Nat.sub_diag, firstn_all, firstn_O, app_nil_r.
  rewrite skipn_app, Nat.sub_diag, skipn_all, skipn_O. reflexivity.
Qed.

Lemma read_uint_store (bo : byte_order) (n : nat) (v : Z) (rest : list byte) :
  read_uint bo n (store_uint bo n v ++ rest)
  = Some (v mod 2 ^ (Z.of_nat n * 8), rest).
Proof.
  unfold read_uint.
  rewrite take_bytes_app by apply length_store_uint.
  simpl. rewrite load_store_uint. reflexivity.
Qed.

Lemma length_header_bytes (bo : byte_order) (h : FrameHeader) :
  length (header_bytes bo h) = 48%nat.
Proof.
  unfold header_bytes. rewrite !length_app, !length_store_uint. reflexivity.
Qed.

Lemma parse_header_bytes (bo : byte_order) (h : FrameHeader) (rest : list byte) :
  header_wf h ->
  parse_header bo (header_bytes bo h ++ rest) = Some (h, rest).
Proof.
  intros (Hts & Hid & Hdw & Hdh & Hds & Hrw & Hrh & Hrs & Hiw & Hih & His).
  unfold parse_header, header_bytes.
  rewrite <- !app_assoc.
  repeat (rewrite read_uint_store; cbn [obind]).
  change (Z.of_nat 8 * 8) with 64. change (Z.of_nat 4 * 8) with 32.
  unfold is_u32, is_u64 in *.
  rewrite !Z.mod_small by assumption.
  destruct h; reflexivity.
Qed.

(** ** send *)

Lemma read_bytes_some (buf : list byte) (n : Z) :
  n <= Z.of_nat (length buf) ->
  read_bytes (Some buf) n = Some (firstn (Z.to_nat n) buf).
Proof.
  intros H. unfold read_bytes.
  destruct (Z.ltb_spec (Z.of_nat (length buf)) n); [lia | reflexivity].
Qed.

Lemma read_bytes_length (p : pointer) (n : Z) (bs : list byte) :
  read_bytes p n = Some bs -> length bs = Z.to_nat n.
Proof.
  unfold read_bytes. destruct p as [buf |]; [| discriminate].
  destruct (Z.ltb_spec (Z.of_nat (length buf)) n); [discriminate |].
  intros [= <-]. rewrite length_firstn. lia.
Qed.

(** On an accepting socket [send] takes every byte and the socket stays
    accepting. *)
Lemma send_accepting (sk : Socket) (buf : list byte) (len : Z) :
  accepting sk -> 0 <= len <= Z.of_nat (length buf) ->
  exists sk',
    send sk (Some buf) len = Returns (len, sk') /\
    accepting sk' /\
    sk_wire sk' = sk_wire sk ++ firstn (Z.to_nat len) buf.
Proof.
  intros (Hopen & Hshut & Hscript) Hlen.
  unfold send. rewrite read_bytes_some by lia.
  rewrite Hopen, Hshut, Hscript. simpl.
  rewrite length_firstn.
  replace (Z.of_nat (Init.Nat.min (Z.to_nat len) (length buf))) with len by lia.
  eexists. split; [reflexivity |].
  split; [repeat split |]; reflexivity.
Qed.

(** When [send] reports that it took all [len] bytes, exactly the bytes
    read through the pointer were appended to the wire. *)
Lemma send_full (sk sk' : Socket) (p : pointer) (len sent : Z) :
  send sk p len = Returns (sent, sk') -> 0 <= len -> sent = len ->
  exists bs, read_bytes p len = Some bs /\ sk_wire sk' = sk_wire sk ++ bs.
Proof.
  unfold send. intros H Hlen Hsent.
  destruct (read_bytes p len) as [bs |] eqn:Hread; [| discriminate].
  pose proof (read_bytes_length _ _ _ Hread) as Hbs.
  exists bs. split; [reflexivity |].
  destruct (negb (sk_open sk) || sk_shut sk).
  { injection H as H1 H2. lia. }
  destruct (sk_script sk) as [| [c |] rest].
  - injection H as H1 H2. subst sk'. reflexivity.
  - injection H as H1 H2. subst sk'. simpl.
    rewrite firstn_all2 by lia. reflexivity.
  - injection H as H1 H2. lia.
Qed.

(** A short or failed [send] never reports [len]. *)
Lemma send_result_range (sk sk' : Socket) (p : pointer) (len sent : Z) :
  send sk p len = Returns (sent, sk') -> -1 <= sent /\ (0 <= len -> sent <= len).
Proof.
  unfold send. intros H.
  destruct (read_bytes p len) as [bs |] eqn:Hread; [| discriminate].
  pose proof (read_bytes_length _ _ _ Hread) as Hbs.
  destruct (negb (sk_open sk) || sk_shut sk).
  { injection H as H1 H2. lia. }
  destruct (sk_script sk) as [| [c |] rest]; injection H as H1 H2; lia.
Qed.

(** ** The plane block of sendFrameToClient *)

Lemma send_plane_true (sk sk' : Socket) (sz : Z) (dat : pointer) :
  send_plane sk sz dat = Returns (true, sk') ->
  sk_wire sk' = sk_wire sk ++ payload sz dat.
Proof.
  unfold send_plane, payload.
  destruct (Z.gtb_spec sz 0) as [Hpos | Hnp]; simpl.
  - destruct dat as [buf |]; simpl.
    + destruct (send sk (Some buf) sz) as [[sent sk1] | |] eqn:Hs; simpl;
        try discriminate.
      destruct (Z.eqb_spec sent sz) as [-> | Hne]; simpl; [| discriminate].
      intros [= <-].
      destruct (send_full _ _ _ _ _ Hs ltac:(lia) eq_refl) as (bs & Hr & Hw).
      unfold read_bytes in Hr.
      destruct (Z.of_nat (length buf) <? sz); [discriminate |].
      injection Hr as <-. exact Hw.
    + intros [= <-]. rewrite app_nil_r. reflexivity.
  - intros [= <-]. rewrite app_nil_r. reflexivity.
Qed.

Lemma send_plane_accepting (sk : Socket) (sz : Z) (dat : pointer) :
  accepting sk -> readable sz dat ->
  exists sk',
    send_plane sk sz dat = Returns (true, sk') /\
    accepting sk' /\
    sk_wire sk' = sk_wire sk ++ payload sz dat.
Proof.
  intros Hacc Hread.
  unfold send_plane, payload.
  destruct (Z.gtb_spec sz 0) as [Hpos | Hnp]; simpl.
  - destruct dat as [buf |]; simpl.
    + specialize (Hread buf eq_refl).
      destruct (send_accepting sk buf sz Hacc ltac:(lia)) as (sk' & Hs & Ha & Hw).
      rewrite Hs. simpl. rewrite Z.eqb_refl. simpl.
      exists sk'. repeat split; try apply Ha. exact Hw.
    + exists sk. rewrite app_nil_r. repeat split; apply Hacc.
  - exists sk. rewrite app_nil_r. repeat split; apply Hacc.
Qed.

(** ** sendFrameToClient *)

(** The bytes of one frame on the wire when every block succeeds. *)
Lemma sendFrameToClient_true (native : byte_order) (sk sk' : Socket) (f : StreamFrame) :
  sendFrameToClient native sk f = Returns (true, sk') ->
  sk_wire sk' =
    sk_wire sk ++ header_bytes native (header_of f) ++
    payload (depth_size f) (depth_data f) ++
    payload (rgb_size f) (rgb_data f) ++
    payload (ir_size f) (ir_data f).
Proof.
  unfold sendFrameToClient. fold (header_of f).
  destruct (send sk (Some (header_bytes native (header_of f))) sizeof_header)
    as [[sent sk1] | |] eqn:Hh; simpl; try discriminate.
  destruct (Z.eqb_spec (wrap64 sent) sizeof_header) as [Hsent | Hne]; simpl;
    [| discriminate].
  assert (sent = sizeof_header) as ->.
  { destruct (send_result_range _ _ _ _ _ Hh) as [Hlo Hhi].
    unfold sizeof_header in *. specialize (Hhi ltac:(lia)).
    unfold wrap64 in Hsent.
    destruct (Z.eq_dec sent (-1)) as [-> | Hn]; [discriminate Hsent |].
    rewrite Z.mod_small in Hsent by lia. exact Hsent. }
  destruct (send_full _ _ _ _ _ Hh ltac:(unfold sizeof_header; lia) eq_refl)
    as (bs & Hr & Hw1).
  rewrite read_bytes_some in Hr
    by (rewrite length_header_bytes; unfold sizeof_header; lia).
  rewrite firstn_all2 in Hr
    by (rewrite length_header_bytes; unfold sizeof_header; lia).
  injection Hr as <-.
  destruct (send_plane sk1 (depth_size f) (depth_data f))
    as [[[|] sk2] | |] eqn:Hd; simpl; try discriminate.
  destruct (send_plane sk2 (rgb_size f) (rgb_data f))
    as [[[|] sk3] | |] eqn:Hrgb; simpl; try discriminate.
  destruct (send_plane sk3 (ir_size f) (ir_data f))
    as [[[|] sk4] | |] eqn:Hir; simpl; try discriminate.
  intros [= <-].
  rewrite (send_plane_true _ _ _ _ Hir), (send_plane_true _ _ _ _ Hrgb),
    (send_plane_true _ _ _ _ Hd), Hw1.
  rewrite <- !app_assoc. reflexivity.
Qed.

(** On an accepting socket, a frame whose non-null pointers reach the
    declared sizes is sent with success. *)
Lemma sendFrameToClient_accepting (native : byte_order) (sk : Socket) (f : StreamFrame) :
  accepting sk ->
  readable (depth_size f) (depth_data f) ->
  readable (rgb_size f) (rgb_data f) ->
  readable (ir_size f) (ir_data f) ->
  exists sk', sendFrameToClient native sk f = Returns (true, sk') /\ accepting sk'.
Proof.
  intros Hacc Hd Hr Hi.
  unfold sendFrameToClient. fold (header_of f).
  destruct (send_accepting sk (header_bytes native (header_of f)) sizeof_header Hacc)
    as (sk1 & Hs1 & Ha1 & _).
  { rewrite length_header_bytes. unfold sizeof_header. lia. }
  rewrite Hs1. simpl.
  destruct (send_plane_accepting sk1 _ _ Ha1 Hd) as (sk2 & Hs2 & Ha2 & _).
  rewrite Hs2. simpl.
  destruct (send_plane_accepting sk2 _ _ Ha2 Hr) as (sk3 & Hs3 & Ha3 & _).
  rewrite Hs3. simpl.
  destruct (send_plane_accepting sk3 _ _ Ha3 Hi) as (sk4 & Hs4 & Ha4 & _).
  rewrite Hs4. simpl.
  exists sk4. split; [reflexivity | exact Ha4].
Qed.

(** ** Well-formed planes *)

Lemma plane_wf_readable (p : Plane) :
  plane_wf p -> readable (p_size p) (p_data p).
Proof.
  intros (_ & _ & Hs & Hbuf) buf Hdat.
  destruct (Z_gt_le_dec (p_size p) 0) as [Hpos | Hz].
  - destruct (Hbuf Hpos) as (buf' & Hdat' & Hlen). congruence.
  - lia.
Qed.

Lemma plane_wf_payload (p : Plane) :
  plane_wf p -> payload (p_size p) (p_data p) = plane_bytes p.
Proof.
  intros (_ & _ & Hs & Hbuf). unfold payload, plane_bytes.
  destruct (Z.gtb_spec (p_size p) 0) as [Hpos | Hz]; simpl.
  - destruct (Hbuf ltac:(lia)) as (buf & -> & _). reflexivity.
  - replace (p_size p) with 0 by (unfold is_u32 in Hs; lia).
    destruct (p_data p); reflexivity.
Qed.

Lemma plane_wf_length (p : Plane) :
  plane_wf p -> length (plane_bytes p) = Z.to_nat (p_size p).
Proof.
  intros (_ & _ & Hs & Hbuf). unfold plane_bytes.
  destruct (Z_gt_le_dec (p_size p) 0) as [Hpos | Hz].
  - destruct (Hbuf Hpos) as (buf & -> & Hlen). rewrite length_firstn. lia.
  - replace (p_size p) with 0 by (unfold is_u32 in Hs; lia).
    destruct (p_data p); reflexivity.
Qed.

Lemma frame_wf_header (f : StreamFrame) : frame_wf f -> header_wf (header_of f).
Proof.
  intros (Hts & Hid & (Hdw & Hdh & Hds & _) & (Hrw & Hrh & Hrs & _) & (Hiw & Hih & His & _)).
  unfold header_wf. simpl in *. tauto.
Qed.

(** The bytes of a well-formed frame on the wire parse back to the frame,
    whatever follows them. *)
Lemma parse_message_wire (native : byte_order) (f : StreamFrame) (rest : list byte) :
  frame_wf f ->
  parse_message native
    ((header_bytes native (header_of f) ++
      payload (depth_size f) (depth_data f) ++
      payload (rgb_size f) (rgb_data f) ++
      payload (ir_size f) (ir_data f)) ++ rest)
  = Some (message_of f, rest).
Proof.
  intros Hwf. pose proof (frame_wf_header f Hwf) as Hh.
  destruct Hwf as (_ & _ & Hd & Hr & Hi).
  rewrite (plane_wf_payload _ Hd : payload (depth_size f) (depth_data f) = _).
  rewrite (plane_wf_payload _ Hr : payload (rgb_size f) (rgb_data f) = _).
  rewrite (plane_wf_payload _ Hi : payload (ir_size f) (ir_data f) = _).
  unfold parse_message. rewrite <- !app_assoc.
  rewrite parse_header_bytes by exact Hh.
  cbn [obind].
  rewrite take_bytes_app by apply (plane_wf_length _ Hd). cbn [obind].
  rewrite take_bytes_app by apply (plane_wf_length _ Hr). cbn [obind].
  rewrite take_bytes_app by apply (plane_wf_length _ Hi). cbn [obind].
  reflexivity.
Qed.

(** ** Fields of the header by offset *)

Lemma field_at_skip (bo : byte_order) (off n : nat) (a b : list byte) :
  (length a <= off)%nat ->
  field_at bo off n (a ++ b) = field_at bo (off - length a) n b.
Proof.
  intros H. unfold field_at.
  rewrite skipn_app, (skipn_all2 a) by exact H. reflexivity.
Qed.

Lemma field_at_here (bo : byte_order) (n : nat) (v : Z) (rest : list byte) :
  field_at bo 0 n (store_uint bo n v ++ rest) = v mod 2 ^ (Z.of_nat n * 8).
Proof.
  unfold field_at. rewrite skipn_O.
  rewrite firstn_app, length_store_uint, Nat.sub_diag, firstn_O, app_nil_r.
  rewrite firstn_all2 by (rewrite length_store_uint; lia).
  apply load_store_uint.
Qed.

Ltac field_at_offset :=
  repeat (rewrite field_at_skip by (rewrite ?length_store_uint; simpl; lia);
          rewrite ?length_store_uint; simpl Nat.sub);
  rewrite field_at_here.

Lemma header_fields (bo : byte_order) (h : FrameHeader) (rest : list byte) :
  header_wf h ->
  let msg := header_bytes bo h ++ rest in
  field_at bo 0 8 msg = h_timestamp h /\
  field_at bo 8 4 msg = h_frame_id h /\
  field_at bo 12 4 msg = h_depth_width h /\
  field_at bo 16 4 msg = h_depth_height h /\
  field_at bo 20 4 msg = h_depth_size h /\
  field_at bo 24 4 msg = h_rgb_width h /\
  field_at bo 28 4 msg = h_rgb_height h /\
  field_at bo 32 4 msg = h_rgb_size h /\
  field_at bo 36 4 msg = h_ir_width h /\
  field_at bo 40 4 msg = h_ir_height h /\
  field_at bo 44 4 msg = h_ir_size h.
Proof.
  intros (Hts & Hid & Hdw & Hdh & Hds & Hrw & Hrh & Hrs & Hiw & Hih & His) msg.
  subst msg. unfold header_bytes. rewrite <- !app_assoc.
  unfold is_u32, is_u64 in *.
  repeat split; field_at_offset; apply Z.mod_small; assumption.
Qed.

Lemma skipn_header (bo : byte_order) (h : FrameHeader) (rest : list byte) :
  skipn 48 (header_bytes bo h ++ rest) = rest.
Proof.
  rewrite skipn_app, length_header_bytes, skipn_all2
    by (rewrite length_header_bytes; lia).
  reflexivity.
Qed.

(* ===================================================================== *)
(** ** The wire format *)
(* ===================================================================== *)

(** C1.  Round trip.  For every well-formed frame (each plane either
    absent, with size 0, or present, with a buffer of its size):
    [sendFrameToClient] succeeds on a socket that takes all bytes, and
    whenever it succeeds the bytes it appended to the wire are parsed by
    the reader of the documented layout into the same timestamp,
    frame_id, widths, heights, sizes and plane bytes, leaving what
    follows the message untouched. *)
Theorem sendFrameToClient_roundtrip (native : byte_order) (f : StreamFrame) :
  frame_wf f ->
  (forall sk, accepting sk ->
     exists sk', sendFrameToClient native sk f = Returns (true, sk')) /\
  (forall sk sk',
     sendFrameToClient native sk f = Returns (true, sk') ->
     exists msg,
       sk_wire sk' = sk_wire sk ++ msg /\
       forall rest,
         parse_message native (msg ++ rest) = Some (message_of f, rest)).
Proof.
  intros Hwf. split.
  - intros sk Hacc.
    destruct Hwf as (_ & _ & Hd & Hr & Hi).
    destruct (sendFrameToClient_accepting native sk f Hacc
                (plane_wf_readable _ Hd) (plane_wf_readable _ Hr)
                (plane_wf_readable _ Hi)) as (sk' & Hs & _).
    exists sk'. exact Hs.
  - intros sk sk' Hs.
    eexists. split.
    + apply (sendFrameToClient_true _ _ _ _ Hs).
    + intros rest. apply parse_message_wire. exact Hwf.
Qed.

Ltac concrete_wf :=
  unfold frame_wf, plane_wf, header_wf, accepting, is_u32, is_u64; simpl;
  repeat split;
  try lia;
  try (intros _; eexists; split; [reflexivity | simpl; lia]);
  try (intros; lia).

Lemma sendFrameToClient_roundtrip_witness :
  frame_wf frame_depth_ir /\
  exists sk',
    sendFrameToClient LittleEndian fresh_socket frame_depth_ir = Returns (true, sk') /\
    parse_message LittleEndian (sk_wire sk') = Some (message_of frame_depth_ir, []).
Proof.
  assert (Hwf : frame_wf frame_depth_ir) by concrete_wf.
  split; [exact Hwf |].
  destruct (sendFrameToClient_roundtrip LittleEndian frame_depth_ir Hwf) as [Hsend Hparse].
  destruct (Hsend fresh_socket) as [sk' Hs]; [concrete_wf |].
  destruct (Hparse _ _ Hs) as (msg & Hw & Hp).
  exists sk'. split; [exact Hs |].
  rewrite Hw. simpl. rewrite <- (app_nil_r msg). apply Hp.
Defined.

(** C4.  Layout of one message.  On a socket that takes all bytes, a
    well-formed frame is sent as a 48-byte header whose fields are, by
    offset, timestamp (0, 8 bytes), frame_id (8), depth_width (12),
    depth_height (16), depth_size (20), rgb_width (24), rgb_height (28),
    rgb_size (32), ir_width (36), ir_height (40), ir_size (44), each of 4
    bytes, followed by the depth, RGB and IR bytes; the message has
    48 + depth_size + rgb_size + ir_size bytes.  With depth_size = 100,
    rgb_size = 0 and ir_size = 0 the header shows rgb_size = 0 and
    ir_size = 0 and 148 bytes are sent. *)
Theorem sendFrameToClient_layout (native : byte_order) (sk : Socket) (f : StreamFrame) :
  accepting sk -> frame_wf f ->
  exists sk' msg,
    sendFrameToClient native sk f = Returns (true, sk') /\
    sk_wire sk' = sk_wire sk ++ msg /\
    firstn 48 msg = header_bytes native (header_of f) /\
    length (header_bytes native (header_of f)) = 48%nat /\
    field_at native 0 8 msg = timestamp f /\
    field_at native 8 4 msg = frame_id f /\
    field_at native 12 4 msg = depth_width f /\
    field_at native 16 4 msg = depth_height f /\
    field_at native 20 4 msg = depth_size f /\
    field_at native 24 4 msg = rgb_width f /\
    field_at native 28 4 msg = rgb_height f /\
    field_at native 32 4 msg = rgb_size f /\
    field_at native 36 4 msg = ir_width f /\
    field_at native 40 4 msg = ir_height f /\
    field_at native 44 4 msg = ir_size f /\
    skipn 48 msg =
      plane_bytes (depth_plane f) ++ plane_bytes (rgb_plane f) ++
      plane_bytes (ir_plane f) /\
    Z.of_nat (length msg) = 48 + depth_size f + rgb_size f + ir_size f /\
    (depth_size f = 100 -> rgb_size f = 0 -> ir_size f = 0 ->
     length msg = 148%nat /\
     field_at native 32 4 msg = 0 /\ field_at native 44 4 msg = 0).
Proof.
  intros Hacc Hwf.
  pose proof (frame_wf_header f Hwf) as Hh.
  destruct Hwf as (Hts & Hid & Hd & Hr & Hi).
  destruct (sendFrameToClient_accepting native sk f Hacc
              (plane_wf_readable _ Hd) (plane_wf_readable _ Hr)
              (plane_wf_readable _ Hi)) as (sk' & Hs & _).
  pose proof (sendFrameToClient_true _ _ _ _ Hs) as Hw.
  rewrite (plane_wf_payload _ Hd : payload (depth_size f) (depth_data f) = _) in Hw.
  rewrite (plane_wf_payload _ Hr : payload (rgb_size f) (rgb_data f) = _) in Hw.
  rewrite (plane_wf_payload _ Hi : payload (ir_size f) (ir_data f) = _) in Hw.
  set (planes := plane_bytes (depth_plane f) ++ plane_bytes (rgb_plane f) ++
                 plane_bytes (ir_plane f)) in *.
  assert (Hlen : Z.of_nat (length (header_bytes native (header_of f) ++ planes))
                 = 48 + depth_size f + rgb_size f + ir_size f).
  { subst planes.
    rewrite !length_app, length_header_bytes, (plane_wf_length _ Hd),
      (plane_wf_length _ Hr), (plane_wf_length _ Hi).
    destruct Hd as (_ & _ & Hds & _), Hr as (_ & _ & Hrs & _), Hi as (_ & _ & His & _).
    unfold is_u32 in *.
    cbn [p_size depth_plane rgb_plane ir_plane] in *. lia. }
  destruct (header_fields native (header_of f) planes Hh)
    as (F0 & F1 & F2 & F3 & F4 & F5 & F6 & F7 & F8 & F9 & F10).
  exists sk', (header_bytes native (header_of f) ++ planes).
  split; [exact Hs |]. split; [exact Hw |].
  split.
  { rewrite firstn_app, length_header_bytes, Nat.sub_diag, firstn_O, app_nil_r.
    apply firstn_all2. rewrite length_header_bytes. lia. }
  split; [apply length_header_bytes |].
  do 11 (split; [assumption |]).
  split; [apply skipn_header |].
  split; [exact Hlen |].
  intros H100 Hr0 Hi0.
  split; [lia |].
  split; [rewrite F7; exact Hr0 | rewrite F10; exact Hi0].
Qed.

Lemma sendFrameToClient_layout_witness :
  accepting fresh_socket /\ frame_wf frame_scenario_A /\
  exists sk',
    sendFrameToClient LittleEndian fresh_socket frame_scenario_A = Returns (true, sk') /\
    length (sk_wire sk') = 148%nat /\
    field_at LittleEndian 32 4 (sk_wire sk') = 0 /\
    field_at LittleEndian 44 4 (sk_wire sk') = 0.
Proof.
  assert (Hacc : accepting fresh_socket) by concrete_wf.
  assert (Hwf : frame_wf frame_scenario_A) by concrete_wf.
  split; [exact Hacc |]. split; [exact Hwf |].
  destruct (sendFrameToClient_layout LittleEndian fresh_socket frame_scenario_A Hacc Hwf)
    as (sk' & msg & Hs & Hw & _ & _ & _ & _ & _ & _ & _ & _ & _ & _ & _ & _ & _ & _ & _ & HA).
  simpl in Hw. subst msg.
  exists sk'. split; [exact Hs |].
  apply HA; reflexivity.
Defined.

(* ===================================================================== *)
(** ** convertToStreamFrame *)
(* ===================================================================== *)

Lemma memcpy_fresh (n : Z) (src : pointer) (b : list byte) :
  0 <= n ->
  memcpy (repeat Byte.x00 (Z.to_nat n)) src n = Returns b ->
  read_bytes src n = Some b.
Proof.
  intros Hn. unfold memcpy. rewrite repeat_length.
  destruct (Z.ltb_spec (Z.of_nat (Z.to_nat n)) n) as [H | _]; [lia |].
  destruct (read_bytes src n) as [bs |]; [| discriminate].
  rewrite skipn_all2 by (rewrite repeat_length; lia).
  rewrite app_nil_r. intros [= <-]. reflexivity.
Qed.

Lemma operator_new_returns (allocs allocs' : list bool) (n : Z) (buf : list byte) :
  operator_new allocs n = Returns (buf, allocs') ->
  buf = repeat Byte.x00 (Z.to_nat n) /\ allocs' = tl allocs.
Proof.
  unfold operator_new. destruct allocs as [| [|] rest]; intros [= <- <-];
    split; reflexivity.
Qed.

Lemma operator_new_succeeds (allocs : list bool) (n : Z) :
  allocs_succeed allocs ->
  operator_new allocs n = Returns (repeat Byte.x00 (Z.to_nat n), tl allocs).
Proof.
  intros H. destruct allocs as [| b rest]; [reflexivity |].
  inversion H as [| ? ? Hb _]; subst. reflexivity.
Qed.

Lemma allocs_succeed_tl (allocs : list bool) :
  allocs_succeed allocs -> allocs_succeed (tl allocs).
Proof.
  intros H. destruct allocs; [exact H |]. inversion H; assumption.
Qed.

(** A plane that [copy_plane] returns for a positive size. *)
Lemma copy_plane_present (img : AS_Frame_s) (allocs allocs' : list bool) (p : Plane) :
  size img > 0 ->
  copy_plane img allocs = Returns (p, allocs') ->
  p_width p = wrap32 (width img) /\
  p_height p = wrap32 (height img) /\
  p_size p = wrap32 (size img) /\
  exists buf,
    p_data p = Some buf /\
    read_bytes (data img) (wrap32 (size img)) = Some buf.
Proof.
  intros Hpos. unfold copy_plane.
  destruct (Z.gtb_spec (size img) 0) as [_ | H]; [| lia].
  destruct (operator_new allocs (wrap32 (size img))) as [[buf al] | |] eqn:Hnew;
    simpl; try discriminate.
  apply operator_new_returns in Hnew. destruct Hnew as [-> ->].
  destruct (memcpy _ (data img) (wrap32 (size img))) as [buf' | |] eqn:Hcpy;
    simpl; try discriminate.
  apply memcpy_fresh in Hcpy; [| apply wrap32_is_u32].
  intros [= <- <-]. simpl. repeat split. exists buf'. split; [reflexivity | exact Hcpy].
Qed.

Lemma copy_plane_absent (img : AS_Frame_s) (allocs : list bool) :
  ~ size img > 0 ->
  copy_plane img allocs = Returns (mkPlane 0 0 0 None, allocs).
Proof.
  intros H. unfold copy_plane.
  destruct (Z.gtb_spec (size img) 0) as [Hpos | _]; [lia | reflexivity].
Qed.

(** With a copyable plane and a succeeding allocator [copy_plane]
    returns. *)
Lemma copy_plane_returns (img : AS_Frame_s) (allocs : list bool) :
  raw_plane_ok img -> allocs_succeed allocs ->
  exists p allocs',
    copy_plane img allocs = Returns (p, allocs') /\
    allocs_succeed allocs' /\ plane_copied img p.
Proof.
  intros (Hw & Hh & Hs & Hbuf) Hal.
  destruct (Z_gt_le_dec (size img) 0) as [Hpos | Hz].
  - destruct (Hbuf Hpos) as (raw & Hraw & Hlen).
    unfold copy_plane.
    destruct (Z.gtb_spec (size img) 0) as [_ | H]; [| lia].
    rewrite !wrap32_small by assumption.
    rewrite operator_new_succeeds by exact Hal. simpl.
    unfold memcpy. rewrite repeat_length, Hraw.
    destruct (Z.ltb_spec (Z.of_nat (Z.to_nat (size img))) (size img)) as [H | _];
      [lia |].
    rewrite read_bytes_some by exact Hlen.
    rewrite skipn_all2 by (rewrite repeat_length; lia).
    rewrite app_nil_r. simpl.
    eexists _, _. split; [reflexivity |].
    split; [apply allocs_succeed_tl; exact Hal |].
    split; [| intros Hn; contradiction].
    intros _. simpl. repeat split.
    exists (firstn (Z.to_nat (size img)) raw), raw.
    repeat split; try assumption.
    rewrite length_firstn. lia.
  - rewrite copy_plane_absent by lia.
    eexists _, _. split; [reflexivity |]. split; [exact Hal |].
    split; [intros Hn; lia |]. intros _. simpl. repeat split.
Qed.

(** Whatever plane [copy_plane] returns, a positive size comes with a
    buffer. *)
Lemma copy_plane_buffer (img : AS_Frame_s) (allocs allocs' : list bool) (p : Plane) :
  copy_plane img allocs = Returns (p, allocs') ->
  p_size p > 0 -> p_data p <> None.
Proof.
  intros Hc Hp.
  destruct (Z_gt_le_dec (size img) 0) as [Hpos | Hz].
  - destruct (copy_plane_present _ _ _ _ Hpos Hc) as (_ & _ & _ & buf & -> & _).
    discriminate.
  - rewrite copy_plane_absent in Hc by lia.
    injection Hc as <- _. simpl in Hp. lia.
Qed.

(** The planes of a returned frame are those [copy_plane] returned, in
    the order depth, RGB, IR, each allocation using the next entry of the
    script. *)
Lemma convertToStreamFrame_planes (now : Z) (allocs : list bool)
    (d : AS_SDK_Data_s) (s : PythonStreamServer) (f : StreamFrame) :
  snd (convertToStreamFrame now allocs d s) = Returns f ->
  exists a1 a2 a3,
    copy_plane (depthImg d) allocs = Returns (depth_plane f, a1) /\
    copy_plane (rgbImg d) a1 = Returns (rgb_plane f, a2) /\
    copy_plane (irImg d) a2 = Returns (ir_plane f, a3) /\
    timestamp f = wrap64 now /\
    frame_id f = wrap32 (m_frame_counter s + 1).
Proof.
  unfold convertToStreamFrame. simpl.
  destruct (copy_plane (depthImg d) allocs) as [[pd a1] | |] eqn:Hd; simpl;
    try discriminate.
  destruct (copy_plane (rgbImg d) a1) as [[pr a2] | |] eqn:Hr; simpl;
    try discriminate.
  destruct (copy_plane (irImg d) a2) as [[pi a3] | |] eqn:Hi; simpl;
    try discriminate.
  intros [= <-]. exists a1, a2, a3.
  rewrite Hr, Hi.
  destruct pd, pr, pi. repeat split; reflexivity.
Qed.

(** With copyable planes and a succeeding allocator
    [convertToStreamFrame] returns a frame. *)
Lemma convertToStreamFrame_returns (now : Z) (allocs : list bool)
    (d : AS_SDK_Data_s) (s : PythonStreamServer) :
  raw_ok d -> allocs_succeed allocs ->
  exists f,
    convertToStreamFrame now allocs d s
    = (set_frame_counter s (wrap32 (m_frame_counter s + 1)), Returns f) /\
    frame_id f = wrap32 (m_frame_counter s + 1) /\
    timestamp f = wrap64 now /\
    plane_copied (depthImg d) (depth_plane f) /\
    plane_copied (rgbImg d) (rgb_plane f) /\
    plane_copied (irImg d) (ir_plane f).
Proof.
  intros (Hd & Hr & Hi) Hal.
  destruct (copy_plane_returns _ _ Hd Hal) as (pd & a1 & Hcd & Hal1 & Hpd).
  destruct (copy_plane_returns _ _ Hr Hal1) as (pr & a2 & Hcr & Hal2 & Hpr).
  destruct (copy_plane_returns _ _ Hi Hal2) as (pi & a3 & Hci & _ & Hpi).
  unfold convertToStreamFrame. rewrite Hcd. simpl. rewrite Hcr. simpl.
  rewrite Hci. simpl.
  eexists. split; [reflexivity |].
  destruct pd, pr, pi.
  split; [reflexivity |]. split; [reflexivity |].
  split; [exact Hpd |]. split; [exact Hpr | exact Hpi].
Qed.

(** *** The memory with addresses *)

Lemma nth_error_store_other (m : Mem.memory) (a a' : Mem.address) (buf : list byte) :
  a <> a' -> nth_error (Mem.store m a buf) a' = nth_error m a'.
Proof.
  revert a a'. induction m as [| b m IH]; intros [| a] [| a'] Hne; cbn;
    try reflexivity; try contradiction.
  apply IH. congruence.
Qed.

Lemma store_last (m : Mem.memory) (old buf : list byte) :
  Mem.store (m ++ [old]) (length m) buf = m ++ [buf].
Proof.
  induction m as [| b m IH]; cbn; [reflexivity |]. rewrite IH. reflexivity.
Qed.

Lemma nth_error_app_at {A : Type} (m l : list A) (k : nat) :
  nth_error (m ++ l) (length m + k) = nth_error l k.
Proof.
  rewrite nth_error_app2 by lia. f_equal. lia.
Qed.

Lemma deref_app (m ext : Mem.memory) (p : Mem.ptr) (buf : list byte) :
  Mem.deref m p = Some buf -> Mem.deref (m ++ ext) p = Some buf.
Proof.
  destruct p as [a |]; cbn; [| discriminate].
  intros H. rewrite nth_error_app1; [exact H |].
  apply nth_error_Some. congruence.
Qed.

Lemma Mem_copy_plane_cases (img : Mem.AS_Frame_s) (allocs : list bool)
    (m0 ext : Mem.memory) :
  raw_plane_ok (view_raw m0 img) ->
  (Mem.size img > 0 ->
   exists raw,
     Mem.deref m0 (Mem.data img) = Some raw /\
     match allocs with
     | false :: _ =>
         Mem.copy_plane img allocs (m0 ++ ext) = Throws bad_alloc /\
         copy_plane (view_raw m0 img) allocs = Throws bad_alloc
     | _ =>
         let buf := firstn (Z.to_nat (Mem.size img)) raw in
         Mem.copy_plane img allocs (m0 ++ ext)
         = Returns (Mem.mkPlane (Mem.width img) (Mem.height img) (Mem.size img)
                                (Some (length (m0 ++ ext))),
                    tl allocs, (m0 ++ ext) ++ [buf]) /\
         copy_plane (view_raw m0 img) allocs
         = Returns (mkPlane (Mem.width img) (Mem.height img) (Mem.size img)
                            (Some buf), tl allocs)
     end) /\
  (~ Mem.size img > 0 ->
   Mem.copy_plane img allocs (m0 ++ ext)
   = Returns (Mem.mkPlane 0 0 0 None, allocs, m0 ++ ext) /\
   copy_plane (view_raw m0 img) allocs = Returns (mkPlane 0 0 0 None, allocs)).
Proof.
  intros (Hw & Hh & Hs & Hdat). cbn [view_raw width height size data] in *.
  split.
  - intros Hpos. destruct (Hdat Hpos) as (raw & Hraw & Hlen).
    exists raw. split; [exact Hraw |].
    unfold Mem.copy_plane, copy_plane. cbn [view_raw width height size data].
    destruct (Z.gtb_spec (Mem.size img) 0) as [_ | H]; [| lia].
    rewrite !wrap32_small by assumption.
    assert (Hm : Mem.memcpy ((m0 ++ ext) ++ [repeat Byte.x00 (Z.to_nat (Mem.size img))])
                   (length (m0 ++ ext)) (Mem.data img) (Mem.size img)
                 = Returns ((m0 ++ ext) ++ [firstn (Z.to_nat (Mem.size img)) raw])).
    { unfold Mem.memcpy.
      replace (length (m0 ++ ext)) with (length (m0 ++ ext) + 0)%nat at 1 by lia.
      rewrite nth_error_app_at. cbn [nth_error].
      rewrite repeat_length.
      destruct (Z.ltb_spec (Z.of_nat (Z.to_nat (Mem.size img))) (Mem.size img));
        [lia |].
      rewrite <- app_assoc.
      rewrite (deref_app m0 _ _ raw Hraw). rewrite app_assoc.
      unfold read_bytes.
      destruct (Z.ltb_spec (Z.of_nat (length raw)) (Mem.size img)); [lia |].
      rewrite skipn_all2 by (rewrite repeat_length; lia).
      rewrite app_nil_r, store_last. reflexivity. }
    assert (Hv : memcpy (repeat Byte.x00 (Z.to_nat (Mem.size img)))
                   (Some raw) (Mem.size img)
                 = Returns (firstn (Z.to_nat (Mem.size img)) raw)).
    { unfold memcpy. rewrite repeat_length.
      destruct (Z.ltb_spec (Z.of_nat (Z.to_nat (Mem.size img))) (Mem.size img));
        [lia |].
      unfold read_bytes.
      destruct (Z.ltb_spec (Z.of_nat (length raw)) (Mem.size img)); [lia |].
      rewrite skipn_all2 by (rewrite repeat_length; lia).
      rewrite app_nil_r. reflexivity. }
    rewrite Hraw.
    destruct allocs as [| [|] rest]; cbn [Mem.operator_new operator_new bind tl];
      try (split; reflexivity);
      rewrite Hm, Hv; cbn [bind]; split; reflexivity.
  - intros Hz. unfold Mem.copy_plane, copy_plane.
    cbn [view_raw width height size data].
    destruct (Z.gtb_spec (Mem.size img) 0) as [H | _]; [lia |].
    split; reflexivity.
Qed.

Lemma deref_store_other (m : Mem.memory) (a : Mem.address) (bs : list byte)
    (p : Mem.ptr) :
  ~ In a (buffer_of p) -> Mem.deref (Mem.store m a bs) p = Mem.deref m p.
Proof.
  destruct p as [a' |]; cbn; [| reflexivity].
  intros Hne. apply nth_error_store_other. intros ->. apply Hne. left. reflexivity.
Qed.

(** A plane made by [Mem.copy_plane] reads the same in every later
    memory. *)
Lemma view_plane_app (m news more : Mem.memory) (pm : Mem.Plane) :
  buffer_of (Mem.p_data pm) = seq (length m) (length news) ->
  view_plane ((m ++ news) ++ more) pm = view_plane (m ++ news) pm.
Proof.
  intros Hb. unfold view_plane. f_equal.
  destruct (Mem.p_data pm) as [a |]; [| reflexivity].
  destruct news as [| b news]; [discriminate Hb |].
  cbn in Hb. injection Hb as -> _. cbn [Mem.deref].
  apply nth_error_app1. rewrite length_app. cbn. lia.
Qed.

Lemma allocs_succeed_skipn (k : nat) (allocs : list bool) :
  allocs_succeed allocs -> allocs_succeed (skipn k allocs).
Proof.
  unfold allocs_succeed. revert allocs.
  induction k as [| k IH]; intros allocs H; [exact H |].
  destruct H as [| b l Hb H]; [constructor |]. cbn [skipn]. apply IH. exact H.
Qed.

(** One plane: the two readings of [copy_plane] side by side. *)
Lemma Mem_copy_plane_step (img : Mem.AS_Frame_s) (allocs : list bool)
    (m0 ext : Mem.memory) :
  raw_plane_ok (view_raw m0 img) ->
  (exists pm news,
     Mem.copy_plane img allocs (m0 ++ ext)
     = Returns (pm, skipn (length news) allocs, (m0 ++ ext) ++ news) /\
     copy_plane (view_raw m0 img) allocs
     = Returns (view_plane ((m0 ++ ext) ++ news) pm, skipn (length news) allocs) /\
     buffer_of (Mem.p_data pm) = seq (length (m0 ++ ext)) (length news) /\
     plane_copied (view_raw m0 img) (view_plane ((m0 ++ ext) ++ news) pm)) \/
  (Mem.copy_plane img allocs (m0 ++ ext) = Throws bad_alloc /\
   copy_plane (view_raw m0 img) allocs = Throws bad_alloc /\
   ~ allocs_succeed allocs).
Proof.
  intros Hok.
  destruct (Mem_copy_plane_cases img allocs m0 ext Hok) as [Hpos Hzero].
  destruct Hok as (Hw & Hh & Hs & Hdat).
  cbn [view_raw width height size data] in *.
  destruct (Z_gt_le_dec (Mem.size img) 0) as [Hp | Hz].
  - destruct (Hpos Hp) as (raw & Hraw & Hcase).
    assert (Hlen : Mem.size img <= Z.of_nat (length raw)).
    { destruct (Hdat Hp) as (raw' & Hraw' & Hlen').
      rewrite Hraw in Hraw'. injection Hraw' as <-. exact Hlen'. }
    assert (Hgood :
      forall buf,
        buf = firstn (Z.to_nat (Mem.size img)) raw ->
        Mem.copy_plane img allocs (m0 ++ ext)
        = Returns (Mem.mkPlane (Mem.width img) (Mem.height img) (Mem.size img)
                               (Some (length (m0 ++ ext))),
                   tl allocs, (m0 ++ ext) ++ [buf]) ->
        copy_plane (view_raw m0 img) allocs
        = Returns (mkPlane (Mem.width img) (Mem.height img) (Mem.size img)
                           (Some buf), tl allocs) ->
        exists pm news,
          Mem.copy_plane img allocs (m0 ++ ext)
          = Returns (pm, skipn (length news) allocs, (m0 ++ ext) ++ news) /\
          copy_plane (view_raw m0 img) allocs
          = Returns (view_plane ((m0 ++ ext) ++ news) pm, skipn (length news) allocs) /\
          buffer_of (Mem.p_data pm) = seq (length (m0 ++ ext)) (length news) /\
          plane_copied (view_raw m0 img) (view_plane ((m0 ++ ext) ++ news) pm)).
    { intros buf Hbuf Hm Hv.
      assert (Hnth : nth_error ((m0 ++ ext) ++ [buf]) (length (m0 ++ ext)) = Some buf).
      { rewrite nth_error_app2 by lia. rewrite Nat.sub_diag. reflexivity. }
      eexists; exists [buf]. split; [exact Hm |].
      unfold view_plane. cbn [Mem.p_width Mem.p_height Mem.p_size Mem.p_data Mem.deref].
      rewrite Hnth. split; [exact Hv |]. split; [reflexivity |].
      split.
      - intros _. cbn [p_width p_height p_size p_data view_raw width height size data].
        split; [reflexivity |]. split; [reflexivity |]. split; [reflexivity |].
        exists buf, raw. split; [reflexivity |]. split; [exact Hraw |].
        split; [| exact Hbuf].
        rewrite Hbuf, length_firstn. lia.
      - intros Hn. cbn [view_raw size] in Hn. contradiction. }
    destruct allocs as [| [|] rest].
    + left. destruct Hcase as [Hm Hv]. exact (Hgood _ eq_refl Hm Hv).
    + left. destruct Hcase as [Hm Hv]. exact (Hgood _ eq_refl Hm Hv).
    + right. destruct Hcase as [Hm Hv]. split; [exact Hm |]. split; [exact Hv |].
      intros Hal. inversion Hal as [| ? ? Hb _]. discriminate Hb.
  - assert (Hn : ~ Mem.size img > 0) by lia.
    destruct (Hzero Hn) as [Hm Hv].
    left. eexists; exists []. cbn [length skipn]. rewrite app_nil_r.
    split; [exact Hm |].
    unfold view_plane. cbn [Mem.p_width Mem.p_height Mem.p_size Mem.p_data Mem.deref].
    split; [exact Hv |]. split; [reflexivity |].
    split.
    + intros Hp. cbn [view_raw size] in Hp. contradiction.
    + intros _. repeat split.
Qed.

(** The two readings of [convertToStreamFrame] side by side. *)
Lemma Mem_convertToStreamFrame_step (now : Z) (allocs : list bool)
    (m : Mem.memory) (d : Mem.AS_SDK_Data_s) (s : PythonStreamServer) :
  raw_ok (view_data m d) ->
  convertToStreamFrame now allocs (view_data m d) s
  = (fst (Mem.convertToStreamFrame now allocs d s m),
     view_outcome (snd (Mem.convertToStreamFrame now allocs d s m))) /\
  (allocs_succeed allocs ->
   exists f news,
     snd (Mem.convertToStreamFrame now allocs d s m) = Returns (f, m ++ news) /\
     buffers f = seq (length m) (length news) /\
     plane_copied (view_raw m (Mem.depthImg d)) (depth_plane (view_frame (m ++ news) f)) /\
     plane_copied (view_raw m (Mem.rgbImg d)) (rgb_plane (view_frame (m ++ news) f)) /\
     plane_copied (view_raw m (Mem.irImg d)) (ir_plane (view_frame (m ++ news) f))).
Proof.
  intros (Hd & Hr & Hi). cbn [view_data depthImg rgbImg irImg] in Hd, Hr, Hi.
  unfold convertToStreamFrame, Mem.convertToStreamFrame.
  cbn [fst snd view_data depthImg rgbImg irImg].
  destruct (Mem_copy_plane_step (Mem.depthImg d) allocs m [] Hd)
    as [(pd & n1 & Hm1 & Hv1 & Hb1 & Hc1) | (Hm1 & Hv1 & Hn1)];
    rewrite ?app_nil_r in *.
  2: { rewrite Hm1, Hv1. cbn [bind view_outcome].
       split; [reflexivity | intros Hal; contradiction]. }
  destruct (Mem_copy_plane_step (Mem.rgbImg d) (skipn (length n1) allocs) m n1 Hr)
    as [(pr & n2 & Hm2 & Hv2 & Hb2 & Hc2) | (Hm2 & Hv2 & Hn2)].
  2: { rewrite Hm1, Hv1. cbn [bind]. rewrite Hm2, Hv2. cbn [bind view_outcome].
       split; [reflexivity |].
       intros Hal. exfalso. apply Hn2. apply allocs_succeed_skipn. exact Hal. }
  rewrite <- app_assoc in Hm2.
  destruct (Mem_copy_plane_step (Mem.irImg d)
              (skipn (length n2) (skipn (length n1) allocs)) m (n1 ++ n2) Hi)
    as [(pi & n3 & Hm3 & Hv3 & Hb3 & Hc3) | (Hm3 & Hv3 & Hn3)].
  2: { rewrite Hm1, Hv1. cbn [bind]. rewrite Hm2, Hv2. cbn [bind].
       rewrite Hm3, Hv3. cbn [bind view_outcome].
       split; [reflexivity |].
       intros Hal. exfalso. apply Hn3. do 2 apply allocs_succeed_skipn. exact Hal. }
  assert (E1 : view_plane (m ++ n1) pd = view_plane (m ++ n1 ++ n2 ++ n3) pd).
  { rewrite (app_assoc m n1). symmetry. apply view_plane_app. exact Hb1. }
  assert (E2 : view_plane ((m ++ n1) ++ n2) pr = view_plane (m ++ n1 ++ n2 ++ n3) pr).
  { rewrite (app_assoc m n1), (app_assoc (m ++ n1) n2). symmetry.
    apply view_plane_app. exact Hb2. }
  assert (E3 : view_plane ((m ++ n1 ++ n2) ++ n3) pi = view_plane (m ++ n1 ++ n2 ++ n3) pi).
  { rewrite <- !app_assoc. reflexivity. }
  rewrite E1 in Hv1, Hc1. rewrite E2 in Hv2, Hc2. rewrite E3 in Hv3, Hc3.
  rewrite <- !app_assoc in Hm3.
  rewrite Hm1, Hv1. cbn [bind]. rewrite Hm2, Hv2. cbn [bind].
  rewrite Hm3, Hv3. cbn [bind view_outcome].
  split; [reflexivity |].
  intros _. eexists; exists (n1 ++ n2 ++ n3).
  split; [reflexivity |].
  split.
  { unfold buffers.
    cbn [Mem.depth_data Mem.rgb_data Mem.ir_data].
    rewrite Hb1, Hb2, Hb3. rewrite !length_app, !seq_app, !Nat.add_assoc.
    reflexivity. }
  destruct pd, pr, pi.
  split; [exact Hc1 |]. split; [exact Hc2 | exact Hc3].
Qed.

(** C8.  Normalization.  For a driver frame whose planes are readable
    (and with the allocations succeeding), [convertToStreamFrame] returns
    a frame in which every plane of positive reported size has the raw
    width, height and size and a buffer holding exactly the first [size]
    bytes of the raw data, and every other plane has width, height and
    size 0 and a null pointer.  The buffers are the frame's own: on the
    memory with addresses, the buffers of the returned frame are exactly
    the arrays the call has allocated, each at an address that no array
    had before the call, so none is shared with the driver, with another
    frame or with another plane; the arrays that were there before are
    unchanged, and whatever is written into them afterwards (the driver
    reusing its memory) does not change what the frame holds.  Whatever
    the allocator does, the frame on the memory with addresses, read
    through that memory, is the frame of the first reading. *)
Theorem convertToStreamFrame_copies :
  (forall (now : Z) (allocs : list bool) (d : AS_SDK_Data_s)
          (s : PythonStreamServer),
     raw_ok d -> allocs_succeed allocs ->
     exists f,
       snd (convertToStreamFrame now allocs d s) = Returns f /\
       plane_copied (depthImg d) (depth_plane f) /\
       plane_copied (rgbImg d) (rgb_plane f) /\
       plane_copied (irImg d) (ir_plane f)) /\
  (forall (now : Z) (allocs : list bool) (m : Mem.memory)
          (d : Mem.AS_SDK_Data_s) (s : PythonStreamServer),
     raw_ok (view_data m d) ->
     convertToStreamFrame now allocs (view_data m d) s
     = (fst (Mem.convertToStreamFrame now allocs d s m),
        view_outcome (snd (Mem.convertToStreamFrame now allocs d s m))) /\
     (allocs_succeed allocs ->
      exists f news,
        snd (Mem.convertToStreamFrame now allocs d s m) = Returns (f, m ++ news) /\
        plane_copied (view_raw m (Mem.depthImg d))
                     (depth_plane (view_frame (m ++ news) f)) /\
        plane_copied (view_raw m (Mem.rgbImg d))
                     (rgb_plane (view_frame (m ++ news) f)) /\
        plane_copied (view_raw m (Mem.irImg d))
                     (ir_plane (view_frame (m ++ news) f)) /\
        buffers f = seq (length m) (length news) /\
        NoDup (buffers f) /\
        (forall a, In a (buffers f) ->
                   nth_error m a = None /\ nth_error (m ++ news) a <> None) /\
        (forall a bs,
           (a < length m)%nat ->
           view_frame (Mem.store (m ++ news) a bs) f = view_frame (m ++ news) f))).
Proof.
  split.
  { intros now allocs d s Hraw Hal.
    destruct (convertToStreamFrame_returns now allocs d s Hraw Hal)
      as (f & Hc & _ & _ & Hd & Hr & Hi).
    exists f. rewrite Hc.
    split; [reflexivity |]. split; [exact Hd |]. split; [exact Hr | exact Hi]. }
  intros now allocs m d s Hraw.
  destruct (Mem_convertToStreamFrame_step now allocs m d s Hraw) as [Hlink Hok].
  split; [exact Hlink |].
  intros Hal. destruct (Hok Hal) as (f & news & Hret & Hbuf & Hd & Hr & Hi).
  exists f, news.
  split; [exact Hret |]. split; [exact Hd |]. split; [exact Hr |].
  split; [exact Hi |]. split; [exact Hbuf |].
  split; [rewrite Hbuf; apply seq_NoDup |].
  assert (Hfresh : forall a, In a (buffers f) ->
                             (length m <= a < length m + length news)%nat).
  { intros a Hin. rewrite Hbuf in Hin. apply in_seq in Hin. exact Hin. }
  split.
  { intros a Hin. destruct (Hfresh a Hin) as [Hlo Hhi]. split.
    - apply nth_error_None. exact Hlo.
    - apply nth_error_Some. rewrite length_app. exact Hhi. }
  intros a bs Ha.
  assert (Hnot : forall p, incl (buffer_of p) (buffers f) -> ~ In a (buffer_of p)).
  { intros p Hincl Hin. apply Hincl, Hfresh in Hin. lia. }
  unfold view_frame.
  rewrite !deref_store_other; [reflexivity | | |]; apply Hnot; unfold buffers;
    intros x Hx; repeat (apply in_or_app; (left; exact Hx) || right); exact Hx.
Qed.

Ltac concrete_raw :=
  unfold raw_ok, raw_plane_ok, is_u32; simpl;
  repeat split;
  try lia;
  try (intros _; eexists; split; [reflexivity | simpl; lia]);
  try (intros; lia).

Lemma convertToStreamFrame_copies_witness :
  raw_ok raw_depth_ir /\ allocs_succeed [true; true] /\
  view_data mem_example raw_example = raw_depth_ir /\
  (exists f,
     snd (convertToStreamFrame 5 [true; true] raw_depth_ir running_server) = Returns f /\
     plane_copied (depthImg raw_depth_ir) (depth_plane f) /\
     plane_copied (rgbImg raw_depth_ir) (rgb_plane f) /\
     plane_copied (irImg raw_depth_ir) (ir_plane f)) /\
  (exists f news,
     snd (Mem.convertToStreamFrame 5 [true; true] raw_example running_server mem_example)
     = Returns (f, mem_example ++ news) /\
     buffers f = [3; 4]%nat /\
     view_frame (Mem.store (mem_example ++ news) 1%nat []) f
     = view_frame (mem_example ++ news) f).
Proof.
  assert (Hraw : raw_ok raw_depth_ir) by concrete_raw.
  assert (Hal : allocs_succeed [true; true]) by (repeat constructor).
  assert (Hview : view_data mem_example raw_example = raw_depth_ir) by reflexivity.
  destruct convertToStreamFrame_copies as [Hvalues Hmem].
  split; [exact Hraw |]. split; [exact Hal |]. split; [exact Hview |].
  split; [exact (Hvalues 5 [true; true] raw_depth_ir running_server Hraw Hal) |].
  assert (Hraw' : raw_ok (view_data mem_example raw_example))
    by (rewrite Hview; exact Hraw).
  destruct (Hmem 5 [true; true] mem_example raw_example running_server Hraw')
    as [_ Hown].
  destruct (Hown Hal) as (f & news & Hret & _ & _ & _ & Hbuf & _ & _ & Hkeep).
  exists f, news. split; [exact Hret |].
  split; [| apply Hkeep; simpl; lia].
  rewrite Hbuf. cbv in Hret. injection Hret as _ Hnews.
  rewrite <- Hnews. reflexivity.
Defined.

(* ===================================================================== *)
(** ** Planes declared without a buffer *)
(* ===================================================================== *)

Lemma payload_length (sz : Z) (dat : pointer) :
  readable sz dat -> 0 <= sz -> Z.of_nat (length (payload sz dat)) <= sz.
Proof.
  intros Hr Hs. unfold payload.
  destruct (Z.gtb_spec sz 0); simpl; [| simpl; lia].
  destruct dat as [buf |]; simpl; [| lia].
  specialize (Hr buf eq_refl). rewrite length_firstn. lia.
Qed.

Lemma payload_omitted (sz : Z) (dat : pointer) :
  omitted sz dat -> payload sz dat = [].
Proof.
  intros [_ ->]. unfold payload. rewrite andb_false_r. reflexivity.
Qed.

(** C10.  A plane whose declared size is positive but whose pointer is
    null: on a socket that takes all bytes [sendFrameToClient] writes the
    48-byte header with the declared sizes, writes no byte for that
    plane, and returns [true], so fewer than 48 + depth_size + rgb_size +
    ir_size bytes are sent.  No frame returned by [convertToStreamFrame]
    has such a plane. *)
Theorem sendFrameToClient_null_plane :
  (forall (native : byte_order) (sk : Socket) (f : StreamFrame),
     accepting sk ->
     header_wf (header_of f) ->
     readable (depth_size f) (depth_data f) ->
     readable (rgb_size f) (rgb_data f) ->
     readable (ir_size f) (ir_data f) ->
     omitted (depth_size f) (depth_data f) \/
     omitted (rgb_size f) (rgb_data f) \/
     omitted (ir_size f) (ir_data f) ->
     exists sk' msg,
       sendFrameToClient native sk f = Returns (true, sk') /\
       sk_wire sk' = sk_wire sk ++ msg /\
       firstn 48 msg = header_bytes native (header_of f) /\
       field_at native 20 4 msg = depth_size f /\
       field_at native 32 4 msg = rgb_size f /\
       field_at native 44 4 msg = ir_size f /\
       skipn 48 msg =
         payload (depth_size f) (depth_data f) ++
         payload (rgb_size f) (rgb_data f) ++
         payload (ir_size f) (ir_data f) /\
       (omitted (depth_size f) (depth_data f) ->
        payload (depth_size f) (depth_data f) = []) /\
       (omitted (rgb_size f) (rgb_data f) ->
        payload (rgb_size f) (rgb_data f) = []) /\
       (omitted (ir_size f) (ir_data f) ->
        payload (ir_size f) (ir_data f) = []) /\
       Z.of_nat (length msg) < 48 + depth_size f + rgb_size f + ir_size f) /\
  (forall (now : Z) (allocs : list bool) (d : AS_SDK_Data_s)
          (s : PythonStreamServer) (f : StreamFrame),
     snd (convertToStreamFrame now allocs d s) = Returns f ->
     ~ omitted (depth_size f) (depth_data f) /\
     ~ omitted (rgb_size f) (rgb_data f) /\
     ~ omitted (ir_size f) (ir_data f)).
Proof.
  split.
  - intros native sk f Hacc Hh Hd Hr Hi Hom.
    destruct (sendFrameToClient_accepting native sk f Hacc Hd Hr Hi) as (sk' & Hs & _).
    pose proof (sendFrameToClient_true _ _ _ _ Hs) as Hw.
    set (planes := payload (depth_size f) (depth_data f) ++
                   payload (rgb_size f) (rgb_data f) ++
                   payload (ir_size f) (ir_data f)) in *.
    destruct (header_fields native (header_of f) planes Hh)
      as (_ & _ & _ & _ & F4 & _ & _ & F7 & _ & _ & F10).
    exists sk', (header_bytes native (header_of f) ++ planes).
    split; [exact Hs |]. split; [exact Hw |].
    split.
    { rewrite firstn_app, length_header_bytes, Nat.sub_diag, firstn_O, app_nil_r.
      apply firstn_all2. rewrite length_header_bytes. lia. }
    do 3 (split; [assumption |]).
    split; [apply skipn_header |].
    do 3 (split; [apply payload_omitted |]).
    destruct Hh as (_ & _ & _ & _ & Hds & _ & _ & Hrs & _ & _ & His).
    unfold is_u32 in Hds, Hrs, His. cbn [header_of h_depth_size h_rgb_size h_ir_size] in *.
    pose proof (payload_length _ _ Hd (proj1 Hds)) as Ld.
    pose proof (payload_length _ _ Hr (proj1 Hrs)) as Lr.
    pose proof (payload_length _ _ Hi (proj1 His)) as Li.
    subst planes. rewrite !length_app, length_header_bytes.
    destruct Hom as [Ho | [Ho | Ho]];
      pose proof (payload_omitted _ _ Ho) as Hnil; rewrite Hnil in *;
      destruct Ho as [Hpos _]; simpl length in *; lia.
  - intros now allocs d s f Hc.
    destruct (convertToStreamFrame_planes _ _ _ _ _ Hc)
      as (a1 & a2 & a3 & Hd & Hr & Hi & _ & _).
    repeat split; intros [Hpos Hnull].
    + apply (copy_plane_buffer _ _ _ _ Hd); assumption.
    + apply (copy_plane_buffer _ _ _ _ Hr); assumption.
    + apply (copy_plane_buffer _ _ _ _ Hi); assumption.
Qed.

Lemma sendFrameToClient_null_plane_witness :
  accepting fresh_socket /\
  header_wf (header_of frame_null_rgb) /\
  omitted (rgb_size frame_null_rgb) (rgb_data frame_null_rgb) /\
  (exists sk',
     sendFrameToClient BigEndian fresh_socket frame_null_rgb = Returns (true, sk') /\
     field_at BigEndian 32 4 (sk_wire sk') = 3 /\
     Z.of_nat (length (sk_wire sk')) < 48 + 2 + 3 + 0) /\
  (exists f,
     snd (convertToStreamFrame 5 [] raw_depth_ir running_server) = Returns f /\
     ~ omitted (depth_size f) (depth_data f) /\
     ~ omitted (rgb_size f) (rgb_data f) /\
     ~ omitted (ir_size f) (ir_data f)).
Proof.
  assert (Hacc : accepting fresh_socket) by concrete_wf.
  assert (Hh : header_wf (header_of frame_null_rgb)) by concrete_wf.
  assert (Hom : omitted (rgb_size frame_null_rgb) (rgb_data frame_null_rgb))
    by (split; [simpl; lia | reflexivity]).
  destruct sendFrameToClient_null_plane as [Hsend Hconv].
  split; [exact Hacc |]. split; [exact Hh |]. split; [exact Hom |].
  split.
  - destruct (Hsend BigEndian fresh_socket frame_null_rgb Hacc Hh)
      as (sk' & msg & Hs & Hw & _ & _ & F & _ & _ & _ & _ & _ & Hlen).
    + intros buf [= <-]. simpl. lia.
    + intros buf H. discriminate H.
    + intros buf H. discriminate H.
    + right; left; exact Hom.
    + simpl in Hw. subst msg. exists sk'.
      split; [exact Hs |]. split; [exact F | exact Hlen].
  - eexists. split; [reflexivity |].
    exact (Hconv 5 [] raw_depth_ir running_server _ eq_refl).
Defined.

(* ===================================================================== *)
(** ** pushFrame: what is not ingested *)
(* ===================================================================== *)


(** A stopped server: [pushFrame] returns at once. *)
Lemma pushFrame_not_running (now : Z) (allocs : list bool)
    (p : option AS_SDK_Data_s) (s : PythonStreamServer) :
  m_running s = false -> pushFrame now allocs p s = (s, Returns tt).
Proof.
  intros H. unfold pushFrame. rewrite H. reflexivity.
Qed.

(** The first allocation failing makes [convertToStreamFrame] throw. *)
Lemma convertToStreamFrame_bad_alloc (now : Z) (rest : list bool)
    (d : AS_SDK_Data_s) (s : PythonStreamServer) :
  size (depthImg d) > 0 ->
  snd (convertToStreamFrame now (false :: rest) d s) = Throws bad_alloc.
Proof.
  intros Hpos. unfold convertToStreamFrame, copy_plane. simpl.
  destruct (Z.gtb_spec (size (depthImg d)) 0) as [_ | H]; [reflexivity | lia].
Qed.




(* ===================================================================== *)
(** ** The frame queue *)
(* ===================================================================== *)

(** The eviction loop drops just enough front elements to leave fewer
    than [MAX_QUEUE_SIZE]. *)
Lemma evict_skipn (q : list StreamFrame) :
  evict q = skipn (length q - 9) q.
Proof.
  induction q as [| a q IH]; [reflexivity |].
  cbn [evict]. unfold MAX_QUEUE_SIZE.
  destruct (Nat.leb_spec 10 (length (a :: q))) as [H | H]; simpl length in *.
  - rewrite IH. replace (S (length q) - 9)%nat with (S (length q - 9)) by lia.
    reflexivity.
  - replace (S (length q) - 9)%nat with 0%nat by lia. reflexivity.
Qed.

Lemma evict_length (q : list StreamFrame) :
  (length (evict q) < MAX_QUEUE_SIZE)%nat.
Proof.
  rewrite evict_skipn, length_skipn. unfold MAX_QUEUE_SIZE. lia.
Qed.

Lemma evict_small (q : list StreamFrame) :
  (length q < MAX_QUEUE_SIZE)%nat -> evict q = q.
Proof.
  unfold MAX_QUEUE_SIZE. intros H. rewrite evict_skipn.
  replace (length q - 9)%nat with 0%nat by lia. reflexivity.
Qed.

Lemma evict_full (q : list StreamFrame) :
  length q = MAX_QUEUE_SIZE -> evict q = tl q.
Proof.
  unfold MAX_QUEUE_SIZE. intros H. rewrite evict_skipn, H.
  destruct q; reflexivity.
Qed.

(** What a call of [pushFrame] does to the queue: nothing when no frame
    is appended, otherwise the eviction loop and the append. *)
Lemma pushFrame_queue (now : Z) (allocs : list bool)
    (p : option AS_SDK_Data_s) (s : PythonStreamServer) :
  (pushed_by now allocs p s = [] /\
   m_frame_queue (fst (pushFrame now allocs p s)) = m_frame_queue s) \/
  (exists f,
     pushed_by now allocs p s = [f] /\
     m_frame_queue (fst (pushFrame now allocs p s))
     = evict (m_frame_queue s) ++ [f]).
Proof.
  unfold pushFrame, pushed_by.
  destruct (negb (m_running s) || is_null p); [left; split; reflexivity |].
  destruct p as [d |]; [| left; split; reflexivity].
  destruct (convertToStreamFrame now allocs d s) as [s1 r] eqn:Hc.
  assert (Hq : m_frame_queue s1 = m_frame_queue s).
  { unfold convertToStreamFrame in Hc. injection Hc as <- _. reflexivity. }
  destruct r as [f | e |]; simpl.
  - right. exists f. rewrite Hq. split; reflexivity.
  - left. split; [reflexivity | exact Hq].
  - left. split; [reflexivity | exact Hq].
Qed.

Lemma tryPop_queue (s : PythonStreamServer) :
  m_frame_queue (snd (tryPop s)) = tl (m_frame_queue s).
Proof.
  unfold tryPop. destruct (m_frame_queue s) eqn:Hq; simpl; [exact Hq | reflexivity].
Qed.

Lemma skipn_skipn_app {A : Type} (j k : nat) (q x : list A) :
  (j <= length q)%nat ->
  skipn k (skipn j q ++ x) = skipn (j + k) (q ++ x).
Proof.
  intros H. rewrite Nat.add_comm, <- skipn_skipn.
  rewrite (skipn_app j q x).
  replace (j - length q)%nat with 0%nat by lia. reflexivity.
Qed.

(** The invariant of the queue: after any operations it holds at most
    [MAX_QUEUE_SIZE] frames, and they are a suffix of what it held at
    first followed by the frames appended since; when every operation is
    a push, they are the last [MAX_QUEUE_SIZE] of these. *)
Lemma run_ops_queue (ops : list queue_op) :
  forall s : PythonStreamServer,
    (length (m_frame_queue s) <= MAX_QUEUE_SIZE)%nat ->
    let all := m_frame_queue s ++ snd (run_ops ops s) in
    let q := m_frame_queue (fst (run_ops ops s)) in
    (length q <= MAX_QUEUE_SIZE)%nat /\
    (exists k, q = skipn k all) /\
    (forallb is_push ops = true -> q = skipn (length all - MAX_QUEUE_SIZE) all).
Proof.
  unfold MAX_QUEUE_SIZE.
  induction ops as [| o ops IH]; intros s Hlen; simpl.
  - rewrite app_nil_r. split; [exact Hlen |]. split.
    + exists 0%nat. reflexivity.
    + intros _. replace (length (m_frame_queue s) - 10)%nat with 0%nat by lia.
      reflexivity.
  - destruct o as [now allocs p |].
    + set (s1 := fst (pushFrame now allocs p s)).
      destruct (run_ops ops s1) as [s2 pushed] eqn:Hrun.
      assert (Hq1 : (length (m_frame_queue s1) <= 10)%nat /\
                    exists j,
                      (j <= length (m_frame_queue s))%nat /\
                      j = (length (m_frame_queue s ++ pushed_by now allocs p s) - 10)%nat /\
                      m_frame_queue s1
                      = skipn j (m_frame_queue s) ++ pushed_by now allocs p s).
      { subst s1.
        destruct (pushFrame_queue now allocs p s) as [[Hp Hq] | (f & Hp & Hq)];
          rewrite Hp, Hq.
        - split; [exact Hlen |]. exists 0%nat. rewrite app_nil_r.
          repeat split; [lia | lia | rewrite app_nil_r; reflexivity].
        - pose proof (evict_length (m_frame_queue s)) as He.
          unfold MAX_QUEUE_SIZE in He.
          split; [rewrite length_app; simpl; lia |].
          exists (length (m_frame_queue s) - 9)%nat.
          rewrite evict_skipn, length_app. simpl.
          repeat split; lia. }
      destruct Hq1 as [Hlen1 (j & Hj & Hjeq & Hq1)].
      specialize (IH s1 Hlen1). rewrite Hrun in IH. simpl in IH.
      destruct IH as (Hb & (k & Hk) & Hall).
      simpl. split; [exact Hb |].
      rewrite Hq1 in Hk, Hall.
      rewrite <- app_assoc in Hk, Hall.
      rewrite skipn_skipn_app in Hk by exact Hj.
      split; [exists (j + k)%nat; exact Hk |].
      intros Hpush. rewrite (Hall Hpush).
      rewrite skipn_skipn_app by exact Hj.
      f_equal. rewrite !length_app, length_skipn in *. lia.
    + specialize (IH (snd (tryPop s))).
      rewrite tryPop_queue in IH.
      assert (Htl : (length (tl (m_frame_queue s)) <= 10)%nat).
      { destruct (m_frame_queue s); simpl in *; lia. }
      destruct (IH Htl) as (Hb & (k & Hk) & _).
      split; [exact Hb |]. split; [| discriminate].
      destruct (m_frame_queue s) as [| a q].
      * exists k. exact Hk.
      * exists (S k). exact Hk.
Qed.

(** C2.  Bound of the queue.  After any sequence of [pushFrame] and pop
    operations on a server whose queue was empty, the queue holds at most
    10 frames, and they are the most recently appended ones in the order
    they were appended: a suffix of the appended frames, and exactly the
    last 10 of them when no pop took place. *)
Theorem queue_bounded (ops : list queue_op) (s : PythonStreamServer) :
  m_frame_queue s = [] ->
  let pushed := snd (run_ops ops s) in
  let q := m_frame_queue (fst (run_ops ops s)) in
  (length q <= 10)%nat /\
  (exists k, q = skipn k pushed) /\
  (forallb is_push ops = true -> q = skipn (length pushed - 10) pushed).
Proof.
  intros Hq.
  pose proof (run_ops_queue ops s) as H.
  rewrite Hq in H. simpl in H. apply H. unfold MAX_QUEUE_SIZE. lia.
Qed.

Lemma queue_bounded_witness :
  m_frame_queue running_server = [] /\
  (length (m_frame_queue (fst (run_ops ops_example running_server))) <= 10)%nat /\
  exists k,
    m_frame_queue (fst (run_ops ops_example running_server))
    = skipn k (snd (run_ops ops_example running_server)).
Proof.
  assert (Hq : m_frame_queue running_server = []) by reflexivity.
  split; [exact Hq |].
  destruct (queue_bounded ops_example running_server Hq) as (Hlen & Hsuf & _).
  split; [exact Hlen | exact Hsuf].
Defined.

(** ** First in, first out *)

Lemma ids_cons (first : Z) (n : nat) :
  ids first (S n) = first :: ids (first + 1) n.
Proof.
  unfold ids. simpl. rewrite Z.add_0_r. f_equal.
  rewrite <- seq_shift, map_map. apply map_ext. intros i. lia.
Qed.

Lemma ids_snoc (first : Z) (n : nat) :
  ids first (S n) = ids first n ++ [first + Z.of_nat n].
Proof.
  unfold ids. rewrite seq_S, map_app. reflexivity.
Qed.

(** A push that goes through: the server is running, the driver frame is
    copyable and the allocations succeed. *)
Lemma pushFrame_ok (now : Z) (d : AS_SDK_Data_s) (s : PythonStreamServer) :
  m_running s = true -> raw_ok d ->
  exists f,
    pushFrame now [] (Some d) s
    = (set_frame_queue (set_frame_counter s (wrap32 (m_frame_counter s + 1)))
         (evict (m_frame_queue s) ++ [f]),
       Returns tt) /\
    frame_id f = wrap32 (m_frame_counter s + 1).
Proof.
  intros Hrun Hraw.
  destruct (convertToStreamFrame_returns now [] d s Hraw (Forall_nil _))
    as (f & Hc & Hid & _).
  exists f. split; [| exact Hid].
  unfold pushFrame. rewrite Hrun, Hc. reflexivity.
Qed.

Lemma push_all_queue (ds : list (Z * AS_SDK_Data_s)) :
  forall s : PythonStreamServer,
    m_running s = true ->
    Forall raw_ok (map snd ds) ->
    0 <= m_frame_counter s ->
    m_frame_counter s + Z.of_nat (length ds) < 2 ^ 32 ->
    (length (m_frame_queue s) + length ds <= MAX_QUEUE_SIZE)%nat ->
    exists fs,
      m_frame_queue (push_all ds s) = m_frame_queue s ++ fs /\
      map frame_id fs = ids (m_frame_counter s + 1) (length ds) /\
      m_running (push_all ds s) = true /\
      m_frame_counter (push_all ds s) = m_frame_counter s + Z.of_nat (length ds).
Proof.
  unfold MAX_QUEUE_SIZE.
  induction ds as [| [now d] ds IH]; intros s Hrun Hraw Hc0 Hc Hlen.
  - exists []. simpl. rewrite app_nil_r, Z.add_0_r. repeat split. exact Hrun.
  - simpl in Hraw. inversion Hraw as [| ? ? Hd Hds]; subst.
    destruct (pushFrame_ok now d s Hrun Hd) as (f & Hp & Hid).
    simpl length in *.
    rewrite evict_small in Hp by (unfold MAX_QUEUE_SIZE; lia).
    rewrite wrap32_small in Hp, Hid by (unfold is_u32; lia).
    cbn [push_all]. rewrite Hp. cbn [fst].
    set (s1 := set_frame_queue _ _).
    destruct (IH s1) as (fs & Hq & Hids & Hrun' & Hcnt).
    + exact Hrun.
    + exact Hds.
    + subst s1. simpl. lia.
    + subst s1. simpl. lia.
    + subst s1. simpl. rewrite length_app. simpl. lia.
    + exists (f :: fs).
      rewrite Hq, Hcnt, ids_cons. subst s1. simpl.
      rewrite Hid, <- app_assoc. simpl.
      split; [reflexivity |]. split; [f_equal; exact Hids |].
      split; [exact Hrun' | lia].
Qed.

Lemma tryPops_all (q : list StreamFrame) :
  forall s : PythonStreamServer,
    m_frame_queue s = q ->
    fst (tryPops (S (length q)) s) = map Some q ++ [None].
Proof.
  induction q as [| a q IH]; intros s Hq.
  - simpl. unfold tryPop. rewrite Hq. reflexivity.
  - change (tryPops (S (length (a :: q))) s)
      with (let (r, s1) := tryPop s in
            let (rs, s2) := tryPops (S (length q)) s1 in (r :: rs, s2)).
    replace (tryPop s) with (Some a, set_frame_queue s q)
      by (unfold tryPop; rewrite Hq; reflexivity).
    specialize (IH (set_frame_queue s q) eq_refl).
    destruct (tryPops (S (length q)) (set_frame_queue s q)) as [rs s2].
    simpl in *. rewrite IH. reflexivity.
Qed.

(** C3.  First in, first out, dropping the oldest.  On a running server
    with an empty queue and a counter at 0, pushing N <= 10 frames gives
    them the ids 1..N, and N + 1 successive [tryPop] return the frames
    with ids 1, 2, ..., N and then nothing.  Pushing a frame into a
    queue that holds the ids 1..10 (the counter being at 10) leaves it
    holding the ids 2..11. *)
Theorem queue_fifo :
  (forall (ds : list (Z * AS_SDK_Data_s)) (s : PythonStreamServer),
     m_running s = true ->
     m_frame_queue s = [] ->
     m_frame_counter s = 0 ->
     Forall raw_ok (map snd ds) ->
     (length ds <= 10)%nat ->
     map (option_map frame_id) (fst (tryPops (S (length ds)) (push_all ds s)))
     = map Some (ids 1 (length ds)) ++ [None]) /\
  (forall (now : Z) (d : AS_SDK_Data_s) (s : PythonStreamServer),
     m_running s = true ->
     raw_ok d ->
     map frame_id (m_frame_queue s) = ids 1 10 ->
     m_frame_counter s = 10 ->
     map frame_id (m_frame_queue (fst (pushFrame now [] (Some d) s))) = ids 2 10).
Proof.
  split.
  - intros ds s Hrun Hq Hc Hraw Hlen.
    destruct (push_all_queue ds s Hrun Hraw) as (fs & Hfs & Hids & _ & _).
    + lia.
    + rewrite Hc. lia.
    + rewrite Hq. unfold MAX_QUEUE_SIZE. simpl. lia.
    + rewrite Hq in Hfs. simpl in Hfs. rewrite Hc in Hids. simpl in Hids.
      assert (Hn : length ds = length fs).
      { rewrite <- (length_map frame_id fs), Hids. unfold ids.
        rewrite length_map, length_seq. reflexivity. }
      rewrite Hn, (tryPops_all fs _ Hfs).
      rewrite map_app, map_map. simpl.
      rewrite <- Hn, <- Hids, map_map. reflexivity.
  - intros now d s Hrun Hraw Hids Hc.
    destruct (pushFrame_ok now d s Hrun Hraw) as (f & Hp & Hid).
    rewrite Hp. simpl.
    assert (Hlen : length (m_frame_queue s) = MAX_QUEUE_SIZE).
    { rewrite <- (length_map frame_id), Hids. reflexivity. }
    rewrite (evict_full _ Hlen), map_app. cbn [map]. rewrite Hid, Hc.
    destruct (m_frame_queue s) as [| a q]; [discriminate Hlen |].
    cbn [tl map] in *. rewrite ids_cons in Hids.
    injection Hids as _ Hids. rewrite Hids.
    change (wrap32 (10 + 1)) with (1 + 1 + Z.of_nat 9).
    rewrite <- ids_snoc. reflexivity.
Qed.

Lemma queue_fifo_witness :
  (m_running running_server = true /\
   m_frame_queue running_server = [] /\
   m_frame_counter running_server = 0 /\
   Forall raw_ok (map snd three_frames) /\
   (length three_frames <= 10)%nat) /\
  map (option_map frame_id) (fst (tryPops 4 (push_all three_frames running_server)))
  = [Some 1; Some 2; Some 3; None] /\
  (m_running server_ten = true /\ raw_ok raw_depth_ir /\
   map frame_id (m_frame_queue server_ten) = ids 1 10 /\
   m_frame_counter server_ten = 10) /\
  map frame_id (m_frame_queue (fst (pushFrame 5 [] (Some raw_depth_ir) server_ten)))
  = [2; 3; 4; 5; 6; 7; 8; 9; 10; 11].
Proof.
  assert (Hraw : raw_ok raw_depth_ir) by concrete_raw.
  assert (Hds : Forall raw_ok (map snd three_frames))
    by (simpl; repeat (apply Forall_cons; [exact Hraw |]); apply Forall_nil).
  assert (Hlen : (length three_frames <= 10)%nat) by (simpl; lia).
  destruct queue_fifo as [Hfifo Hevict].
  split.
  { split; [reflexivity |]. split; [reflexivity |]. split; [reflexivity |].
    split; [exact Hds | exact Hlen]. }
  split; [exact (Hfifo three_frames running_server eq_refl eq_refl eq_refl Hds Hlen) |].
  split.
  { split; [reflexivity |]. split; [exact Hraw |]. split; reflexivity. }
  exact (Hevict 5 raw_depth_ir server_ten eq_refl Hraw eq_refl eq_refl).
Defined.

(* ===================================================================== *)
(** ** Frame identifiers *)
(* ===================================================================== *)

(** The counter after a call of [pushFrame], and the id of the frame it
    appended. *)
Lemma pushFrame_counter (now : Z) (allocs : list bool)
    (p : option AS_SDK_Data_s) (s : PythonStreamServer) :
  let s1 := fst (pushFrame now allocs p s) in
  (m_frame_counter s1 = m_frame_counter s \/
   m_frame_counter s1 = wrap32 (m_frame_counter s + 1)) /\
  (forall f, In f (pushed_by now allocs p s) ->
     frame_id f = wrap32 (m_frame_counter s + 1) /\
     m_frame_counter s1 = wrap32 (m_frame_counter s + 1)).
Proof.
  unfold pushFrame, pushed_by.
  destruct (negb (m_running s) || is_null p).
  { simpl. split; [left; reflexivity | intros f []]. }
  destruct p as [d |].
  2:{ simpl. split; [left; reflexivity | intros f []]. }
  destruct (convertToStreamFrame now allocs d s) as [s1 r] eqn:Hc.
  assert (Hs1 : s1 = set_frame_counter s (wrap32 (m_frame_counter s + 1))).
  { unfold convertToStreamFrame in Hc. injection Hc as <- _. reflexivity. }
  pose proof (convertToStreamFrame_planes now allocs d s) as Hpl.
  rewrite Hc in Hpl. simpl in Hpl.
  destruct r as [f | e |]; subst s1; simpl.
  - split; [right; reflexivity |].
    intros f' [<- | []].
    destruct (Hpl f eq_refl) as (_ & _ & _ & _ & _ & _ & _ & Hid).
    split; [exact Hid | reflexivity].
  - split; [right; reflexivity | intros f []].
  - split; [right; reflexivity | intros f []].
Qed.

Lemma tryPop_counter (s : PythonStreamServer) :
  m_frame_counter (snd (tryPop s)) = m_frame_counter s.
Proof.
  unfold tryPop. destruct (m_frame_queue s); reflexivity.
Qed.

(** While the counter stays below 2^32 - 1, the ids handed out are above
    the counter's first value and strictly increasing. *)
Lemma run_ops_ids (ops : list queue_op) :
  forall s : PythonStreamServer,
    0 <= m_frame_counter s ->
    m_frame_counter s + Z.of_nat (pushes ops) < 2 ^ 32 ->
    let r := run_ops ops s in
    m_frame_counter s <= m_frame_counter (fst r)
      <= m_frame_counter s + Z.of_nat (pushes ops) /\
    Forall (fun i => m_frame_counter s < i) (map frame_id (snd r)) /\
    StronglySorted Z.lt (map frame_id (snd r)).
Proof.
  induction ops as [| o ops IH]; intros s H0 Hb.
  - simpl. split; [unfold pushes; simpl; lia |].
    split; constructor.
  - destruct o as [now allocs p |].
    + unfold pushes in *. cbn [filter is_push length] in Hb |- *.
      cbn [run_ops].
      destruct (pushFrame_counter now allocs p s) as [Hcnt Hid].
      set (s1 := fst (pushFrame now allocs p s)) in *.
      assert (Hw : wrap32 (m_frame_counter s + 1) = m_frame_counter s + 1).
      { apply wrap32_small. unfold is_u32. lia. }
      rewrite Hw in *.
      assert (H1 : m_frame_counter s <= m_frame_counter s1 <= m_frame_counter s + 1)
        by (destruct Hcnt; lia).
      specialize (IH s1 ltac:(lia) ltac:(lia)).
      destruct (run_ops ops s1) as [s2 hist] eqn:Hrun.
      cbn [fst snd] in *.
      destruct IH as (Hc2 & Hall & Hsort).
      split; [lia |].
      destruct (pushed_by now allocs p s) as [| f l] eqn:Hp.
      * simpl. split; [| exact Hsort].
        eapply Forall_impl; [| exact Hall]. simpl. intros; lia.
      * assert (Hl : l = []).
        { unfold pushed_by in Hp.
          destruct (negb (m_running s) || is_null p); [discriminate |].
          destruct p; [| discriminate].
          destruct (snd (convertToStreamFrame now allocs a s)); try discriminate.
          injection Hp as _ <-. reflexivity. }
        subst l.
        destruct (Hid f (or_introl eq_refl)) as [Hf Hs1].
        simpl. split.
        -- constructor; [lia |].
           eapply Forall_impl; [| exact Hall]. simpl. intros; lia.
        -- constructor; [exact Hsort |].
           eapply Forall_impl; [| exact Hall]. simpl. intros; lia.
    + unfold pushes in *. cbn [filter is_push length] in Hb |- *.
      cbn [run_ops].
      specialize (IH (snd (tryPop s))).
      rewrite tryPop_counter in IH.
      exact (IH H0 Hb).
Qed.

Lemma StronglySorted_lt_NoDup (l : list Z) :
  StronglySorted Z.lt l -> NoDup l.
Proof.
  induction 1 as [| a l Hs IH Hall]; constructor; [| exact IH].
  intros Hin. rewrite Forall_forall in Hall. specialize (Hall a Hin). lia.
Qed.

(** C7, as the code has it.  [frame_id] is the pre-increment of the
    32-bit counter of the server: the frame gets the counter's value plus
    one, modulo 2^32, and the counter keeps that value.  As long as the
    counter does not pass 2^32 - 1 during the operations, the frames
    appended by successive [pushFrame] calls have strictly increasing,
    pairwise different ids. *)
Theorem frame_id_increasing :
  (forall (now : Z) (allocs : list bool) (d : AS_SDK_Data_s)
          (s : PythonStreamServer) (f : StreamFrame),
     snd (convertToStreamFrame now allocs d s) = Returns f ->
     frame_id f = wrap32 (m_frame_counter s + 1) /\
     m_frame_counter (fst (convertToStreamFrame now allocs d s)) = frame_id f) /\
  (forall (ops : list queue_op) (s : PythonStreamServer),
     0 <= m_frame_counter s ->
     m_frame_counter s + Z.of_nat (pushes ops) < 2 ^ 32 ->
     StronglySorted Z.lt (map frame_id (snd (run_ops ops s))) /\
     NoDup (map frame_id (snd (run_ops ops s)))).
Proof.
  split.
  - intros now allocs d s f Hc.
    destruct (convertToStreamFrame_planes _ _ _ _ _ Hc)
      as (_ & _ & _ & _ & _ & _ & _ & Hid).
    split; [exact Hid |]. rewrite Hid. reflexivity.
  - intros ops s H0 Hb.
    destruct (run_ops_ids ops s H0 Hb) as (_ & _ & Hsort).
    split; [exact Hsort | apply StronglySorted_lt_NoDup; exact Hsort].
Qed.

Lemma frame_id_increasing_witness :
  (exists f,
     snd (convertToStreamFrame 5 [] raw_depth_ir running_server) = Returns f /\
     frame_id f = 1 /\
     m_frame_counter (fst (convertToStreamFrame 5 [] raw_depth_ir running_server)) = 1) /\
  0 <= m_frame_counter running_server /\
  m_frame_counter running_server + Z.of_nat (pushes ops_example) < 2 ^ 32 /\
  StronglySorted Z.lt (map frame_id (snd (run_ops ops_example running_server))) /\
  NoDup (map frame_id (snd (run_ops ops_example running_server))).
Proof.
  assert (H0 : 0 <= m_frame_counter running_server) by (simpl; lia).
  assert (Hb : m_frame_counter running_server + Z.of_nat (pushes ops_example) < 2 ^ 32)
    by (simpl; lia).
  destruct frame_id_increasing as [Hpre Hinc].
  split.
  { eexists. split; [reflexivity |].
    destruct (Hpre 5 [] raw_depth_ir running_server _ eq_refl) as [Hid Hcnt].
    split; [exact Hid | rewrite Hcnt; exact Hid]. }
  split; [exact H0 |]. split; [exact Hb |].
  exact (Hinc ops_example running_server H0 Hb).
Defined.

(** The counter after [n] pushes that go through. *)
Lemma push_all_counter (now : Z) (d : AS_SDK_Data_s) (n : nat) :
  raw_ok d ->
  forall s : PythonStreamServer,
    m_running s = true ->
    is_u32 (m_frame_counter s) ->
    m_running (push_all (repeat (now, d) n) s) = true /\
    m_frame_counter (push_all (repeat (now, d) n) s)
    = wrap32 (m_frame_counter s + Z.of_nat n).
Proof.
  intros Hraw. induction n as [| n IH]; intros s Hrun Hc.
  - cbn [repeat push_all]. rewrite Z.add_0_r, wrap32_small by exact Hc.
    split; [exact Hrun | reflexivity].
  - cbn [repeat push_all].
    destruct (pushFrame_ok now d s Hrun Hraw) as (f & Hp & _).
    rewrite Hp. cbn [fst].
    set (s1 := set_frame_queue _ _).
    destruct (IH s1 Hrun (wrap32_is_u32 _)) as [Hr1 Hc1].
    split; [exact Hr1 |].
    rewrite Hc1. subst s1. cbn [m_frame_counter set_frame_queue set_frame_counter].
    unfold wrap32. rewrite Zplus_mod_idemp_l. f_equal. lia.
Qed.

(** The ids around the wrap of the counter, on the server reached from a
    fresh start by [n] pushes. *)
Lemma frame_id_after (n : nat) :
  Z.of_nat n = 4294967294 ->
  let s := push_all (repeat (5, raw_depth_ir) n) running_server in
  exists f0 f1 f2 f3,
    pushed_by 5 [] (Some raw_depth_ir) running_server = [f0] /\
    pushed_by 5 [] (Some raw_depth_ir) s = [f1] /\
    pushed_by 5 [] (Some raw_depth_ir) (fst (pushFrame 5 [] (Some raw_depth_ir) s))
    = [f2] /\
    pushed_by 5 [] (Some raw_depth_ir)
      (fst (pushFrame 5 [] (Some raw_depth_ir)
              (fst (pushFrame 5 [] (Some raw_depth_ir) s))))
    = [f3] /\
    frame_id f1 = 4294967295 /\ frame_id f2 = 0 /\
    ~ frame_id f1 < frame_id f2 /\
    frame_id f3 = frame_id f0.
Proof.
  intros Hn s.
  assert (Hraw : raw_ok raw_depth_ir) by concrete_raw.
  assert (Hstep : forall t c,
             m_running t = true -> m_frame_counter t = c ->
             exists f,
               pushed_by 5 [] (Some raw_depth_ir) t = [f] /\
               frame_id f = wrap32 (c + 1) /\
               m_running (fst (pushFrame 5 [] (Some raw_depth_ir) t)) = true /\
               m_frame_counter (fst (pushFrame 5 [] (Some raw_depth_ir) t))
               = wrap32 (c + 1)).
  { intros t c Hrun Hc.
    destruct (convertToStreamFrame_returns 5 [] raw_depth_ir t Hraw (Forall_nil _))
      as (f & Hconv & Hid & _).
    exists f. unfold pushed_by, pushFrame. rewrite Hrun, Hconv, <- Hc.
    split; [reflexivity |]. split; [exact Hid |]. split; [exact Hrun | reflexivity]. }
  assert (Hrun0 : m_running running_server = true) by reflexivity.
  assert (Hc0 : m_frame_counter running_server = 0) by reflexivity.
  assert (Hu0 : is_u32 (m_frame_counter running_server))
    by (rewrite Hc0; unfold is_u32; lia).
  destruct (push_all_counter 5 raw_depth_ir n Hraw running_server Hrun0 Hu0)
    as [HrunB HcB].
  fold s in HrunB, HcB. clearbody s.
  rewrite Hc0, Hn in HcB.
  change (wrap32 (0 + 4294967294)) with 4294967294 in HcB.
  destruct (Hstep _ _ Hrun0 Hc0) as (f0 & Hp0 & Hid0 & _).
  destruct (Hstep _ _ HrunB HcB) as (f1 & Hp1 & Hid1 & Hrun1 & Hc1).
  destruct (Hstep _ _ Hrun1 Hc1) as (f2 & Hp2 & Hid2 & Hrun2 & Hc2).
  destruct (Hstep _ _ Hrun2 Hc2) as (f3 & Hp3 & Hid3 & _).
  change (wrap32 (0 + 1)) with 1 in Hid0.
  change (wrap32 (4294967294 + 1)) with 4294967295 in Hid1, Hid2, Hid3.
  change (wrap32 (4294967295 + 1)) with 0 in Hid2, Hid3.
  change (wrap32 (0 + 1)) with 1 in Hid3.
  exists f0, f1, f2, f3.
  split; [exact Hp0 |]. split; [exact Hp1 |]. split; [exact Hp2 |].
  split; [exact Hp3 |]. split; [exact Hid1 |]. split; [exact Hid2 |].
  split; [lia | congruence].
Qed.

(** C7 as stated fails once the 32-bit counter wraps: on the server
    reached from a fresh start by 4294967294 pushes, the next two pushes
    append frames with the ids 4294967295 and 0, and the push after them
    appends a frame with the id 1, the id the very first frame had. *)
Lemma frame_id_wraps_counterexample :
  exists n : nat,
    Z.of_nat n = 4294967294 /\
    let s := push_all (repeat (5, raw_depth_ir) n) running_server in
    exists f0 f1 f2 f3,
      pushed_by 5 [] (Some raw_depth_ir) running_server = [f0] /\
      pushed_by 5 [] (Some raw_depth_ir) s = [f1] /\
      pushed_by 5 [] (Some raw_depth_ir) (fst (pushFrame 5 [] (Some raw_depth_ir) s))
      = [f2] /\
      pushed_by 5 [] (Some raw_depth_ir)
        (fst (pushFrame 5 [] (Some raw_depth_ir)
                (fst (pushFrame 5 [] (Some raw_depth_ir) s))))
      = [f3] /\
      frame_id f1 = 4294967295 /\ frame_id f2 = 0 /\
      ~ frame_id f1 < frame_id f2 /\
      frame_id f3 = frame_id f0.
Proof.
  assert (Hn : Z.of_nat (Z.to_nat 4294967294) = 4294967294)
    by (apply Z2Nat.id; lia).
  exact (ex_intro _ (Z.to_nat 4294967294)
           (conj Hn (frame_id_after (Z.to_nat 4294967294) Hn))).
Qed.

(* ===================================================================== *)
(** ** Short writes *)
(* ===================================================================== *)

Lemma send_plane_short (sk sk' : Socket) (sz sent : Z) (buf : list byte) :
  sz > 0 ->
  send sk (Some buf) sz = Returns (sent, sk') ->
  sent < sz ->
  send_plane sk sz (Some buf) = Returns (false, sk').
Proof.
  intros Hpos Hs Hlt. unfold send_plane.
  destruct (Z.gtb_spec sz 0) as [_ | H]; [| lia].
  simpl. rewrite Hs. simpl.
  destruct (Z.eqb_spec sent sz) as [H | _]; [lia | reflexivity].
Qed.

(** A short write makes [sendFrameToClient] return [false], with the
    socket as the short [send] left it. *)
Lemma sendFrameToClient_short (native : byte_order) (sk sk' : Socket) (f : StreamFrame) :
  short_write native sk f sk' ->
  sendFrameToClient native sk f = Returns (false, sk').
Proof.
  intros Hshort. unfold sendFrameToClient. fold (header_of f).
  destruct Hshort as [sent sk1 Hh Hlt
                     | sk1 sk2 buf sent Hh Hpos Hdat Hs Hlt
                     | sk1 sk2 sk3 buf sent Hh Hd Hpos Hdat Hs Hlt
                     | sk1 sk2 sk3 sk4 buf sent Hh Hd Hr Hpos Hdat Hs Hlt];
    rewrite Hh; simpl.
  - destruct (send_result_range _ _ _ _ _ Hh) as [Hlo _].
    unfold sizeof_header in *.
    destruct (Z.eqb_spec (wrap64 sent) 48) as [Heq | _]; [| reflexivity].
    unfold wrap64 in Heq.
    destruct (Z.eq_dec sent (-1)) as [-> | Hn]; [discriminate Heq |].
    rewrite Z.mod_small in Heq by lia. lia.
  - rewrite Hdat, (send_plane_short _ _ _ _ _ Hpos Hs Hlt). reflexivity.
  - rewrite Hd. simpl.
    rewrite Hdat, (send_plane_short _ _ _ _ _ Hpos Hs Hlt). reflexivity.
  - rewrite Hd. simpl. rewrite Hr. simpl.
    rewrite Hdat, (send_plane_short _ _ _ _ _ Hpos Hs Hlt). reflexivity.
Qed.

Lemma os_set_same (o : OS) (fd : Z) (sk : Socket) : os_set o fd sk fd = sk.
Proof. unfold os_set. rewrite Z.eqb_refl. reflexivity. Qed.

Lemma os_set_other (o : OS) (fd fd' : Z) (sk : Socket) :
  fd' <> fd -> os_set o fd sk fd' = o fd'.
Proof.
  intros H. unfold os_set.
  destruct (Z.eqb_spec fd' fd) as [Heq | _]; [contradiction | reflexivity].
Qed.

(** C6.  A short write is fatal to its connection only.  When the
    server is running, a frame is at the front of the queue and sending
    it on the handler's socket meets a short write, then
    [sendFrameToClient] returns [false] and [clientHandler] returns after
    that turn of its loop: its socket is the one the short [send] left,
    shut down and closed (nothing was sent again), the frame is gone from
    the queue, every other socket is as it was, and the client count is
    back to its value. *)
Theorem short_write_closes (native : byte_order) (fuel : nat) (client_socket : Z)
    (w : World) (frame : StreamFrame) (rest : list StreamFrame) (sk' : Socket) :
  m_running (srv w) = true ->
  m_frame_queue (srv w) = frame :: rest ->
  short_write native (os w client_socket) frame sk' ->
  sendFrameToClient native (os w client_socket) frame = Returns (false, sk') /\
  exists w',
    clientHandler native (S fuel) client_socket w = Returns (Some w') /\
    os w' client_socket = close_socket (shutdown_socket sk') /\
    sk_open (os w' client_socket) = false /\
    sk_shut (os w' client_socket) = true /\
    sk_wire (os w' client_socket) = sk_wire sk' /\
    (forall fd, fd <> client_socket -> os w' fd = os w fd) /\
    m_frame_queue (srv w') = rest /\
    m_running (srv w') = true /\
    m_connected_clients (srv w')
    = wrap_int (wrap_int (m_connected_clients (srv w) + 1) - 1).
Proof.
  intros Hrun Hq Hshort.
  pose proof (sendFrameToClient_short _ _ _ _ Hshort) as Hsend.
  split; [exact Hsend |].
  unfold clientHandler. cbn [handler_loop srv os].
  cbn [m_running set_connected_clients]. rewrite Hrun.
  unfold handler_turn. cbn [srv os]. unfold tryPop.
  cbn [m_frame_queue set_connected_clients]. rewrite Hq, Hsend.
  cbn [bind negb].
  eexists. split; [reflexivity |].
  cbn [srv os].
  rewrite !os_set_same.
  split; [reflexivity |]. split; [reflexivity |]. split; [reflexivity |].
  split; [reflexivity |].
  split.
  { intros fd Hfd. rewrite !os_set_other by exact Hfd. reflexivity. }
  split; [reflexivity |]. split; [exact Hrun | reflexivity].
Qed.

Lemma short_write_closes_witness :
  m_running (srv world_short) = true /\
  m_frame_queue (srv world_short) = [frame_depth_ir; frame_scenario_A] /\
  exists sk',
    short_write LittleEndian (os world_short 7) frame_depth_ir sk' /\
    sendFrameToClient LittleEndian (os world_short 7) frame_depth_ir
    = Returns (false, sk') /\
    exists w',
      clientHandler LittleEndian 1 7 world_short = Returns (Some w') /\
      sk_open (os w' 7) = false /\
      sk_shut (os w' 7) = true /\
      length (sk_wire (os w' 7)) = 50%nat /\
      os w' 8 = fresh_socket /\
      m_frame_queue (srv w') = [frame_scenario_A].
Proof.
  assert (Hrun : m_running (srv world_short) = true) by reflexivity.
  assert (Hq : m_frame_queue (srv world_short) = [frame_depth_ir; frame_scenario_A])
    by reflexivity.
  assert (Hshort :
            short_write LittleEndian (os world_short 7) frame_depth_ir
              (mkSocket true false false
                 (header_bytes LittleEndian (header_of frame_depth_ir) ++
                  [Byte.x01; Byte.x02]) [])).
  { eapply short_depth with (sent := 2).
    - reflexivity.
    - simpl. lia.
    - reflexivity.
    - reflexivity.
    - simpl. lia. }
  split; [exact Hrun |]. split; [exact Hq |].
  eexists. split; [exact Hshort |].
  destruct (short_write_closes LittleEndian 0 7 world_short _ _ _ Hrun Hq Hshort)
    as (Hsend & w' & Hh & _ & Hopen & Hshut & Hwire & Hother & Hrest & _).
  split; [exact Hsend |].
  exists w'. split; [exact Hh |]. split; [exact Hopen |]. split; [exact Hshut |].
  split; [rewrite Hwire; reflexivity |].
  split; [rewrite Hother by lia; reflexivity | exact Hrest].
Defined.

(* ===================================================================== *)
(** ** start and stop *)
(* ===================================================================== *)

Lemma start_running (env : socket_calls) (w : World) :
  fst (start env w) = true -> m_running (srv (snd (start env w))) = true.
Proof.
  unfold start.
  destruct (m_running (srv w)) eqn:Hrun; [intros _; exact Hrun |].
  destruct (socket_ret env <? 0); [discriminate |].
  destruct (setsockopt_ret env <? 0); [discriminate |].
  destruct (bind_ret env <? 0); [discriminate |].
  destruct (listen_ret env <? 0); [discriminate |].
  intros _. reflexivity.
Qed.

(** C9.  Idempotent lifecycle.  [start] on a running server returns
    [true] and changes nothing: not the server, no socket, no second
    listener; so a second [start] after a successful one leaves the
    world as the first left it.  [stop] on a server that is not running
    returns at once and changes nothing, wherever the accept thread of an
    earlier run may be. *)
Theorem lifecycle_idempotent :
  (forall (env : socket_calls) (w : World),
     m_running (srv w) = true -> start env w = (true, w)) /\
  (forall (env env' : socket_calls) (w : World),
     fst (start env w) = true ->
     start env' (snd (start env w)) = (true, snd (start env w))) /\
  (forall (t : accept_thread) (w : World),
     m_running (srv w) = false -> stop t w = Some (w, None)).
Proof.
  split; [| split].
  - intros env w Hrun. unfold start. rewrite Hrun. reflexivity.
  - intros env env' w Hok.
    pose proof (start_running env w Hok) as Hrun.
    unfold start at 1. rewrite Hrun. reflexivity.
  - intros t w Hrun. unfold stop. rewrite Hrun. reflexivity.
Qed.

Lemma lifecycle_idempotent_witness :
  m_running (srv boot) = true /\
  start (mkCalls 4 0 0 0) boot = (true, boot) /\
  fst (start (mkCalls 3 0 0 0) world_stopped) = true /\
  start (mkCalls 4 0 0 0) (snd (start (mkCalls 3 0 0 0) world_stopped))
  = (true, snd (start (mkCalls 3 0 0 0) world_stopped)) /\
  m_running (srv world_stopped) = false /\
  stop (in_accept None) world_stopped = Some (world_stopped, None).
Proof.
  destruct lifecycle_idempotent as (Hstart & Htwice & Hstop).
  assert (Hrun : m_running (srv boot) = true) by reflexivity.
  assert (Hok : fst (start (mkCalls 3 0 0 0) world_stopped) = true) by reflexivity.
  assert (Hstopped : m_running (srv world_stopped) = false) by reflexivity.
  split; [exact Hrun |].
  split; [exact (Hstart (mkCalls 4 0 0 0) boot Hrun) |].
  split; [exact Hok |].
  split; [exact (Htwice (mkCalls 3 0 0 0) (mkCalls 4 0 0 0) world_stopped Hok) |].
  split; [exact Hstopped | exact (Hstop (in_accept None) world_stopped Hstopped)].
Defined.

(* ===================================================================== *)
(** * Further properties of the server *)
(* ===================================================================== *)

(** ** start *)

(** A [start] that succeeds saw its four socket calls succeed. *)
Lemma start_success_calls (env : socket_calls) (w : World) :
  m_running (srv w) = false ->
  fst (start env w) = true ->
  0 <= socket_ret env /\ 0 <= setsockopt_ret env /\
  0 <= bind_ret env /\ 0 <= listen_ret env.
Proof.
  intros Hrun. unfold start. rewrite Hrun.
  destruct (Z.ltb_spec (socket_ret env) 0); [discriminate |].
  destruct (Z.ltb_spec (setsockopt_ret env) 0); [discriminate |].
  destruct (Z.ltb_spec (bind_ret env) 0); [discriminate |].
  destruct (Z.ltb_spec (listen_ret env) 0); [discriminate |].
  intros _. lia.
Qed.

(** X1.  [start] on a server that is not running succeeds exactly when
    the four socket calls succeed, and the running flag afterwards is its
    result.  On success the descriptor [socket] returned is stored, it is
    an open listening socket, the accept thread is started, and no other
    descriptor is touched. *)
Theorem start_outcome (env : socket_calls) (w : World) :
  m_running (srv w) = false ->
  (fst (start env w) = true <->
   0 <= socket_ret env /\ 0 <= setsockopt_ret env /\
   0 <= bind_ret env /\ 0 <= listen_ret env) /\
  m_running (srv (snd (start env w))) = fst (start env w) /\
  (fst (start env w) = true ->
   m_server_socket (srv (snd (start env w))) = socket_ret env /\
   m_server_thread (srv (snd (start env w))) = true /\
   os (snd (start env w)) (socket_ret env) = listen_socket fresh_socket /\
   forall fd, fd <> socket_ret env -> os (snd (start env w)) fd = os w fd).
Proof.
  intros Hrun. unfold start. rewrite Hrun.
  destruct (Z.ltb_spec (socket_ret env) 0) as [H1 | H1]; cbn [fst snd srv os].
  { split; [split; [discriminate | lia] |].
    split; [exact Hrun | discriminate]. }
  destruct (Z.ltb_spec (setsockopt_ret env) 0) as [H2 | H2]; cbn [fst snd srv os].
  { split; [split; [discriminate | lia] |].
    split; [exact Hrun | discriminate]. }
  destruct (Z.ltb_spec (bind_ret env) 0) as [H3 | H3]; cbn [fst snd srv os].
  { split; [split; [discriminate | lia] |].
    split; [exact Hrun | discriminate]. }
  destruct (Z.ltb_spec (listen_ret env) 0) as [H4 | H4]; cbn [fst snd srv os].
  { split; [split; [discriminate | lia] |].
    split; [exact Hrun | discriminate]. }
  split; [split; [intros _; lia | reflexivity] |].
  split; [reflexivity |]. intros _.
  split; [reflexivity |]. split; [reflexivity |].
  rewrite !os_set_same. split; [reflexivity |].
  intros fd Hfd. rewrite !os_set_other by exact Hfd. reflexivity.
Qed.

Lemma start_outcome_witness :
  m_running (srv world_new) = false /\
  fst (start (mkCalls 3 0 0 0) world_new) = true /\
  fst (start (mkCalls 3 0 (-1) 0) world_new) = false /\
  sk_listening (os (snd (start (mkCalls 3 0 0 0) world_new)) 3) = true.
Proof.
  assert (Hrun : m_running (srv world_new) = false) by reflexivity.
  destruct (start_outcome (mkCalls 3 0 0 0) world_new Hrun) as (Hiff & _ & Hok).
  destruct (start_outcome (mkCalls 3 0 (-1) 0) world_new Hrun) as (Hiff' & _ & _).
  assert (Hs : fst (start (mkCalls 3 0 0 0) world_new) = true)
    by (apply Hiff; simpl; lia).
  split; [exact Hrun |]. split; [exact Hs |].
  split.
  - destruct (fst (start (mkCalls 3 0 (-1) 0) world_new)); [| reflexivity].
    destruct (proj1 Hiff' eq_refl) as (_ & _ & Hb & _). simpl in Hb. lia.
  - destruct (Hok Hs) as (_ & _ & Hl & _).
    change (socket_ret (mkCalls 3 0 0 0)) with 3 in Hl.
    rewrite Hl. reflexivity.
Defined.

(** X2.  A failed [start] leaks nothing: the server is still not
    running, its queue, counter, client count and thread are as before,
    the descriptor it may have created is closed again, and no other
    descriptor is touched.  The number of the closed descriptor stays in
    [m_server_socket]. *)
Theorem start_failure_closes (env : socket_calls) (w : World) :
  m_running (srv w) = false ->
  fst (start env w) = false ->
  m_running (srv (snd (start env w))) = false /\
  m_server_socket (srv (snd (start env w))) = socket_ret env /\
  m_server_thread (srv (snd (start env w))) = m_server_thread (srv w) /\
  m_frame_queue (srv (snd (start env w))) = m_frame_queue (srv w) /\
  m_frame_counter (srv (snd (start env w))) = m_frame_counter (srv w) /\
  m_connected_clients (srv (snd (start env w))) = m_connected_clients (srv w) /\
  (socket_ret env < 0 -> os (snd (start env w)) = os w) /\
  (0 <= socket_ret env ->
   sk_open (os (snd (start env w)) (socket_ret env)) = false) /\
  (forall fd, fd <> socket_ret env -> os (snd (start env w)) fd = os w fd).
Proof.
  intros Hrun. unfold start. rewrite Hrun.
  destruct (Z.ltb_spec (socket_ret env) 0) as [H1 | H1]; cbn [fst snd srv os].
  { intros _. split; [exact Hrun |].
    repeat split; intros; try reflexivity; lia. }
  assert (Hdone :
            forall b : bool,
              b = false ->
              let w' :=
                mkWorld (set_server_socket (srv w) (socket_ret env))
                  (os_set (os_set (os w) (socket_ret env) fresh_socket)
                     (socket_ret env)
                     (close_socket
                        (os_set (os w) (socket_ret env) fresh_socket
                           (socket_ret env)))) in
              m_running (srv w') = false /\
              m_server_socket (srv w') = socket_ret env /\
              m_server_thread (srv w') = m_server_thread (srv w) /\
              m_frame_queue (srv w') = m_frame_queue (srv w) /\
              m_frame_counter (srv w') = m_frame_counter (srv w) /\
              m_connected_clients (srv w') = m_connected_clients (srv w) /\
              (socket_ret env < 0 -> os w' = os w) /\
              (0 <= socket_ret env -> sk_open (os w' (socket_ret env)) = false) /\
              (forall fd, fd <> socket_ret env -> os w' fd = os w fd)).
  { intros b _ w'. subst w'. cbn [srv os].
    split; [exact Hrun |].
    do 5 (split; [reflexivity |]).
    split; [intros; lia |].
    split; [intros _; rewrite !os_set_same; reflexivity |].
    intros fd Hfd. rewrite !os_set_other by exact Hfd. reflexivity. }
  destruct (Z.ltb_spec (setsockopt_ret env) 0) as [H2 | H2]; cbn [fst snd].
  { intros Hf. exact (Hdone false Hf). }
  destruct (Z.ltb_spec (bind_ret env) 0) as [H3 | H3]; cbn [fst snd].
  { intros Hf. exact (Hdone false Hf). }
  destruct (Z.ltb_spec (listen_ret env) 0) as [H4 | H4]; cbn [fst snd].
  { intros Hf. exact (Hdone false Hf). }
  discriminate.
Qed.

Lemma start_failure_closes_witness :
  m_running (srv world_new) = false /\
  fst (start (mkCalls 3 0 0 (-1)) world_new) = false /\
  sk_open (os (snd (start (mkCalls 3 0 0 (-1)) world_new)) 3) = false /\
  m_server_socket (srv (snd (start (mkCalls 3 0 0 (-1)) world_new))) = 3.
Proof.
  assert (Hrun : m_running (srv world_new) = false) by reflexivity.
  assert (Hf : fst (start (mkCalls 3 0 0 (-1)) world_new) = false) by reflexivity.
  destruct (start_failure_closes (mkCalls 3 0 0 (-1)) world_new Hrun Hf)
    as (_ & Hsock & _ & _ & _ & _ & _ & Hopen & _).
  split; [exact Hrun |]. split; [exact Hf |].
  split; [apply Hopen; simpl; lia | exact Hsock].
Defined.

(** ** stop *)

(** What a call of [stop] that returns has done. *)
Lemma stop_returned (t : accept_thread) (w w' : World) (started : option Z) :
  stop t w = Some (w', started) ->
  m_running (srv w') = false /\
  m_frame_queue (srv w') = m_frame_queue (srv w) /\
  m_frame_counter (srv w') = m_frame_counter (srv w) /\
  m_connected_clients (srv w') = m_connected_clients (srv w) /\
  m_port (srv w') = m_port (srv w) /\
  (m_running (srv w) = true -> m_server_thread (srv w') = false) /\
  (m_running (srv w) = true -> 0 <= m_server_socket (srv w) ->
   m_server_socket (srv w') = -1) /\
  (forall fd, fd <> m_server_socket (srv w) -> Some fd <> started ->
              os w' fd = os w fd) /\
  (m_running (srv w) = true -> 0 <= m_server_socket (srv w) ->
   Some (m_server_socket (srv w)) <> started ->
   sk_open (os w' (m_server_socket (srv w))) = false) /\
  (forall c, started = Some c ->
             0 <= c /\ t = in_accept (Some c) /\ os w' c = accepted (os w c)).
Proof.
  destruct w as [[port sock run clients thr q c] o]. unfold stop, stop_until_join.
  cbn [srv os m_running negb set_running m_server_socket].
  destruct run; cbn [negb].
  2: { intros [= <- <-]. cbn [srv os m_running m_frame_queue m_frame_counter
                               m_connected_clients m_port m_server_socket].
       repeat split; try discriminate; try reflexivity. }
  assert (Hclosed : sk_open (os_set o sock (close_socket (o sock)) sock) = false)
    by (unfold os_set; rewrite Z.eqb_refl; reflexivity).
  assert (Hos : forall fd, fd <> sock ->
                           os_set o sock (close_socket (o sock)) fd = o fd)
    by (intros fd Hne; apply os_set_other; exact Hne).
  destruct (Z.geb_spec sock 0) as [Hfd | Hfd];
    cbn [srv os m_server_thread set_server_socket];
    (destruct thr;
     [ unfold serverThread, accept_turn;
       destruct t as [| [cs |]]; [| destruct (Z.ltb_spec cs 0) as [Hcs | Hcs] |];
       cbn [srv os m_running set_server_socket]
     | ]);
    intros [= <- <-];
    cbn [srv os m_running m_frame_queue m_frame_counter m_connected_clients
         m_port m_server_socket m_server_thread set_server_thread];
    (do 5 (split; [reflexivity |]));
    (split; [reflexivity |]);
    (split; [intros; try reflexivity; lia |]);
    (split;
     [ intros fd Hne Hst; try (rewrite os_set_other by congruence);
       try (apply Hos; exact Hne); reflexivity |]);
    (split;
     [ intros _ H0 Hst; try lia; try exact Hclosed;
       rewrite os_set_other by congruence; exact Hclosed |]);
    intros c0 Hc0; try discriminate Hc0;
    injection Hc0 as <-;
    (split; [lia |]); (split; [reflexivity |]);
    unfold os_set at 1; rewrite Z.eqb_refl; try reflexivity;
    unfold os_set; destruct (Z.eqb_spec cs sock) as [-> | _]; reflexivity.
Qed.




(** X4.  Whenever [stop] returns, a further [stop] returns at once and
    changes nothing, wherever the accept thread may be: this is the
    [stop] the destructor makes after an explicit one.  And on a server
    that is not running, holds no descriptor ([m_server_socket] is -1)
    and has no thread to join, a successful [start] followed by a [stop]
    that returns gives back the server object that was there; the
    descriptor [start] had opened is closed again, unless a connection
    accepted while [stop] waited was given its number, and no other
    descriptor has changed but the one of such a connection. *)
Theorem stop_idempotent_start_stop :
  (forall (t t' : accept_thread) (w w' : World) (started : option Z),
     stop t w = Some (w', started) ->
     stop t' w' = Some (w', None) /\ destroy_server t' w' = Some (w', None)) /\
  (forall (env : socket_calls) (t : accept_thread) (w w' : World)
          (started : option Z),
     m_running (srv w) = false ->
     m_server_socket (srv w) = -1 ->
     m_server_thread (srv w) = false ->
     fst (start env w) = true ->
     stop t (snd (start env w)) = Some (w', started) ->
     srv w' = srv w /\
     (Some (socket_ret env) <> started ->
      sk_open (os w' (socket_ret env)) = false) /\
     forall fd, fd <> socket_ret env -> Some fd <> started -> os w' fd = os w fd).
Proof.
  split.
  { intros t t' w w' started Hs.
    destruct (stop_returned t w w' started Hs) as (Hnot & _).
    unfold destroy_server, stop. rewrite Hnot. split; reflexivity. }
  intros env t w w' started Hrun Hsock Hthr Hok Hs.
  destruct (start_success_calls env w Hrun Hok) as (H1 & H2 & H3 & H4).
  pose proof (start_running env w Hok) as Hrun1.
  destruct (stop_returned t _ w' started Hs)
    as (Hr & Hq & Hc & Hcl & Hp & Hth & Hfd & Hother & Hopen & _).
  assert (Hstart :
    snd (start env w)
    = mkWorld (set_server_thread
                 (set_running (set_server_socket (srv w) (socket_ret env)) true) true)
              (os_set (os_set (os w) (socket_ret env) fresh_socket)
                      (socket_ret env)
                      (listen_socket
                         (os_set (os w) (socket_ret env) fresh_socket (socket_ret env))))).
  { unfold start. rewrite Hrun.
    destruct (Z.ltb_spec (socket_ret env) 0) as [H | _]; [lia |].
    destruct (Z.ltb_spec (setsockopt_ret env) 0) as [H | _]; [lia |].
    destruct (Z.ltb_spec (bind_ret env) 0) as [H | _]; [lia |].
    destruct (Z.ltb_spec (listen_ret env) 0) as [H | _]; [lia |].
    reflexivity. }
  rewrite Hstart in Hq, Hc, Hcl, Hp, Hth, Hfd, Hother, Hopen.
  cbn [srv os m_running m_frame_queue m_frame_counter m_connected_clients m_port
       m_server_socket set_server_thread set_running set_server_socket]
    in Hq, Hc, Hcl, Hp, Hth, Hfd, Hother, Hopen.
  split.
  { destruct w as [[port sock run clients thr q c] o].
    destruct w' as [[port' sock' run' clients' thr' q' c'] o'].
    cbn [srv m_running m_server_socket m_server_thread m_frame_queue
         m_frame_counter m_connected_clients m_port] in *.
    rewrite Hr, Hq, Hc, Hcl, Hp, (Hth eq_refl), (Hfd eq_refl H1).
    subst run sock thr. reflexivity. }
  split.
  { intros Hne. apply (Hopen eq_refl H1 Hne). }
  intros fd Hne Hst. rewrite (Hother fd Hne Hst).
  rewrite !os_set_other by exact Hne. reflexivity.
Qed.

Lemma stop_idempotent_start_stop_witness :
  fst (start (mkCalls 3 0 0 0) world_new) = true /\
  exists w',
    stop (in_accept (Some (-1))) (snd (start (mkCalls 3 0 0 0) world_new))
    = Some (w', None) /\
    srv w' = srv world_new /\
    sk_open (os w' 3) = false /\
    stop (in_accept None) w' = Some (w', None).
Proof.
  destruct stop_idempotent_start_stop as (Hidem & Hround).
  assert (Hok : fst (start (mkCalls 3 0 0 0) world_new) = true) by reflexivity.
  split; [exact Hok |].
  eexists. split; [reflexivity |].
  destruct (Hround (mkCalls 3 0 0 0) (in_accept (Some (-1))) world_new _ None
              eq_refl eq_refl eq_refl Hok eq_refl) as (Hsrv & Hopen & _).
  split; [exact Hsrv |].
  split; [apply Hopen; discriminate |].
  apply (Hidem (in_accept (Some (-1))) (in_accept None)
               (snd (start (mkCalls 3 0 0 0) world_new)) _ None eq_refl).
Defined.

(** ** Frames and ids across stop and start *)

Lemma start_keeps_frames (env : socket_calls) (w : World) :
  m_frame_queue (srv (snd (start env w))) = m_frame_queue (srv w) /\
  m_frame_counter (srv (snd (start env w))) = m_frame_counter (srv w) /\
  m_connected_clients (srv (snd (start env w))) = m_connected_clients (srv w).
Proof.
  destruct w as [[port sock run clients thr q c] o].
  unfold start. cbn [srv os m_running].
  destruct run; [repeat split |].
  destruct (socket_ret env <? 0); [repeat split |].
  destruct (setsockopt_ret env <? 0); [repeat split |].
  destruct (bind_ret env <? 0); [repeat split |].
  destruct (listen_ret env <? 0); repeat split.
Qed.

(** What [pushFrame] does depends on the running flag, the queue and the
    counter only. *)
Lemma pushFrame_agree (now : Z) (allocs : list bool)
    (p : option AS_SDK_Data_s) (s s' : PythonStreamServer) :
  m_running s = m_running s' ->
  m_frame_queue s = m_frame_queue s' ->
  m_frame_counter s = m_frame_counter s' ->
  snd (pushFrame now allocs p s) = snd (pushFrame now allocs p s') /\
  pushed_by now allocs p s = pushed_by now allocs p s' /\
  m_frame_queue (fst (pushFrame now allocs p s))
  = m_frame_queue (fst (pushFrame now allocs p s')) /\
  m_frame_counter (fst (pushFrame now allocs p s))
  = m_frame_counter (fst (pushFrame now allocs p s')).
Proof.
  intros Hr Hq Hc.
  destruct s as [port sock run clients thr q c].
  destruct s' as [port' sock' run' clients' thr' q' c'].
  cbn [m_running m_frame_queue m_frame_counter] in Hr, Hq, Hc. subst run' q' c'.
  unfold pushFrame, pushed_by, convertToStreamFrame.
  cbn -[copy_plane evict wrap32 wrap64].
  destruct (negb run || is_null p); [repeat split |].
  destruct p as [d |]; [| repeat split].
  destruct (copy_plane (depthImg d) allocs) as [[pd a1] | |];
    cbn -[copy_plane evict wrap32 wrap64]; [| repeat split | repeat split].
  destruct (copy_plane (rgbImg d) a1) as [[pr a2] | |];
    cbn -[copy_plane evict wrap32 wrap64]; [| repeat split | repeat split].
  destruct (copy_plane (irImg d) a2) as [[pi a3] | |];
    cbn -[copy_plane evict wrap32 wrap64]; repeat split.
Qed.

(** X5.  A restart neither clears the queue nor resets the ids.  When
    [stop] on a started server has returned, [pushFrame] drops the frame
    without using an id as long as the server is stopped; after a
    successful [start] the server is running with the queue and the
    counter it had before the [stop], so [pushFrame] gives the next frame
    the id that follows the last one handed out before the stop, and the
    frames queued before the stop are still delivered first. *)
Theorem restart_keeps_frames (env : socket_calls) (t : accept_thread)
    (w w1 : World) (started : option Z) :
  m_running (srv w) = true ->
  stop t w = Some (w1, started) ->
  fst (start env w1) = true ->
  (forall now allocs p,
     pushFrame now allocs p (srv w1) = (srv w1, Returns tt)) /\
  m_running (srv (snd (start env w1))) = true /\
  m_frame_queue (srv (snd (start env w1))) = m_frame_queue (srv w) /\
  m_frame_counter (srv (snd (start env w1))) = m_frame_counter (srv w) /\
  (forall now allocs p,
     snd (pushFrame now allocs p (srv (snd (start env w1))))
     = snd (pushFrame now allocs p (srv w)) /\
     pushed_by now allocs p (srv (snd (start env w1)))
     = pushed_by now allocs p (srv w) /\
     m_frame_queue (fst (pushFrame now allocs p (srv (snd (start env w1)))))
     = m_frame_queue (fst (pushFrame now allocs p (srv w)))).
Proof.
  intros Hrun Hs Hok.
  destruct (stop_returned t w w1 started Hs) as (Hstopped & Hq2 & Hc2 & _).
  pose proof (start_running env w1 Hok) as Hflag.
  destruct (start_keeps_frames env w1) as (Hq1 & Hc1 & _).
  split; [intros; apply pushFrame_not_running; exact Hstopped |].
  split; [exact Hflag |].
  split; [congruence |]. split; [congruence |].
  intros now allocs p.
  destruct (pushFrame_agree now allocs p (srv (snd (start env w1))) (srv w))
    as (H1 & H2 & H3 & _); try congruence.
  split; [exact H1 |]. split; [exact H2 | exact H3].
Qed.

Lemma restart_keeps_frames_witness :
  m_running (srv world_stream) = true /\
  exists w1,
    stop (in_accept (Some 9)) world_stream = Some (w1, Some 9) /\
    fst (start (mkCalls 4 0 0 0) w1) = true /\
    m_frame_queue (srv (snd (start (mkCalls 4 0 0 0) w1)))
    = [frame_depth_ir; frame_scenario_A] /\
    snd (pushFrame 5 [] (Some raw_depth_ir) (srv (snd (start (mkCalls 4 0 0 0) w1))))
    = Returns tt.
Proof.
  assert (Hrun : m_running (srv world_stream) = true) by reflexivity.
  split; [exact Hrun |].
  pose (w1 := match stop (in_accept (Some 9)) world_stream with
              | Some (w1, _) => w1
              | None => world_stream
              end).
  assert (Hs : stop (in_accept (Some 9)) world_stream = Some (w1, Some 9))
    by reflexivity.
  assert (Hok : fst (start (mkCalls 4 0 0 0) w1) = true) by reflexivity.
  exists w1. split; [exact Hs |].
  destruct (restart_keeps_frames (mkCalls 4 0 0 0) (in_accept (Some 9))
              world_stream w1 (Some 9) Hrun Hs Hok)
    as (_ & _ & Hq & _ & Hpush).
  split; [exact Hok |]. split; [exact Hq |].
  destruct (Hpush 5 [] (Some raw_depth_ir)) as (Hout & _ & _).
  rewrite Hout. reflexivity.
Defined.

(** ** Frames made by convertToStreamFrame *)

Lemma copy_plane_wf (img : AS_Frame_s) (allocs allocs' : list bool) (p : Plane) :
  copy_plane img allocs = Returns (p, allocs') ->
  plane_wf p /\ plane_exact p.
Proof.
  intros Hc.
  destruct (Z_gt_le_dec (size img) 0) as [Hpos | Hz].
  - destruct (copy_plane_present _ _ _ _ Hpos Hc)
      as (Hw & Hh & Hs & buf & Hdat & Hread).
    pose proof (read_bytes_length _ _ _ Hread) as Hlen.
    pose proof (wrap32_is_u32 (size img)) as Hrange.
    assert (Hexact : Z.of_nat (length buf) = p_size p)
      by (rewrite Hs, Hlen; unfold is_u32 in Hrange; lia).
    split.
    + unfold plane_wf. rewrite Hw, Hh, Hs.
      split; [apply wrap32_is_u32 |]. split; [apply wrap32_is_u32 |].
      split; [apply wrap32_is_u32 |].
      intros _. exists buf. split; [exact Hdat |]. rewrite <- Hs. lia.
    + unfold plane_exact. rewrite Hdat. exact Hexact.
  - rewrite copy_plane_absent in Hc by lia. injection Hc as <- _.
    split.
    + unfold plane_wf, is_u32. simpl. repeat split; try lia.
    + reflexivity.
Qed.

Lemma convertToStreamFrame_frame_wf (now : Z) (allocs : list bool)
    (d : AS_SDK_Data_s) (s : PythonStreamServer) (f : StreamFrame) :
  snd (convertToStreamFrame now allocs d s) = Returns f -> frame_wf f.
Proof.
  intros Hc.
  destruct (convertToStreamFrame_planes _ _ _ _ _ Hc)
    as (a1 & a2 & a3 & Hd & Hr & Hi & Hts & Hid).
  unfold frame_wf. rewrite Hts, Hid.
  split; [apply wrap64_is_u64 |]. split; [apply wrap32_is_u32 |].
  split; [apply (copy_plane_wf _ _ _ _ Hd) |].
  split; [apply (copy_plane_wf _ _ _ _ Hr) | apply (copy_plane_wf _ _ _ _ Hi)].
Qed.

(** X6.  Every frame [convertToStreamFrame] returns is well formed,
    whatever the driver frame and the allocator were: all header fields
    have the values of their C types, each plane of positive size has a
    buffer, and the size of each plane is exactly the length of its
    buffer (0 when there is none). *)
Theorem convertToStreamFrame_wf (now : Z) (allocs : list bool)
    (d : AS_SDK_Data_s) (s : PythonStreamServer) (f : StreamFrame) :
  snd (convertToStreamFrame now allocs d s) = Returns f ->
  frame_wf f /\
  plane_exact (depth_plane f) /\ plane_exact (rgb_plane f) /\
  plane_exact (ir_plane f).
Proof.
  intros Hc.
  split; [exact (convertToStreamFrame_frame_wf _ _ _ _ _ Hc) |].
  destruct (convertToStreamFrame_planes _ _ _ _ _ Hc)
    as (a1 & a2 & a3 & Hd & Hr & Hi & _ & _).
  split; [apply (copy_plane_wf _ _ _ _ Hd) |].
  split; [apply (copy_plane_wf _ _ _ _ Hr) | apply (copy_plane_wf _ _ _ _ Hi)].
Qed.

Lemma convertToStreamFrame_wf_witness :
  exists f,
    snd (convertToStreamFrame (-1) [true] raw_depth_ir running_server) = Returns f /\
    frame_wf f /\ timestamp f = 18446744073709551615 /\
    plane_exact (depth_plane f).
Proof.
  eexists. split; [reflexivity |].
  destruct (convertToStreamFrame_wf (-1) [true] raw_depth_ir running_server _ eq_refl)
    as (Hwf & Hd & _).
  split; [exact Hwf |]. split; [reflexivity | exact Hd].
Defined.

Lemma Forall_evict (P : StreamFrame -> Prop) (q : list StreamFrame) :
  Forall P q -> Forall P (evict q).
Proof.
  induction 1 as [| a q Ha Hq IH]; [constructor |].
  cbn [evict]. destruct (MAX_QUEUE_SIZE <=? length (a :: q))%nat.
  - exact IH.
  - constructor; assumption.
Qed.

Lemma pushed_by_wf (now : Z) (allocs : list bool)
    (p : option AS_SDK_Data_s) (s : PythonStreamServer) :
  Forall frame_wf (pushed_by now allocs p s).
Proof.
  unfold pushed_by.
  destruct (negb (m_running s) || is_null p); [constructor |].
  destruct p as [d |]; [| constructor].
  destruct (snd (convertToStreamFrame now allocs d s)) as [f | e |] eqn:Hc;
    try constructor; [| constructor].
  apply (convertToStreamFrame_frame_wf _ _ _ _ _ Hc).
Qed.

(** X7.  The queue only ever holds well-formed frames: after any pushes
    and pops on a queue of well-formed frames (the empty one, say), every
    frame in the queue is well formed, so whichever frame a handler pops,
    [sendFrameToClient] sends it in full on a socket that takes all
    bytes, without reading outside a buffer, and the bytes parse back to
    the frame. *)
Theorem queue_frames_sendable (ops : list queue_op) (s : PythonStreamServer) :
  Forall frame_wf (m_frame_queue s) ->
  Forall frame_wf (m_frame_queue (fst (run_ops ops s))) /\
  forall (native : byte_order) (sk : Socket) (f : StreamFrame),
    In f (m_frame_queue (fst (run_ops ops s))) ->
    accepting sk ->
    exists sk',
      sendFrameToClient native sk f = Returns (true, sk') /\
      sk_wire sk' = sk_wire sk ++ frame_bytes native f /\
      parse_message native (frame_bytes native f) = Some (message_of f, []).
Proof.
  intros Hq.
  assert (Hinv : Forall frame_wf (m_frame_queue (fst (run_ops ops s)))).
  { revert s Hq. induction ops as [| o ops IH]; intros s Hq; [exact Hq |].
    destruct o as [now allocs p |]; cbn [run_ops].
    - specialize (IH (fst (pushFrame now allocs p s))).
      destruct (run_ops ops (fst (pushFrame now allocs p s))) as [s2 pushed].
      cbn [fst] in *. apply IH.
      destruct (pushFrame_queue now allocs p s) as [[_ Hsame] | (f & Hp & Hnew)].
      + rewrite Hsame. exact Hq.
      + rewrite Hnew. apply Forall_app. split; [apply Forall_evict; exact Hq |].
        rewrite <- Hp. apply pushed_by_wf.
    - apply IH. rewrite tryPop_queue.
      destruct (m_frame_queue s) as [| a q]; [constructor |].
      inversion Hq; assumption. }
  split; [exact Hinv |].
  intros native sk f Hin Hacc.
  rewrite Forall_forall in Hinv. specialize (Hinv f Hin).
  pose proof Hinv as (_ & _ & Hd & Hr & Hi).
  destruct (sendFrameToClient_accepting native sk f Hacc
              (plane_wf_readable _ Hd) (plane_wf_readable _ Hr)
              (plane_wf_readable _ Hi)) as (sk' & Hs & _).
  exists sk'. split; [exact Hs |].
  split; [apply (sendFrameToClient_true _ _ _ _ Hs) |].
  rewrite <- (app_nil_r (frame_bytes native f)).
  apply parse_message_wire. exact Hinv.
Qed.

Lemma queue_frames_sendable_witness :
  Forall frame_wf (m_frame_queue running_server) /\
  Forall frame_wf (m_frame_queue (fst (run_ops ops_example running_server))) /\
  (length (m_frame_queue (fst (run_ops ops_example running_server))) = 10)%nat.
Proof.
  assert (Hq : Forall frame_wf (m_frame_queue running_server)) by constructor.
  split; [exact Hq |].
  split; [exact (proj1 (queue_frames_sendable ops_example running_server Hq)) |].
  reflexivity.
Defined.

(** ** Driver frames without data *)

(** X9.  A driver frame none of whose planes has a positive size is not
    filtered out: on a running server [pushFrame] gives it the next id
    and queues it (evicting the oldest frame when the queue is full),
    without any allocation and without looking at the data pointers; on a
    socket that takes all bytes it is sent as the 48 bytes of a header
    whose sizes, widths and heights are all 0. *)
Theorem pushFrame_empty_frame (now : Z) (allocs : list bool)
    (d : AS_SDK_Data_s) (s : PythonStreamServer) :
  m_running s = true ->
  ~ size (depthImg d) > 0 -> ~ size (rgbImg d) > 0 -> ~ size (irImg d) > 0 ->
  let f :=
    mkStreamFrame (wrap64 now) (wrap32 (m_frame_counter s + 1))
                  0 0 0 None 0 0 0 None 0 0 0 None in
  pushFrame now allocs (Some d) s
  = (set_frame_queue (set_frame_counter s (wrap32 (m_frame_counter s + 1)))
       (evict (m_frame_queue s) ++ [f]),
     Returns tt) /\
  forall (native : byte_order) (sk : Socket),
    accepting sk ->
    exists sk',
      sendFrameToClient native sk f = Returns (true, sk') /\
      sk_wire sk' = sk_wire sk ++ header_bytes native (header_of f) /\
      length (header_bytes native (header_of f)) = 48%nat.
Proof.
  intros Hrun Hd Hr Hi f.
  split.
  - unfold pushFrame, convertToStreamFrame. rewrite Hrun. cbn [negb orb is_null].
    do 3 (rewrite copy_plane_absent by assumption; cbn [bind]).
    reflexivity.
  - intros native sk Hacc.
    destruct (sendFrameToClient_accepting native sk f Hacc) as (sk' & Hs & _);
      try (intros buf H; discriminate H).
    exists sk'. split; [exact Hs |].
    split; [| apply length_header_bytes].
    rewrite (sendFrameToClient_true _ _ _ _ Hs). subst f.
    cbn [depth_size depth_data rgb_size rgb_data ir_size ir_data].
    unfold payload. simpl. rewrite app_nil_r. reflexivity.
Qed.

Lemma pushFrame_empty_frame_witness :
  m_running running_server = true /\
  m_frame_queue (fst (pushFrame 5 [false] (Some raw_empty) running_server))
  = [mkStreamFrame 5 1 0 0 0 None 0 0 0 None 0 0 0 None] /\
  exists sk',
    sendFrameToClient LittleEndian fresh_socket
      (mkStreamFrame 5 1 0 0 0 None 0 0 0 None 0 0 0 None)
    = Returns (true, sk') /\
    length (sk_wire sk') = 48%nat.
Proof.
  assert (Hrun : m_running running_server = true) by reflexivity.
  destruct (pushFrame_empty_frame 5 [false] raw_empty running_server Hrun)
    as [Hpush Hsend]; try (simpl; lia).
  split; [exact Hrun |].
  split; [rewrite Hpush; reflexivity |].
  destruct (Hsend LittleEndian fresh_socket) as (sk' & Hs & Hw & Hlen);
    [concrete_wf |].
  exists sk'. split; [exact Hs |]. rewrite Hw. exact Hlen.
Defined.

(** ** What a send leaves on the wire *)








(** ** The connection handler, whatever ends it *)









(** *** The handler among the other threads *)













(** ** A handler with nothing to send *)

Lemma handler_loop_idle (native : byte_order) (fd : Z) (fuel : nat) :
  forall w : World,
    m_running (srv w) = true -> m_frame_queue (srv w) = [] ->
    handler_loop native fuel fd w = Returns None.
Proof.
  induction fuel as [| fuel IH]; intros w Hrun Hq; [reflexivity |].
  cbn [handler_loop]. rewrite Hrun.
  unfold handler_turn, tryPop. rewrite Hq. cbn [bind].
  apply IH; assumption.
Qed.

(** X12.  A handler that has nothing to send.  On a server that is not
    running, [clientHandler] returns at once: it sends nothing, leaves
    the queued frames where they are, and closes its socket.  On a
    running server with an empty queue a turn of the loop changes
    nothing, and the handler never returns by itself, whatever the number
    of turns it is given: it keeps polling. *)
Theorem clientHandler_nothing_to_send (native : byte_order) (client_socket : Z)
    (w : World) :
  (m_running (srv w) = false ->
   forall fuel,
     exists w',
       clientHandler native (S fuel) client_socket w = Returns (Some w') /\
       sk_wire (os w' client_socket) = sk_wire (os w client_socket) /\
       sk_open (os w' client_socket) = false /\
       sk_shut (os w' client_socket) = true /\
       m_frame_queue (srv w') = m_frame_queue (srv w)) /\
  (m_running (srv w) = true -> m_frame_queue (srv w) = [] ->
   handler_turn native client_socket w = Returns (true, mkWorld (srv w) (os w)) /\
   forall fuel, clientHandler native fuel client_socket w = Returns None).
Proof.
  split.
  - intros Hrun fuel. unfold clientHandler. cbn [handler_loop srv os].
    cbn [m_running set_connected_clients]. rewrite Hrun. cbn [bind].
    eexists. split; [reflexivity |]. cbn [srv os].
    rewrite os_set_same. repeat split.
  - intros Hrun Hq. split.
    + unfold handler_turn, tryPop. rewrite Hq. reflexivity.
    + intros fuel. unfold clientHandler.
      rewrite handler_loop_idle by assumption. reflexivity.
Qed.

Lemma clientHandler_nothing_to_send_witness :
  m_running (srv world_stopped) = false /\
  (exists w',
     clientHandler LittleEndian 1 7 world_stopped = Returns (Some w') /\
     sk_wire (os w' 7) = [] /\
     m_frame_queue (srv w') = [frame_depth_ir; frame_scenario_A]) /\
  m_running (srv boot) = true /\ m_frame_queue (srv boot) = [] /\
  clientHandler LittleEndian 1000 7 boot = Returns None.
Proof.
  destruct (clientHandler_nothing_to_send LittleEndian 7 world_stopped)
    as [Hstopped _].
  destruct (clientHandler_nothing_to_send LittleEndian 7 boot) as [_ Hidle].
  assert (H1 : m_running (srv world_stopped) = false) by reflexivity.
  assert (H2 : m_running (srv boot) = true) by reflexivity.
  assert (H3 : m_frame_queue (srv boot) = []) by reflexivity.
  split; [exact H1 |].
  split.
  - destruct (Hstopped H1 0%nat) as (w' & Hc & Hw & _ & _ & Hq).
    exists w'. split; [exact Hc |]. split; [rewrite Hw; reflexivity |].
    rewrite Hq. reflexivity.
  - split; [exact H2 |]. split; [exact H3 |].
    exact (proj2 (Hidle H2 H3) 1000%nat).
Defined.

(** ** The stream a client receives *)

Lemma frame_bytes_length (native : byte_order) (f : StreamFrame) :
  (48 <= length (frame_bytes native f))%nat.
Proof.
  unfold frame_bytes. rewrite length_app, length_header_bytes. lia.
Qed.

(** The messages of well-formed frames, one after the other, are read
    back one by one. *)
Lemma parse_stream_frames (native : byte_order) (q : list StreamFrame) :
  Forall frame_wf q ->
  parse_stream (length q) native (concat (map (frame_bytes native) q))
  = Some (map message_of q).
Proof.
  induction 1 as [| f q Hf Hq IH]; [reflexivity |].
  cbn [map concat length].
  destruct (frame_bytes native f ++ concat (map (frame_bytes native) q))
    as [| b bs] eqn:Hbytes.
  { pose proof (frame_bytes_length native f) as Hl.
    apply (f_equal (@length _)) in Hbytes. rewrite length_app in Hbytes.
    simpl in Hbytes. lia. }
  cbn [parse_stream]. rewrite <- Hbytes.
  unfold frame_bytes at 1.
  rewrite parse_message_wire by exact Hf.
  cbn [obind]. rewrite IH. reflexivity.
Qed.

(** One turn that sends the front frame in full. *)
Lemma handler_turn_sends (native : byte_order) (fd : Z) (w : World)
    (f : StreamFrame) (rest : list StreamFrame) :
  m_frame_queue (srv w) = f :: rest ->
  frame_wf f -> accepting (os w fd) ->
  exists sk',
    handler_turn native fd w
    = Returns (true, mkWorld (set_frame_queue (srv w) rest) (os_set (os w) fd sk')) /\
    accepting sk' /\
    sk_wire sk' = sk_wire (os w fd) ++ frame_bytes native f.
Proof.
  intros Hq (_ & _ & Hd & Hr & Hi) Hacc.
  destruct (sendFrameToClient_accepting native (os w fd) f Hacc
              (plane_wf_readable _ Hd) (plane_wf_readable _ Hr)
              (plane_wf_readable _ Hi)) as (sk' & Hs & Hacc').
  exists sk'. unfold handler_turn, tryPop. rewrite Hq, Hs. cbn [bind negb].
  split; [reflexivity |]. split; [exact Hacc' |].
  apply (sendFrameToClient_true _ _ _ _ Hs).
Qed.

Lemma handler_turns_drain (native : byte_order) (fd : Z) (q : list StreamFrame) :
  forall w : World,
    m_running (srv w) = true ->
    m_frame_queue (srv w) = q ->
    Forall frame_wf q ->
    accepting (os w fd) ->
    exists w',
      handler_turns native (length q) fd w = Returns (true, w') /\
      m_running (srv w') = true /\
      m_frame_queue (srv w') = [] /\
      m_frame_counter (srv w') = m_frame_counter (srv w) /\
      accepting (os w' fd) /\
      sk_wire (os w' fd)
      = sk_wire (os w fd) ++ concat (map (frame_bytes native) q) /\
      (forall fd', fd' <> fd -> os w' fd' = os w fd').
Proof.
  induction q as [| f q IH]; intros w Hrun Hq Hwf Hacc.
  - exists w. cbn [length handler_turns map concat]. rewrite app_nil_r.
    split; [reflexivity |]. split; [exact Hrun |]. split; [exact Hq |].
    split; [reflexivity |]. split; [exact Hacc |].
    split; [reflexivity | intros; reflexivity].
  - inversion Hwf as [| ? ? Hf Hrest]; subst.
    destruct (handler_turn_sends native fd w f q Hq Hf Hacc) as (sk' & Ht & Hacc' & Hw).
    cbn [length handler_turns]. rewrite Hrun, Ht. cbn [bind].
    destruct (IH (mkWorld (set_frame_queue (srv w) q) (os_set (os w) fd sk')))
      as (w' & Hturns & Hrun' & Hq' & Hc' & Hacc'' & Hw' & Hother).
    + exact Hrun.
    + reflexivity.
    + exact Hrest.
    + cbn [os]. rewrite os_set_same. exact Hacc'.
    + exists w'. split; [exact Hturns |]. split; [exact Hrun' |].
      split; [exact Hq' |]. split; [exact Hc' |]. split; [exact Hacc'' |].
      cbn [os] in Hw', Hother. rewrite os_set_same in Hw'.
      split.
      * rewrite Hw', Hw. cbn [map concat]. rewrite <- app_assoc. reflexivity.
      * intros fd' Hne. rewrite (Hother fd' Hne). apply os_set_other. exact Hne.
Qed.

(** The turns counted by [handler_turns] are the first turns of the loop
    of [clientHandler]. *)
Lemma handler_loop_after_turns (native : byte_order) (fd : Z) (n : nat) :
  forall (w w' : World) (k : nat),
    handler_turns native n fd w = Returns (true, w') ->
    handler_loop native (n + k) fd w = handler_loop native k fd w'.
Proof.
  induction n as [| n IH]; intros w w' k; cbn [handler_turns handler_loop Nat.add].
  - intros [= <-]. reflexivity.
  - destruct (m_running (srv w)); [| discriminate].
    destruct (handler_turn native fd w) as [[go w1] | e |]; cbn [bind];
      try discriminate.
    destruct go; [| discriminate].
    intros H. apply IH. exact H.
Qed.

(** X13.  What a client receives.  With the server running, well-formed
    frames queued and a socket that takes all bytes, the first turns of
    the handler's loop (one per queued frame) empty the queue and append
    to the wire the messages of the frames in queue order, each one
    whole and one after the other; the receiving side reads them back as
    exactly these frames in this order.  No other socket is touched, and
    the loop then goes on from the world reached. *)
Theorem handler_streams_queue (native : byte_order) (client_socket : Z) (w : World) :
  m_running (srv w) = true ->
  Forall frame_wf (m_frame_queue (srv w)) ->
  accepting (os w client_socket) ->
  let q := m_frame_queue (srv w) in
  exists w' stream,
    handler_turns native (length q) client_socket w = Returns (true, w') /\
    (forall k, handler_loop native (length q + k) client_socket w
               = handler_loop native k client_socket w') /\
    m_frame_queue (srv w') = [] /\
    sk_wire (os w' client_socket) = sk_wire (os w client_socket) ++ stream /\
    stream = concat (map (frame_bytes native) q) /\
    parse_stream (length q) native stream = Some (map message_of q) /\
    (forall fd, fd <> client_socket -> os w' fd = os w fd).
Proof.
  intros Hrun Hwf Hacc q.
  destruct (handler_turns_drain native client_socket q w Hrun eq_refl Hwf Hacc)
    as (w' & Hturns & _ & Hq' & _ & _ & Hw & Hother).
  exists w', (concat (map (frame_bytes native) q)).
  split; [exact Hturns |].
  split; [intros k; apply handler_loop_after_turns; exact Hturns |].
  split; [exact Hq' |]. split; [exact Hw |]. split; [reflexivity |].
  split; [apply parse_stream_frames; exact Hwf | exact Hother].
Qed.

Lemma handler_streams_queue_witness :
  m_running (srv world_stream) = true /\
  Forall frame_wf (m_frame_queue (srv world_stream)) /\
  accepting (os world_stream 7) /\
  exists w',
    handler_turns LittleEndian 2 7 world_stream = Returns (true, w') /\
    length (sk_wire (os w' 7)) = 202%nat /\
    parse_stream 2 LittleEndian (sk_wire (os w' 7))
    = Some [message_of frame_depth_ir; message_of frame_scenario_A].
Proof.
  assert (Hrun : m_running (srv world_stream) = true) by reflexivity.
  assert (Hwf : Forall frame_wf (m_frame_queue (srv world_stream))).
  { repeat (apply Forall_cons; [concrete_wf |]). apply Forall_nil. }
  assert (Hacc : accepting (os world_stream 7)) by concrete_wf.
  split; [exact Hrun |]. split; [exact Hwf |]. split; [exact Hacc |].
  destruct (handler_streams_queue LittleEndian 7 world_stream Hrun Hwf Hacc)
    as (w' & stream & Hturns & _ & _ & Hw & Hstream & Hparse & _).
  exists w'. split; [exact Hturns |].
  simpl in Hw. rewrite Hw.
  split; [rewrite Hstream; reflexivity | exact Hparse].
Defined.

(** ** From the driver to the client *)

Lemma plane_copied_bytes (img : AS_Frame_s) (p : Plane) :
  plane_copied img p ->
  plane_bytes p = raw_bytes img /\ Z.of_nat (length (plane_bytes p)) = p_size p.
Proof.
  intros [Hpos Hneg]. unfold plane_bytes, raw_bytes.
  destruct (Z.gtb_spec (size img) 0) as [H | H].
  - destruct (Hpos ltac:(lia)) as (_ & _ & Hs & buf & raw & Hdat & Hraw & Hlen & Hbuf).
    rewrite Hdat, Hraw, Hs. rewrite <- Hbuf.
    rewrite firstn_all2 by lia. split; [reflexivity | exact Hlen].
  - destruct (Hneg ltac:(lia)) as (_ & _ & Hs & Hdat).
    rewrite Hdat, Hs. split; reflexivity.
Qed.

(** The frame of a driver frame: what a push that goes through appends. *)
Lemma pushFrame_ok_frame (now : Z) (d : AS_SDK_Data_s) (s : PythonStreamServer) :
  m_running s = true -> raw_ok d ->
  exists f,
    pushFrame now [] (Some d) s
    = (set_frame_queue (set_frame_counter s (wrap32 (m_frame_counter s + 1)))
         (evict (m_frame_queue s) ++ [f]),
       Returns tt) /\
    frame_id f = wrap32 (m_frame_counter s + 1) /\
    frame_wf f /\
    message_carries (now, d) (message_of f).
Proof.
  intros Hrun Hraw.
  destruct (convertToStreamFrame_returns now [] d s Hraw (Forall_nil _))
    as (f & Hc & Hid & Hts & Hd & Hr & Hi).
  exists f. split; [unfold pushFrame; rewrite Hrun, Hc; reflexivity |].
  split; [exact Hid |].
  split; [apply (convertToStreamFrame_frame_wf now [] d s); rewrite Hc; reflexivity |].
  destruct (plane_copied_bytes _ _ Hd) as [Bd Ld].
  destruct (plane_copied_bytes _ _ Hr) as [Br Lr].
  destruct (plane_copied_bytes _ _ Hi) as [Bi Li].
  unfold message_carries. cbn [message_of msg_header msg_depth msg_rgb msg_ir
    h_timestamp h_depth_size h_rgb_size h_ir_size fst snd].
  split; [exact Hts |]. split; [exact Bd |]. split; [exact Br |]. split; [exact Bi |].
  split; [exact Ld |]. split; [exact Lr | exact Li].
Qed.

Lemma Forall2_skipn {A B : Type} (R : A -> B -> Prop) (n : nat) :
  forall (l : list A) (l' : list B),
    Forall2 R l l' -> Forall2 R (skipn n l) (skipn n l').
Proof.
  induction n as [| n IH]; intros l l' H; [exact H |].
  destruct H as [| a b l l' Hab H]; [constructor |].
  cbn [skipn]. apply IH. exact H.
Qed.

Lemma Forall_skipn_frames (P : StreamFrame -> Prop) (n : nat) (l : list StreamFrame) :
  Forall P l -> Forall P (skipn n l).
Proof.
  revert l. induction n as [| n IH]; intros l H; [exact H |].
  destruct H as [| a l Ha H]; [constructor |]. cbn [skipn]. apply IH. exact H.
Qed.

(** Any number of pushes that go through: the frames made, and what is
    left of them in the queue. *)
Lemma push_all_frames (ds : list (Z * AS_SDK_Data_s)) :
  forall s : PythonStreamServer,
    m_running s = true ->
    Forall raw_ok (map snd ds) ->
    0 <= m_frame_counter s ->
    m_frame_counter s + Z.of_nat (length ds) < 2 ^ 32 ->
    (length (m_frame_queue s) <= MAX_QUEUE_SIZE)%nat ->
    exists fs,
      m_frame_queue (push_all ds s)
      = skipn (length (m_frame_queue s ++ fs) - MAX_QUEUE_SIZE) (m_frame_queue s ++ fs) /\
      map frame_id fs = ids (m_frame_counter s + 1) (length ds) /\
      Forall frame_wf fs /\
      Forall2 message_carries ds (map message_of fs) /\
      m_running (push_all ds s) = true.
Proof.
  unfold MAX_QUEUE_SIZE.
  induction ds as [| [now d] ds IH]; intros s Hrun Hraw Hc0 Hc Hlen.
  - exists []. cbn [push_all map length]. rewrite app_nil_r.
    replace (length (m_frame_queue s) - 10)%nat with 0%nat by lia.
    split; [reflexivity |]. split; [reflexivity |].
    split; [constructor |]. split; [constructor | exact Hrun].
  - simpl in Hraw. inversion Hraw as [| ? ? Hd Hds]; subst.
    destruct (pushFrame_ok_frame now d s Hrun Hd) as (f & Hp & Hid & Hwf & Hmsg).
    simpl length in *.
    rewrite wrap32_small in Hp, Hid by (unfold is_u32; lia).
    rewrite evict_skipn in Hp.
    cbn [push_all]. rewrite Hp. cbn [fst].
    set (j := (length (m_frame_queue s) - 9)%nat) in *.
    set (s1 := set_frame_queue _ _).
    assert (Hq1 : m_frame_queue s1 = skipn j (m_frame_queue s) ++ [f]) by reflexivity.
    assert (Hc1 : m_frame_counter s1 = m_frame_counter s + 1) by reflexivity.
    destruct (IH s1) as (fs & Hq & Hids & Hwfs & Hmsgs & Hrun').
    + exact Hrun.
    + exact Hds.
    + rewrite Hc1. lia.
    + rewrite Hc1. lia.
    + rewrite Hq1, length_app, length_skipn. simpl. lia.
    + exists (f :: fs).
      split.
      { rewrite Hq, Hq1, <- app_assoc. cbn [app].
        rewrite skipn_skipn_app by lia.
        f_equal. rewrite !length_app, length_skipn. simpl. lia. }
      split; [cbn [map]; rewrite ids_cons, Hid, Hids, Hc1; reflexivity |].
      split; [constructor; assumption |].
      split; [cbn [map]; constructor; assumption | exact Hrun'].
Qed.

(** X14.  From the driver to the client.  On a started server with an
    empty queue and a counter at 0, [N] readable driver frames are pushed
    (the allocations succeeding, [N] below 2^32) and a handler whose
    socket takes all bytes then runs one turn of its loop per queued
    frame.  The bytes it wrote are read back by the receiving side as the
    messages of the last 10 pushes (of all of them when [N <= 10]), in
    the order of the pushes, with the ids they were given at their push
    ([N - 9 .. N], or [1 .. N]), each carrying the clock reading of its
    push and, plane by plane, exactly the bytes the driver frame had,
    with the sizes the header declares.  The frames pushed before the
    last 10 are never sent. *)
Theorem driver_to_client (native : byte_order) (client_socket : Z)
    (ds : list (Z * AS_SDK_Data_s)) (w : World) :
  m_running (srv w) = true ->
  m_frame_queue (srv w) = [] ->
  m_frame_counter (srv w) = 0 ->
  Forall raw_ok (map snd ds) ->
  Z.of_nat (length ds) < 2 ^ 32 ->
  accepting (os w client_socket) ->
  let dropped := (length ds - 10)%nat in
  let w1 := mkWorld (push_all ds (srv w)) (os w) in
  exists w' stream msgs,
    length (m_frame_queue (srv w1)) = (length ds - dropped)%nat /\
    handler_turns native (length ds - dropped) client_socket w1 = Returns (true, w') /\
    sk_wire (os w' client_socket) = sk_wire (os w client_socket) ++ stream /\
    parse_stream (length ds - dropped) native stream = Some msgs /\
    map (fun m => h_frame_id (msg_header m)) msgs
    = skipn dropped (ids 1 (length ds)) /\
    Forall2 message_carries (skipn dropped ds) msgs /\
    m_frame_queue (srv w') = [].
Proof.
  intros Hrun Hq Hc Hraw Hlen Hacc dropped w1.
  destruct (push_all_frames ds (srv w) Hrun Hraw)
    as (fs & Hfs & Hids & Hwf & Hmsgs & Hrun').
  { lia. } { rewrite Hc. lia. } { rewrite Hq. unfold MAX_QUEUE_SIZE. simpl. lia. }
  rewrite Hq in Hfs. cbn [app] in Hfs. rewrite Hc in Hids. cbn in Hids.
  unfold MAX_QUEUE_SIZE in Hfs.
  assert (Hn : length fs = length ds).
  { rewrite <- (length_map frame_id fs), Hids. unfold ids.
    rewrite length_map, length_seq. reflexivity. }
  rewrite Hn in Hfs. fold dropped in Hfs.
  set (q := skipn dropped fs) in *.
  assert (Hqlen : length q = (length ds - dropped)%nat).
  { subst q. rewrite length_skipn, Hn. reflexivity. }
  assert (Hqwf : Forall frame_wf q) by (apply Forall_skipn_frames; exact Hwf).
  destruct (handler_turns_drain native client_socket q w1 Hrun' Hfs Hqwf Hacc)
    as (w' & Hturns & _ & Hq' & _ & _ & Hw & _).
  exists w', (concat (map (frame_bytes native) q)), (map message_of q).
  rewrite <- Hqlen.
  split; [subst w1; cbn [srv]; rewrite Hfs; reflexivity |].
  split; [exact Hturns |]. split; [exact Hw |].
  split; [apply parse_stream_frames; exact Hqwf |].
  split.
  { rewrite map_map. subst q.
    rewrite <- Hids, <- !skipn_map. reflexivity. }
  split; [| exact Hq'].
  subst q. rewrite <- skipn_map. apply Forall2_skipn. exact Hmsgs.
Qed.

Lemma driver_to_client_witness :
  m_running (srv boot) = true /\
  Forall raw_ok (map snd three_frames) /\
  accepting (os_set (os boot) 7 fresh_socket 7) /\
  exists w' msgs,
    handler_turns BigEndian 3 7
      (mkWorld (push_all three_frames (srv boot)) (os_set (os boot) 7 fresh_socket))
    = Returns (true, w') /\
    parse_stream 3 BigEndian (sk_wire (os w' 7)) = Some msgs /\
    map (fun m => h_frame_id (msg_header m)) msgs = [1; 2; 3] /\
    Forall2 message_carries three_frames msgs.
Proof.
  assert (Hrun : m_running (srv boot) = true) by reflexivity.
  assert (Hraw : raw_ok raw_depth_ir) by concrete_raw.
  assert (Hds : Forall raw_ok (map snd three_frames))
    by (simpl; repeat (apply Forall_cons; [exact Hraw |]); apply Forall_nil).
  assert (Hacc : accepting (os_set (os boot) 7 fresh_socket 7)) by concrete_wf.
  split; [exact Hrun |]. split; [exact Hds |]. split; [exact Hacc |].
  destruct (driver_to_client BigEndian 7 three_frames
              (mkWorld (srv boot) (os_set (os boot) 7 fresh_socket))
              Hrun eq_refl eq_refl Hds ltac:(simpl; lia) Hacc)
    as (w' & stream & msgs & _ & Hturns & Hw & Hparse & Hids & Hmsgs & _).
  exists w', msgs. split; [exact Hturns |].
  cbn [os] in Hw. rewrite os_set_same in Hw. cbn [sk_wire fresh_socket app] in Hw.
  rewrite Hw. split; [exact Hparse |]. split; [exact Hids | exact Hmsgs].
Defined.

(** ** Several clients *)

Lemma handlers_turns_fanout (native : byte_order) (sched : list Z) :
  forall (q : list StreamFrame) (w : World),
    m_running (srv w) = true ->
    m_frame_queue (srv w) = q ->
    Forall frame_wf q ->
    (forall fd, In fd sched -> accepting (os w fd)) ->
    length sched = length q ->
    exists w',
      handlers_turns native sched w = Returns (true, w') /\
      m_frame_queue (srv w') = [] /\
      forall fd,
        sk_wire (os w' fd)
        = sk_wire (os w fd) ++
          concat (map (frame_bytes native) (frames_for fd sched q)).
Proof.
  induction sched as [| c sched IH]; intros q w Hrun Hq Hwf Hacc Hlen.
  - destruct q; [| discriminate Hlen].
    exists w. split; [reflexivity |]. split; [exact Hq |].
    intros fd. unfold frames_for. simpl. rewrite app_nil_r. reflexivity.
  - destruct q as [| f q]; [discriminate Hlen |].
    inversion Hwf as [| ? ? Hf Hrest]; subst.
    destruct (handler_turn_sends native c w f q Hq Hf (Hacc c (or_introl eq_refl)))
      as (sk' & Ht & Hacc' & Hw).
    cbn [handlers_turns]. rewrite Hrun, Ht. cbn [bind].
    destruct (IH q (mkWorld (set_frame_queue (srv w) q) (os_set (os w) c sk')))
      as (w' & Hturns & Hq' & Hwire).
    + exact Hrun.
    + reflexivity.
    + exact Hrest.
    + intros fd Hin. cbn [os]. unfold os_set.
      destruct (Z.eqb_spec fd c) as [-> | Hne]; [exact Hacc' |].
      apply Hacc. right. exact Hin.
    + simpl in Hlen. lia.
    + exists w'. split; [exact Hturns |]. split; [exact Hq' |].
      intros fd. rewrite Hwire. cbn [os]. unfold frames_for, os_set.
      cbn [combine filter fst snd].
      destruct (Z.eqb_spec fd c) as [-> | Hne].
      * rewrite Z.eqb_refl. cbn [map concat]. rewrite Hw, <- app_assoc. reflexivity.
      * destruct (Z.eqb_spec c fd) as [Heq | _]; [congruence |]. reflexivity.
Qed.

Lemma list_sum_cons (a : nat) (l : list nat) :
  list_sum (a :: l) = (a + list_sum l)%nat.
Proof. reflexivity. Qed.

Lemma count_absent (c : Z) (l : list Z) :
  ~ In c l ->
  list_sum (map (fun fd => if c =? fd then 1%nat else 0%nat) l) = 0%nat.
Proof.
  induction l as [| b l IH]; intros Hnotin; [reflexivity |].
  cbn [map]. rewrite list_sum_cons.
  destruct (Z.eqb_spec c b) as [Heq | _].
  - exfalso. apply Hnotin. left. symmetry. exact Heq.
  - rewrite IH; [reflexivity |]. intros H. apply Hnotin. right. exact H.
Qed.

Lemma count_present (c : Z) (l : list Z) :
  NoDup l -> In c l ->
  list_sum (map (fun fd => if c =? fd then 1%nat else 0%nat) l) = 1%nat.
Proof.
  induction 1 as [| a l Hnotin Hnd IH]; intros Hin; [destruct Hin |].
  cbn [map]. rewrite list_sum_cons.
  destruct (Z.eqb_spec c a) as [Heq | Hne].
  - subst a. rewrite (count_absent c l Hnotin). reflexivity.
  - destruct Hin as [Heq | Hin]; [congruence |].
    rewrite (IH Hin). reflexivity.
Qed.

Lemma frames_for_count (clients : list Z) :
  NoDup clients ->
  forall (sched : list Z) (q : list StreamFrame),
    (forall fd, In fd sched -> In fd clients) ->
    length sched = length q ->
    list_sum (map (fun fd => length (frames_for fd sched q)) clients) = length q.
Proof.
  intros Hnd.
  induction sched as [| c sched IH]; intros q Hin Hlen.
  - destruct q; [| discriminate Hlen].
    unfold frames_for. simpl. clear. induction clients; [reflexivity | exact IHclients].
  - destruct q as [| f q]; [discriminate Hlen |].
    specialize (IH q (fun fd H => Hin fd (or_intror H)) ltac:(simpl in Hlen; lia)).
    pose proof (count_present c clients Hnd (Hin c (or_introl eq_refl))) as Hone.
    cbn [length]. rewrite <- IH, <- Nat.add_1_l, <- Hone.
    clear. induction clients as [| a l IHl]; [reflexivity |].
    cbn [map]. rewrite !list_sum_cons, IHl.
    assert (Hhead : length (frames_for a (c :: sched) (f :: q))
                    = ((if (c =? a)%Z then 1 else 0)
                       + length (frames_for a sched q))%nat).
    { unfold frames_for. cbn [combine filter fst].
      destruct (c =? a); reflexivity. }
    rewrite Hhead. lia.
Qed.

Lemma frames_for_all_wf (fd : Z) (sched : list Z) :
  forall q : list StreamFrame,
    Forall frame_wf q -> Forall frame_wf (frames_for fd sched q).
Proof.
  unfold frames_for.
  induction sched as [| c sched IH]; intros q Hq; [constructor |].
  destruct q as [| f q]; [constructor |].
  inversion Hq as [| ? ? Hf Hrest]; subst.
  cbn [combine filter fst]. destruct (c =? fd); cbn [map].
  - constructor; [exact Hf | apply IH; exact Hrest].
  - apply IH. exact Hrest.
Qed.

(** X15.  Several clients share the frames, they do not each get all of
    them.  With the server running, well-formed frames queued and the
    handlers of some sockets (all taking every byte) taking one turn per
    frame in any order, every frame is sent to exactly one client, the
    one whose handler took the turn: each client's wire receives the
    whole messages of its own frames, in queue order, and reads them
    back as such; the queue ends empty; and over all clients the numbers
    of frames received add up to the number of frames queued. *)
Theorem handlers_fan_out (native : byte_order) (sched clients : list Z) (w : World) :
  m_running (srv w) = true ->
  Forall frame_wf (m_frame_queue (srv w)) ->
  (forall fd, In fd sched -> accepting (os w fd)) ->
  length sched = length (m_frame_queue (srv w)) ->
  NoDup clients ->
  (forall fd, In fd sched -> In fd clients) ->
  let q := m_frame_queue (srv w) in
  exists w',
    handlers_turns native sched w = Returns (true, w') /\
    m_frame_queue (srv w') = [] /\
    (forall fd,
       exists stream,
         sk_wire (os w' fd) = sk_wire (os w fd) ++ stream /\
         stream = concat (map (frame_bytes native) (frames_for fd sched q)) /\
         parse_stream (length (frames_for fd sched q)) native stream
         = Some (map message_of (frames_for fd sched q))) /\
    list_sum (map (fun fd => length (frames_for fd sched q)) clients) = length q.
Proof.
  intros Hrun Hwf Hacc Hlen Hnd Hin q.
  destruct (handlers_turns_fanout native sched q w Hrun eq_refl Hwf Hacc Hlen)
    as (w' & Hturns & Hq' & Hwire).
  exists w'. split; [exact Hturns |]. split; [exact Hq' |].
  split.
  - intros fd. eexists. split; [apply Hwire |]. split; [reflexivity |].
    apply parse_stream_frames, frames_for_all_wf. exact Hwf.
  - apply frames_for_count; assumption.
Qed.

Lemma handlers_fan_out_witness :
  exists w',
    handlers_turns LittleEndian [7; 8; 7] world_two_clients = Returns (true, w') /\
    parse_stream 2 LittleEndian (sk_wire (os w' 7))
    = Some [message_of frame_depth_ir; message_of frame_depth_ir] /\
    parse_stream 1 LittleEndian (sk_wire (os w' 8))
    = Some [message_of frame_scenario_A].
Proof.
  assert (Hrun : m_running (srv world_two_clients) = true) by reflexivity.
  assert (Hwf : Forall frame_wf (m_frame_queue (srv world_two_clients))).
  { repeat (apply Forall_cons; [concrete_wf |]). apply Forall_nil. }
  assert (Hacc : forall fd, In fd [7; 8; 7] -> accepting (os world_two_clients fd)).
  { intros fd [<- | [<- | [<- | []]]]; concrete_wf. }
  assert (Hnd : NoDup [7; 8]).
  { constructor; [intros [H | []]; discriminate H |].
    constructor; [intros [] | constructor]. }
  assert (Hin : forall fd, In fd [7; 8; 7] -> In fd [7; 8]).
  { intros fd [<- | [<- | [<- | []]]]; simpl; tauto. }
  destruct (handlers_fan_out LittleEndian [7; 8; 7] [7; 8] world_two_clients
              Hrun Hwf Hacc eq_refl Hnd Hin)
    as (w' & Hturns & _ & Hwire & _).
  exists w'. split; [exact Hturns |].
  destruct (Hwire 7) as (s7 & Hw7 & _ & Hp7).
  destruct (Hwire 8) as (s8 & Hw8 & _ & Hp8).
  simpl in Hw7, Hw8. rewrite Hw7, Hw8. split; [exact Hp7 | exact Hp8].
Defined.

(** ** The server and its owner *)



(* ===================================================================== *)
(** * The display switch of Camera and Demo *)
(* ===================================================================== *)

Lemma getDisplayStatus_enableDisplay (K : Z) (c : Camera) (e : bool) :
  getDisplayStatus K (enableDisplay K c e) = e.
Proof.
  unfold getDisplayStatus, enableDisplay. cbn [m_cam_type].
  destruct (m_cam_type c =? K) eqn:Hk; cbn [m_cam_type m_display m_display_merge];
    rewrite Hk; [| reflexivity].
  destruct e; reflexivity.
Qed.

Lemma getDisplayStatus_flags (K : Z) (c : Camera) :
  getDisplayStatus K c
  = if m_cam_type c =? K then m_display c || m_display_merge c else m_display c.
Proof.
  unfold getDisplayStatus. destruct (m_cam_type c =? K); [| reflexivity].
  destruct (m_display c), (m_display_merge c); reflexivity.
Qed.

(** When all cameras report the same status, [Demo::getDisplayStatus]
    reports it, unless there is no camera. *)
Lemma Demo_getDisplayStatus_agree (K : Z) (b : bool) (cams : camera_map) :
  (forall kc, In kc cams -> getDisplayStatus K (snd kc) = b) ->
  cams <> [] ->
  Demo_getDisplayStatus K cams = b.
Proof.
  unfold Demo_getDisplayStatus. generalize false as st.
  induction cams as [| kc cams IH]; intros st Hall Hne; [contradiction |].
  cbn [fold_left].
  destruct cams as [| kc' cams'].
  - cbn [fold_left]. apply Hall. left. reflexivity.
  - apply IH; [| discriminate].
    intros x Hx. apply Hall. right. exact Hx.
Qed.

(** X17.  The display switch.  A camera reports displaying when
    [m_display] is set, or, for the Kunlun A model, when either of its
    two display flags is set.  After [Demo::display(enable)] every camera
    reports [enable], and so does [Demo::getDisplayStatus], except that
    with no camera attached it reports [false] whatever was asked: there
    the switch cannot be turned on.  The cameras and their order are
    unchanged. *)
Theorem Demo_display_status (K : Z) (cams : camera_map) (enable : bool) :
  (forall c, getDisplayStatus K c
             = if m_cam_type c =? K then m_display c || m_display_merge c
               else m_display c) /\
  (forall kc, In kc (Demo_display K cams enable) ->
              getDisplayStatus K (snd kc) = enable) /\
  Demo_getDisplayStatus K (Demo_display K cams enable)
  = match cams with [] => false | _ :: _ => enable end /\
  map fst (Demo_display K cams enable) = map fst cams /\
  map (fun kc => m_cam_type (snd kc)) (Demo_display K cams enable)
  = map (fun kc => m_cam_type (snd kc)) cams.
Proof.
  split; [apply getDisplayStatus_flags |].
  assert (Hall : forall kc, In kc (Demo_display K cams enable) ->
                            getDisplayStatus K (snd kc) = enable).
  { intros kc Hin. unfold Demo_display in Hin. apply in_map_iff in Hin.
    destruct Hin as (kc0 & <- & _). cbn [snd].
    apply getDisplayStatus_enableDisplay. }
  split; [exact Hall |].
  split.
  - destruct cams as [| kc cams]; [reflexivity |].
    apply Demo_getDisplayStatus_agree; [exact Hall | discriminate].
  - split.
    + unfold Demo_display. rewrite map_map. reflexivity.
    + unfold Demo_display. rewrite map_map. apply map_ext.
      intros kc. cbn [snd]. unfold enableDisplay. cbn [m_cam_type].
      destruct (m_cam_type (snd kc) =? K); reflexivity.
Qed.

Lemma existsb_false_all {A : Type} (f : A -> bool) (l : list A) :
  existsb f l = false -> forall x, In x l -> f x = false.
Proof.
  intros H x Hin.
  destruct (f x) eqn:Hfx; [| reflexivity].
  assert (Hex : existsb f l = true) by (apply existsb_exists; exists x; auto).
  congruence.
Qed.

(** X18.  Attaching a camera keeps the cameras in agreement: after
    [Demo::onCameraAttached] either every camera reports displaying or
    none does (every one does as soon as one did, the new one included;
    so a camera attached while the others display starts displaying too),
    and whatever the order in which the map is iterated
    [Demo::getDisplayStatus] reports that common status.  Attaching a
    handle that is already in the map adds nothing; a new handle is
    added to the handles there were. *)
Theorem onCameraAttached_agree (K : Z) (i1 i2 i3 i4 : bool)
    (cams : camera_map) (pCamera cam_type : Z) :
  let cams' := onCameraAttached K i1 i2 i3 i4 cams pCamera cam_type in
  let status :=
    existsb (fun kc => getDisplayStatus K (snd kc))
            (map_insert cams pCamera (Camera_new i1 i2 i3 i4 cam_type)) in
  (forall kc, In kc cams' -> getDisplayStatus K (snd kc) = status) /\
  (forall order, Permutation order cams' -> Demo_getDisplayStatus K order = status) /\
  map fst cams' = map fst (map_insert cams pCamera (Camera_new i1 i2 i3 i4 cam_type)) /\
  (In pCamera (map fst cams) -> map fst cams' = map fst cams) /\
  (~ In pCamera (map fst cams) ->
   Permutation (map fst cams') (pCamera :: map fst cams)).
Proof.
  intros cams' status.
  set (cams1 := map_insert cams pCamera (Camera_new i1 i2 i3 i4 cam_type)) in *.
  assert (Hne1 : cams1 <> []).
  { subst cams1. unfold map_insert.
    destruct (existsb (fun kc => fst kc =? pCamera) cams) eqn:Hex; [| discriminate].
    destruct cams; [discriminate Hex | discriminate]. }
  assert (Hkeys : map fst cams' = map fst cams1).
  { subst cams'. unfold onCameraAttached. fold cams1.
    destruct (existsb (fun kc => getDisplayStatus K (snd kc)) cams1); [| reflexivity].
    rewrite map_map. reflexivity. }
  assert (Hall : forall kc, In kc cams' -> getDisplayStatus K (snd kc) = status).
  { subst cams' status. unfold onCameraAttached. fold cams1.
    destruct (existsb (fun kc => getDisplayStatus K (snd kc)) cams1) eqn:Hex.
    - intros kc Hin. apply in_map_iff in Hin. destruct Hin as (kc0 & <- & _).
      cbn [snd]. apply getDisplayStatus_enableDisplay.
    - intros kc Hin.
      apply (existsb_false_all (fun kc => getDisplayStatus K (snd kc)) cams1 Hex kc Hin). }
  split; [exact Hall |].
  split.
  { intros order Hperm. apply Demo_getDisplayStatus_agree.
    - intros kc Hin. apply Hall. apply (Permutation_in _ Hperm). exact Hin.
    - intros ->. apply Permutation_nil in Hperm.
      apply (f_equal (map fst)) in Hperm. rewrite Hkeys in Hperm.
      destruct cams1; [contradiction | discriminate]. }
  split; [exact Hkeys |].
  rewrite Hkeys. subst cams1. unfold map_insert.
  split.
  - intros Hin. apply in_map_iff in Hin. destruct Hin as (kc & Hk & Hin).
    assert (Hex : existsb (fun kc => fst kc =? pCamera) cams = true).
    { apply existsb_exists. exists kc. split; [exact Hin |].
      rewrite Hk. apply Z.eqb_refl. }
    rewrite Hex. reflexivity.
  - intros Hnot.
    destruct (existsb (fun kc => fst kc =? pCamera) cams) eqn:Hex;
      [| apply Permutation_refl].
    exfalso. apply existsb_exists in Hex. destruct Hex as (kc & Hin & Hk).
    apply Hnot. apply in_map_iff. exists kc.
    split; [apply Z.eqb_eq; exact Hk | exact Hin].
Qed.

Lemma Demo_display_status_witness :
  Demo_getDisplayStatus 9 cams_example = false /\
  getDisplayStatus 9 (mkCamera 9 false false false true) = true /\
  Demo_getDisplayStatus 9 (Demo_display 9 cams_example true) = true /\
  Demo_getDisplayStatus 9 (Demo_display 9 [] true) = false.
Proof.
  destruct (Demo_display_status 9 cams_example true) as (_ & _ & Hon & _).
  destruct (Demo_display_status 9 [] true) as (Hflags & _ & Hnone & _).
  split; [reflexivity |].
  split; [rewrite Hflags; reflexivity |].
  split; [exact Hon | exact Hnone].
Defined.

Lemma onCameraAttached_agree_witness :
  (forall kc,
     In kc (onCameraAttached 9 false false false false cams_example 300 2) ->
     getDisplayStatus 9 (snd kc) = true) /\
  Permutation (map fst (onCameraAttached 9 false false false false cams_example 300 2))
              [300; 100; 200] /\
  map fst (onCameraAttached 9 false false false false cams_example 100 2)
  = [100; 200].
Proof.
  destruct (onCameraAttached_agree 9 false false false false cams_example 300 2)
    as (Hall & _ & _ & _ & Hnew).
  destruct (onCameraAttached_agree 9 false false false false cams_example 100 2)
    as (_ & _ & _ & Hold & _).
  split; [exact Hall |].
  split.
  - apply Hnew. simpl. intros [H | [H | []]]; discriminate H.
  - apply Hold. simpl. left. reflexivity.
Defined.
